(** * The reporting core of pytest-zebrunner

    The development follows the three sources of the agent:

    - [api/models.py]: the status and notification enumerations and the
      payload models sent to the reporting service;
    - [zebrunner_api/client.py]: the HTTP client [ZebrunnerAPI];
    - [reporting_service.py]: the orchestrator [ReportingService].

    The orchestrator imports its client from the [api] package, whose
    [client.py] is not among the sources; the client embedded here is the one
    of the [zebrunner_api] package. The orchestrator's calls fit its
    operations, with two exceptions that are pointed out where they occur:
    [get_rerun_tests], which it does not define, and the two session
    operations, which it declares without the run id that the orchestrator
    passes first, so that these calls do not bind.

    Python code that mutates the process-wide context, talks to the network
    and may raise is written in a state-and-exception monad over a [world]
    that holds the execution context, the client state and the ordered trace
    of everything observable the code did (requests sent, log records,
    handler registration, log flush, client close). *)

From Stdlib Require Import ZArith Ascii String List Bool Lia.
From stdpp Require Import base decidable option list gmap strings pretty.

Open Scope Z_scope.

(** ** Python values

    Marker arguments, marker keyword arguments and the identifiers parsed from
    a JSON response are dynamically typed in the source; [value] keeps the
    shapes that the code distinguishes. *)

Inductive value : Type :=
| VNone
| VBool (b : bool)
| VInt (z : Z)
| VStr (s : string).

#[global] Instance value_eq_dec : EqDecision value.
Proof. solve_decision. Defined.

(** Truth value of an object in a condition ([if x:]). *)
Definition truthy (v : value) : bool :=
  match v with
  | VNone => false
  | VBool b => b
  | VInt z => negb (z =? 0)%Z
  | VStr s => negb (s =? "")%string
  end.

(** [x is not None]. *)
Definition is_not_none (v : value) : bool :=
  match v with VNone => false | _ => true end.

(** Truth value of an [Optional[str]] setting. *)
Definition truthy_opt (o : option string) : bool :=
  match o with
  | None => false
  | Some s => negb (s =? "")%string
  end.

(** [str(x)] on the values above. *)
Definition py_str (v : value) : string :=
  match v with
  | VNone => "None"
  | VBool true => "True"
  | VBool false => "False"
  | VInt z => pretty z
  | VStr s => s
  end.

(** ** Strings: [str.split] and [str.join] *)

Module PyString.

(** [s.startswith(p)]. *)
Fixpoint startswith (p s : string) : bool :=
  match p, s with
  | EmptyString, _ => true
  | String a p', String b s' => Ascii.eqb a b && startswith p' s'
  | String _ _, EmptyString => false
  end.

(** [sep in s]. *)
Fixpoint contains (sep s : string) : bool :=
  match s with
  | EmptyString => startswith sep EmptyString
  | String _ s' => startswith sep s || contains sep s'
  end.

(** [s.split(sep)] for a non-empty separator: the input is scanned from the
    left and is cut at every occurrence of [sep] that does not overlap the
    previous cut. [skip] counts the characters of a matched separator that
    are still to be dropped, [acc] is the segment being read. *)
Fixpoint split_go (sep : string) (skip : nat) (acc s : string) : list string :=
  match s with
  | EmptyString => [acc]
  | String c s' =>
      match skip with
      | S k => split_go sep k acc s'
      | O =>
          if startswith sep s
          then acc :: split_go sep (String.length sep - 1) EmptyString s'
          else split_go sep 0 (acc +:+ String c EmptyString) s'
      end
  end.

Definition split (sep s : string) : list string :=
  split_go sep 0 EmptyString s.

(** [sep.join(l)]. *)
Fixpoint join (sep : string) (l : list string) : string :=
  match l with
  | [] => EmptyString
  | [x] => x
  | x :: rest => x +:+ sep +:+ join sep rest
  end.

End PyString.

(** ** The models of [api/models.py] *)

Inductive TestStatus : Type :=
| UNKNOWN | IN_PROGRESS | PASSED | FAILED | SKIPPED | ABORTED | QUEUED.

Definition TestStatus_value (s : TestStatus) : string :=
  match s with
  | UNKNOWN => "UNKNOWN"
  | IN_PROGRESS => "IN_PROGRESS"
  | PASSED => "PASSED"
  | FAILED => "FAILED"
  | SKIPPED => "SKIPPED"
  | ABORTED => "ABORTED"
  | QUEUED => "QUEUED"
  end.

Inductive NotificationsType : Type :=
| EMAIL_RECIPIENTS | MS_TEAMS_CHANNELS | SLACK_CHANNELS.

Definition NotificationsType_value (t : NotificationsType) : string :=
  match t with
  | EMAIL_RECIPIENTS => "EMAIL_RECIPIENTS"
  | MS_TEAMS_CHANNELS => "MS_TEAMS_CHANNELS"
  | SLACK_CHANNELS => "SLACK_CHANNELS"
  end.

(** Timestamps are kept as the clock reading they are rendered from
    (microseconds since the epoch) instead of their ISO-8601 text. *)
Definition timestamp := Z.

Record TestRunConfigModel : Type := {
  cfg_environment : option string;
  cfg_build : option string
}.

Record MilestoneModel : Type := {
  ms_id : option Z;
  ms_name : option string
}.

Record CiContextModel : Type := {
  ci_type : string;
  env_variables : list (string * string)
}.

Record NotificationTargetModel : Type := {
  nt_type : string;
  nt_value : string
}.

Record StartTestRunModel : Type := {
  str_name : string;
  str_framework : string;
  str_started_at : timestamp;
  str_uuid : string;
  str_config : option TestRunConfigModel;
  str_milestone : option MilestoneModel;
  str_ci_context : option CiContextModel;
  str_notification_targets : option (list NotificationTargetModel)
}.

Record LabelModel : Type := {
  label_key : string;
  label_value : string
}.

Record CorrelationDataModel : Type := {
  cd_name : string
}.

Record StartTestModel : Type := {
  st_name : string;
  st_class_name : string;
  st_method_name : string;
  st_uuid : string;
  st_started_at : timestamp;
  st_correlation_data : option string;
  st_maintainer : option string;
  st_test_case : option string;
  st_labels : list LabelModel
}.

Record FinishTestModel : Type := {
  ft_result : string;
  ft_ended_at : timestamp;
  ft_reason : value
}.

Record LogRecordModel : Type := {
  lr_test_id : string;
  lr_level : string;
  lr_timestamp : string;
  lr_message : string
}.

Record StartTestSessionModel : Type := {
  ss_session_id : string;
  ss_started_at : timestamp;
  ss_desired_capabilities : list (string * value);
  ss_capabilities : list (string * value);
  ss_test_ids : list string
}.

Record FinishTestSessionModel : Type := {
  fs_ended_at : timestamp;
  fs_test_ids : list string
}.

Record TestModel : Type := {
  tm_name : string;
  tm_correlation_data : option CorrelationDataModel;
  tm_status : string;
  tm_started_at : timestamp;
  tm_ended_at : timestamp
}.

Record RerunDataModel : Type := {
  rr_id : string;
  rr_run_exists : bool;
  rr_rerun_only_failed_tests : bool;
  rr_tests : list TestModel
}.

(** ** Test-framework inputs

    What the orchestrator reads from pytest's [Item] and [TestReport]. *)

Record Mark : Type := {
  mark_name : string;
  mark_args : list value;
  mark_kwargs : list (string * value)
}.

(** [kwargs.get(key, default)]. *)
Fixpoint kwargs_get (key : string) (default : value) (kw : list (string * value)) : value :=
  match kw with
  | [] => default
  | (k, v) :: rest => if (k =? key)%string then v else kwargs_get key default rest
  end.

(** An item carries its own markers and, behind them, the markers inherited
    from the enclosing class, module and packages. *)
Record Item : Type := {
  item_name : string;
  nodeid : string;
  own_markers : list Mark;
  inherited_markers : list Mark
}.

Definition has_name (name : string) (m : Mark) : bool :=
  (mark_name m =? name)%string.

(** [item.iter_markers(name)]: the markers of that name, nearest first. *)
Definition iter_markers (name : string) (item : Item) : list Mark :=
  List.filter (has_name name) (own_markers item ++ inherited_markers item).

Inductive report_outcome : Type := OutcomePassed | OutcomeFailed | OutcomeSkipped.

Record TestReport : Type := {
  outcome : report_outcome;
  longreprtext : string
}.

Definition report_passed (r : TestReport) : bool :=
  match outcome r with OutcomePassed => true | _ => false end.

Definition report_skipped (r : TestReport) : bool :=
  match outcome r with OutcomeSkipped => true | _ => false end.

(** ** Settings

    The configuration object read through [zebrunner_context.settings]. *)

(** The client is built from the host name and the access token, and its
    constructor sets its attributes only when both are non-empty; the settings
    that the orchestrator runs under are of that kind. *)
Record ServerSettings : Type := {
  hostname : string;
  access_token : string;
  server_set : truthy (VStr hostname) && truthy (VStr access_token) = true
}.

Record RunSettings : Type := {
  display_name : string;
  environment : option string;
  build : option string;
  context : option string
}.

Record MilestoneSettings : Type := {
  milestone_id : option Z;
  milestone_name : option string
}.

Record NotificationsSettings : Type := {
  emails : option string;
  slack_channels : option string;
  ms_teams_channels : option string
}.

Record Settings : Type := {
  project_key : string;
  server : ServerSettings;
  run : RunSettings;
  milestone : option MilestoneSettings;
  notifications : option NotificationsSettings;
  send_logs : bool
}.

(** ** Execution context *)

(** Modelled from the spec: the module [pytest_zebrunner.context] is not among
    the sources. A Run has a name, an environment label, a build label and a
    server-assigned identifier that is absent until the start call succeeds. *)
Record TestRun : Type := {
  run_name : string;
  run_environment : option string;
  run_build : option string;
  run_zebrunner_id : value
}.

(** Modelled from the spec: the module [pytest_zebrunner.context] is not among
    the sources. A Test has a display name, a source-file identifier, its
    maintainers, its labels and a server-assigned identifier that is absent if
    the Run was inactive at start time or the start call failed. *)
Record Test : Type := {
  test_name : string;
  test_file : string;
  test_maintainers : list value;
  test_labels : list (string * string);
  test_zebrunner_id : value
}.

(** [test_run.zebrunner_id = zid]. *)
Definition TestRun_set_zebrunner_id (r : TestRun) (zid : value) : TestRun :=
  {| run_name := run_name r;
     run_environment := run_environment r;
     run_build := run_build r;
     run_zebrunner_id := zid |}.

(** [test.zebrunner_id = zid]. *)
Definition Test_set_zebrunner_id (t : Test) (zid : value) : Test :=
  {| test_name := test_name t;
     test_file := test_file t;
     test_maintainers := test_maintainers t;
     test_labels := test_labels t;
     test_zebrunner_id := zid |}.

(** ** Requests, responses and the trace *)

Inductive request : Type :=
| AuthRefresh (refresh_token : string)
| StartTestRun (key : string) (body : StartTestRunModel)
| StartTest (test_run_id : value) (body : StartTestModel)
| FinishTest (test_run_id test_id : value) (body : FinishTestModel)
| FinishTestRun (test_run_id : value) (ended_at : timestamp)
| SendLogs (test_run_id : value) (logs : list LogRecordModel)
| SendScreenshot (test_run_id test_id : value) (content : string).

(** What [response.json()] parses a body to: an object, kept as the map from
    its keys to their values, or a JSON value of another kind (an array, a
    string, a number, a boolean, null). *)
Inductive json : Type :=
| JObject (fields : gmap string value)
| JOther.

(** A response is its status code and its body; [json_body] is [None] for a body
    that is not JSON (an empty body, an HTML error page). *)
Record response : Type := {
  status_code : Z;
  json_body : option json
}.

(** What the transport does with a request: it raises [httpx.RequestError]
    (connection refused, timeout, DNS or TLS failure) or hands a response. *)
Inductive net_outcome : Type :=
| TransportFailure
| Responded (r : response).

Inductive log_level : Type := DEBUG | WARNING | ERROR.

Inductive log_record : Type :=
| RequestErrorRecord
| ResponseRecord (r : response).

Inductive event : Type :=
| Sent (r : request)
| Logged (lvl : log_level) (rec : log_record)
| HandlerAdded
| LogsPushed
| ClientClosed.

(** ** The world and the monad of effects *)

Record world : Type := {
  ctx_test_run : option TestRun;
  ctx_test : option Test;
  api_authenticated : bool;
  api_auth_token : value;
  zebrunner_handlers : nat;
  trace : list event
}.

Inductive exn : Type :=
| IndexError
| KeyError
| TypeError
| JSONDecodeError
| RequestError
| FileNotFoundError
| NotImplementedError.

Inductive result (A : Type) : Type :=
| Ok (a : A)
| Raise (e : exn).

Arguments Ok {A} a.
Arguments Raise {A} e.

(** Computations that may raise and touch nothing else. *)
Definition result_bind {A B} (k : A -> result B) (r : result A) : result B :=
  match r with
  | Ok a => k a
  | Raise e => Raise e
  end.

#[global] Instance result_mret : MRet result := @Ok.
#[global] Instance result_mbind : MBind result := @result_bind.

(** [l[i]]. *)
Definition index {A} (l : list A) (i : nat) : result A :=
  match nth_error l i with
  | Some x => Ok x
  | None => Raise IndexError
  end.

(** [[f(x) for x in l]], stopping at the first raise. *)
Fixpoint comprehension {A B} (f : A -> result B) (l : list A) : result (list B) :=
  match l with
  | [] => Ok []
  | x :: rest =>
      y ← f x;
      ys ← comprehension f rest;
      Ok (y :: ys)
  end.

(** [sep.join(l)] on values: [str.join] raises [TypeError] on an element that
    is not a string. *)
Fixpoint as_strings (l : list value) : result (list string) :=
  match l with
  | [] => Ok []
  | VStr s :: rest => ss ← as_strings rest; Ok (s :: ss)
  | _ :: _ => Raise TypeError
  end.

Definition join_values (sep : string) (l : list value) : result string :=
  ss ← as_strings l; Ok (PyString.join sep ss).

(** [response.json()]: raises on a body that is not JSON. *)
Definition response_json (resp : response) : result json :=
  match json_body resp with
  | Some j => Ok j
  | None => Raise JSONDecodeError
  end.

(** [j[key]] on a parsed body: [KeyError] on an object without the key,
    [TypeError] on a JSON value that is not an object. *)
Definition getitem (j : json) (key : string) : result value :=
  match j with
  | JObject fields =>
      match fields !! key with
      | Some v => Ok v
      | None => Raise KeyError
      end
  | JOther => Raise TypeError
  end.

(** Objects handed to a method as positional arguments. *)
Inductive pyobj : Type :=
| OValue (v : value)
| OStartTestSession (m : StartTestSessionModel)
| OFinishTestSession (m : FinishTestSessionModel).

Definition M (A : Type) : Type := world -> result A * world.

Definition ret {A} (a : A) : M A := fun w => (Ok a, w).

Definition bind {A B} (k : A -> M B) (m : M A) : M B :=
  fun w =>
    match m w with
    | (Ok a, w') => k a w'
    | (Raise e, w') => (Raise e, w')
    end.

#[global] Instance M_ret : MRet M := @ret.
#[global] Instance M_bind : MBind M := @bind.

Definition raise {A} (e : exn) : M A := fun w => (Raise e, w).

(** A computation that may raise and touches nothing else, run in place. *)
Definition lift {A} (r : result A) : M A := fun w => (r, w).

Definition gets {A} (f : world -> A) : M A := fun w => (Ok (f w), w).

Definition modify (f : world -> world) : M unit := fun w => (Ok tt, f w).

(** [try: m except httpx.RequestError: handler]. *)
Definition except_RequestError {A} (m handler : M A) : M A :=
  fun w =>
    match m w with
    | (Raise RequestError, w') => handler w'
    | other => other
    end.

(** The world after the events [l]. *)
Definition extend (l : list event) (w : world) : world :=
  {| ctx_test_run := ctx_test_run w;
     ctx_test := ctx_test w;
     api_authenticated := api_authenticated w;
     api_auth_token := api_auth_token w;
     zebrunner_handlers := zebrunner_handlers w;
     trace := trace w ++ l |}.

Definition with_test_run (r : option TestRun) (w : world) : world :=
  {| ctx_test_run := r;
     ctx_test := ctx_test w;
     api_authenticated := api_authenticated w;
     api_auth_token := api_auth_token w;
     zebrunner_handlers := zebrunner_handlers w;
     trace := trace w |}.

Definition with_test (t : option Test) (w : world) : world :=
  {| ctx_test_run := ctx_test_run w;
     ctx_test := t;
     api_authenticated := api_authenticated w;
     api_auth_token := api_auth_token w;
     zebrunner_handlers := zebrunner_handlers w;
     trace := trace w |}.

Definition with_auth_token (token : value) (w : world) : world :=
  {| ctx_test_run := ctx_test_run w;
     ctx_test := ctx_test w;
     api_authenticated := true;
     api_auth_token := token;
     zebrunner_handlers := zebrunner_handlers w;
     trace := trace w |}.

Definition with_handler (w : world) : world :=
  {| ctx_test_run := ctx_test_run w;
     ctx_test := ctx_test w;
     api_authenticated := api_authenticated w;
     api_auth_token := api_auth_token w;
     zebrunner_handlers := S (zebrunner_handlers w);
     trace := trace w ++ [HandlerAdded] |}.

Definition emit (e : event) : M unit := modify (extend [e]).

Definition set_test_run (r : option TestRun) : M unit := modify (with_test_run r).

Definition set_test (t : option Test) : M unit := modify (with_test t).

(** [self._auth_token = ...; self.authenticated = True]. *)
Definition set_authenticated (token : value) : M unit := modify (with_auth_token token).

(** [logging.root.addHandler(ZebrunnerHandler())]. *)
Definition add_handler : M unit := modify with_handler.

(** The process before the plugin has started anything: no Run, no Test, a
    client that has not authenticated, no log sink. *)
Definition initial_world : world :=
  {| ctx_test_run := None;
     ctx_test := None;
     api_authenticated := false;
     api_auth_token := VNone;
     zebrunner_handlers := 0;
     trace := [] |}.

(** ** Context predicates *)

(** Modelled from the spec: the module [pytest_zebrunner.context] is not among
    the sources. The Run is active when a Run is current and its server
    identifier is present. *)
Definition test_run_is_active (w : world) : bool :=
  match ctx_test_run w with
  | Some r => is_not_none (run_zebrunner_id r)
  | None => false
  end.

(** Modelled from the spec: the module [pytest_zebrunner.context] is not among
    the sources. The Test is active when the Run is active, a Test is current
    and its server identifier is present. *)
Definition test_is_active (w : world) : bool :=
  test_run_is_active w &&
  match ctx_test w with
  | Some t => is_not_none (test_zebrunner_id t)
  | None => false
  end.

(** Modelled from the spec: the module [pytest_zebrunner.context] is not among
    the sources. The server identifier of the current Run. *)
Definition test_run_id (w : world) : value :=
  match ctx_test_run w with
  | Some r => run_zebrunner_id r
  | None => VNone
  end.

(** Modelled from the spec: the module [pytest_zebrunner.context] is not among
    the sources. The server identifier of the current Test. *)
Definition test_id (w : world) : value :=
  match ctx_test w with
  | Some t => test_zebrunner_id t
  | None => VNone
  end.

(** ** The environment

    Everything the code reads from outside: the settings, the network, the
    clock, the UUID generator, the CI resolver, the JSON serializer, the file
    system and the one client operation whose source is not available. All
    readings are indexed by the length of the trace at the time of the
    reading, so that they may change from one call to the next. *)

Record env : Type := {
  settings : Settings;
  net : nat -> request -> net_outcome;
  utcnow : nat -> timestamp;
  uuid4 : nat -> string;
  resolve_ci_context : option CiContextModel;
  correlation_json : CorrelationDataModel -> string;
  open_rb : string -> option string;
  (** [ZebrunnerAPI.get_rerun_tests]: called by the orchestrator, not defined
      in [zebrunner_api/client.py]. *)
  get_rerun_tests : string -> M RerunDataModel
}.

Definition one_second : Z := 1000000.

(** [s.rstrip(c)]. *)
Fixpoint rstrip (c : ascii) (s : string) : string :=
  match s with
  | EmptyString => EmptyString
  | String a s' =>
      match rstrip c s' with
      | EmptyString => if Ascii.eqb a c then EmptyString else String a EmptyString
      | r => String a r
      end
  end.

(** [datetime.utcnow()] and [uuid4()], read at the current point of the
    execution. *)
Definition now (E : env) : M timestamp := gets (fun w => utcnow E (length (trace w))).

Definition fresh_uuid (E : env) : M string := gets (fun w => uuid4 E (length (trace w))).

(** ** [zebrunner_api/client.py] *)

Module ZebrunnerAPI.

Section Client.

Variable E : env.

Definition service_url : string := rstrip "/"%char (hostname (server (settings E))).

(** [self._client.post(...)] and [self._client.put(...)]: the request goes
    out, and the transport either raises or returns the response. *)
Definition client_send (r : request) : M response :=
  n ← gets (fun w => length (trace w));
  emit (Sent r);;
  match net E n r with
  | TransportFailure => raise RequestError
  | Responded resp => ret resp
  end.

(** The message handed to [logger.log] is an f-string: its parts, the
    rendering of [response.json()] among them, are evaluated before the
    record is written, so a body that is not JSON raises and nothing is
    logged. *)
Definition log_response (resp : response) (lvl : log_level) : M unit :=
  _ ← lift (response_json resp);
  emit (Logged lvl (ResponseRecord resp)).

(** The [try: response = ... except httpx.RequestError] block that opens
    [auth], [start_test_run], [start_test], [finish_test] and
    [finish_test_run]: on a transport failure a warning is logged and the
    operation returns. *)
Definition send_or_warn (r : request) : M (option response) :=
  except_RequestError
    (resp ← client_send r; ret (Some resp))
    (emit (Logged WARNING RequestErrorRecord);; ret None).

Definition auth : M unit :=
  if negb (truthy (VStr (access_token (server (settings E)))))
     || negb (truthy (VStr service_url))
  then ret tt
  else
    r ← send_or_warn (AuthRefresh (access_token (server (settings E))));
    match r with
    | None => ret tt
    | Some resp =>
        if negb (status_code resp =? 200)%Z
        then log_response resp ERROR
        else
          j ← lift (response_json resp);
          token ← lift (getitem j "authToken");
          set_authenticated token
    end.

Definition start_test_run (key : string) (body : StartTestRunModel) : M value :=
  r ← send_or_warn (StartTestRun key body);
  match r with
  | None => ret VNone
  | Some resp =>
      if negb (status_code resp =? 200)%Z
      then log_response resp ERROR;; ret VNone
      else j ← lift (response_json resp); lift (getitem j "id")
  end.

Definition start_test (run_id : value) (body : StartTestModel) : M value :=
  r ← send_or_warn (StartTest run_id body);
  match r with
  | None => ret VNone
  | Some resp =>
      if negb (status_code resp =? 200)%Z
      then log_response resp ERROR;; ret VNone
      else j ← lift (response_json resp); lift (getitem j "id")
  end.

Definition finish_test (run_id tid : value) (body : FinishTestModel) : M unit :=
  r ← send_or_warn (FinishTest run_id tid body);
  match r with
  | None => ret tt
  | Some resp =>
      if negb (status_code resp =? 200)%Z
      then log_response resp ERROR
      else ret tt
  end.

Definition finish_test_run (run_id : value) : M unit :=
  t ← now E;
  r ← send_or_warn (FinishTestRun run_id (t - one_second));
  match r with
  | None => ret tt
  | Some resp =>
      if negb (status_code resp =? 200)%Z
      then log_response resp ERROR
      else ret tt
  end.

(** No [try] here: what the transport raises leaves the client. *)
Definition send_logs (run_id : value) (logs : list LogRecordModel) : M unit :=
  client_send (SendLogs run_id logs);; ret tt.

Definition send_screenshot (run_id tid : value) (image_path : string) : M unit :=
  match open_rb E image_path with
  | None => raise FileNotFoundError
  | Some image => client_send (SendScreenshot run_id tid image);; ret tt
  end.

(** [start_test_session] and [finish_test_session] are stubs: the endpoint is
    a comment in the source and the body returns at once, so no request
    leaves the client. They take the positional arguments of the call and
    bind them to the parameters that the source declares behind [self]:
    [body] for the first, [zebrunner_id] and [body] for the second. A call
    with another number of positional arguments raises [TypeError] before the
    body runs; the annotations of the parameters are not checked. *)
Definition start_test_session (args : list pyobj) : M value :=
  match args with
  | [body] => ret VNone
  | _ => raise TypeError
  end.

Definition finish_test_session (args : list pyobj) : M unit :=
  match args with
  | [zebrunner_id; body] => ret tt
  | _ => raise TypeError
  end.

Definition send_artifact (run_id : value) : M unit :=
  raise NotImplementedError.

Definition close : M unit := emit ClientClosed.

End Client.

End ZebrunnerAPI.

(** ** [reporting_service.py] *)

Module ReportingService.

Section Service.

Variable E : env.

Definition authorize : M unit :=
  a ← gets api_authenticated;
  if negb a then ZebrunnerAPI.auth E else ret tt.

(** One [if value: configs.append(...)] of [get_notification_configurations]. *)
Definition target_if_set (t : NotificationsType) (v : option string)
  : list NotificationTargetModel :=
  match v with
  | Some s =>
      if negb (s =? "")%string
      then [ {| nt_type := NotificationsType_value t; nt_value := s |} ]
      else []
  | None => []
  end.

Definition get_notification_configurations : option (list NotificationTargetModel) :=
  match notifications (settings E) with
  | Some n =>
      Some (target_if_set EMAIL_RECIPIENTS (emails n)
            ++ target_if_set SLACK_CHANNELS (slack_channels n)
            ++ target_if_set MS_TEAMS_CHANNELS (ms_teams_channels n))
  | None => None
  end.

Definition start_test_run : M unit :=
  authorize;;
  let test_run :=
    {| run_name := display_name (run (settings E));
       run_environment := environment (run (settings E));
       run_build := build (run (settings E));
       run_zebrunner_id := VNone |} in
  set_test_run (Some test_run);;
  let milestone_model :=
    match milestone (settings E) with
    | Some m => Some {| ms_id := milestone_id m; ms_name := milestone_name m |}
    | None => None
    end in
  t ← now E;
  u ← fresh_uuid E;
  zid ← ZebrunnerAPI.start_test_run E (project_key (settings E))
    {| str_name := run_name test_run;
       str_framework := "pytest";
       str_started_at := t;
       str_uuid := u;
       str_config := Some {| cfg_environment := run_environment test_run;
                             cfg_build := run_build test_run |};
       str_milestone := milestone_model;
       str_ci_context := resolve_ci_context E;
       str_notification_targets := get_notification_configurations |};
  (* test_run.zebrunner_id = ...: the object the context holds *)
  set_test_run (Some (TestRun_set_zebrunner_id test_run zid));;
  if send_logs (settings E) then add_handler else ret tt.

(** [item.nodeid.split("::")[1]]. *)
Definition nodeid_file (item : Item) : result string :=
  index (PyString.split "::" (nodeid item)) 1.

(** Lines 88-93 of [start_test]: the Test built from the item. The keyword
    arguments are evaluated in the order they are written. *)
Definition build_test (item : Item) : result Test :=
  file ← nodeid_file item;
  maintainers ← comprehension (fun mark => index (mark_args mark) 0)
                              (iter_markers "maintainer" item);
  labels ← comprehension (fun mark =>
                            k ← index (mark_args mark) 0;
                            v ← index (mark_args mark) 1;
                            Ok (py_str k, py_str v))
                         (iter_markers "label" item);
  Ok {| test_name := item_name item;
        test_file := file;
        test_maintainers := maintainers;
        test_labels := labels;
        test_zebrunner_id := VNone |}.

(** Lines 109-117 of [start_test]: a test that the framework reports as
    skipped and that is active is finished at once. *)
Definition finish_skipped (report : TestReport) (item : Item) : M unit :=
  active ← gets test_is_active;
  if report_skipped report && active
  then
    let skip_markers := List.filter (has_name "skip") (own_markers item) in
    let skip_reason :=
      match skip_markers with
      | m :: _ => kwargs_get "reason" VNone (mark_kwargs m)
      | [] => VNone
      end in
    run_id ← gets test_run_id;
    tid ← gets test_id;
    t ← now E;
    ZebrunnerAPI.finish_test E run_id tid
      {| ft_result := TestStatus_value SKIPPED; ft_ended_at := t; ft_reason := skip_reason |};;
    set_test None
  else ret tt.

(** Lines 87-107 of [start_test]: the Test is built, made current and, when
    the Run is active, announced to the server. *)
Definition register_test (item : Item) : M unit :=
  authorize;;
  test ← lift (build_test item);
  set_test (Some test);;
  active ← gets test_run_is_active;
  if (active : bool)
  then
    run_id ← gets test_run_id;
    maintainer ← lift (join_values "," (test_maintainers test));
    u ← fresh_uuid E;
    t ← now E;
    zid ← ZebrunnerAPI.start_test E run_id
      {| st_name := test_name test;
         st_class_name := test_file test;
         st_method_name := test_name test;
         st_uuid := u;
         st_started_at := t;
         st_correlation_data := Some (correlation_json E {| cd_name := test_name test |});
         st_maintainer := Some maintainer;
         st_test_case := None;
         st_labels := map (fun l => {| label_key := fst l; label_value := snd l |})
                          (test_labels test) |};
    (* test.zebrunner_id = ...: the object the context holds *)
    set_test (Some (Test_set_zebrunner_id test zid))
  else ret tt.

Definition start_test (report : TestReport) (item : Item) : M unit :=
  register_test item;;
  finish_skipped report item.

(** Lines 122-142 of [finish_test]: the status and the reason of the finish
    payload. *)
Definition resolve_status (report : TestReport) (item : Item) : TestStatus * value :=
  let xfail_markers := iter_markers "xfail" item in
  let fail_reason :=
    match xfail_markers with
    | m :: _ => kwargs_get "reason" VNone (mark_kwargs m)
    | [] => VNone
    end in
  let is_strict :=
    match xfail_markers with
    | m :: _ => kwargs_get "strict" (VBool false) (mark_kwargs m)
    | [] => VBool false
    end in
  if report_passed report
  then
    match xfail_markers with
    | _ :: _ =>
        if truthy is_strict
        then (FAILED, VStr (longreprtext report))
        else (SKIPPED, fail_reason)
    | [] => (PASSED, fail_reason)
    end
  else
    match xfail_markers with
    | m :: _ => (SKIPPED, kwargs_get "reason" VNone (mark_kwargs m))
    | [] => (FAILED, VStr (longreprtext report))
    end.

Definition finish_test (report : TestReport) (item : Item) : M unit :=
  active ← gets test_is_active;
  if (active : bool)
  then
    authorize;;
    let '(status, fail_reason) := resolve_status report item in
    run_id ← gets test_run_id;
    tid ← gets test_id;
    t ← now E;
    ZebrunnerAPI.finish_test E run_id tid
      {| ft_result := TestStatus_value status; ft_ended_at := t; ft_reason := fail_reason |};;
    set_test None
  else ret tt.

(** Modelled from the spec: [ZebrunnerHandler] is not among the sources.
    The log sink buffers records and is flushed by the orchestrator at run
    end; the flush is recorded in the trace. *)
Definition push_logs : M unit := emit LogsPushed.

Definition finish_test_run : M unit :=
  authorize;;
  active ← gets test_run_is_active;
  (if (active : bool)
   then
     run_id ← gets test_run_id;
     ZebrunnerAPI.finish_test_run E run_id;;
     handlers ← gets zebrunner_handlers;
     if (0 <? handlers)%nat then push_logs else ret tt
   else ret tt);;
  ZebrunnerAPI.close.

Definition start_test_session
    (session_id : string) (capabilities desired_capabilities : list (string * value))
  : M value :=
  authorize;;
  active ← gets test_run_is_active;
  if (active : bool)
  then
    run_id ← gets test_run_id;
    t ← now E;
    (* two positional arguments: the run id and the model *)
    zebrunner_session_id ← ZebrunnerAPI.start_test_session
      [ OValue run_id;
        OStartTestSession
          {| ss_session_id := session_id;
             ss_started_at := t;
             ss_desired_capabilities := desired_capabilities;
             ss_capabilities := capabilities;
             ss_test_ids := [] |} ];
    ret zebrunner_session_id
  else ret VNone.

Definition finish_test_session (zebrunner_session_id : value) (related_tests : list string)
  : M unit :=
  authorize;;
  active ← gets test_run_is_active;
  if (active : bool)
  then
    run_id ← gets test_run_id;
    t ← now E;
    (* three positional arguments: the run id, the session id and the model *)
    ZebrunnerAPI.finish_test_session
      [ OValue run_id;
        OValue zebrunner_session_id;
        OFinishTestSession {| fs_ended_at := t; fs_test_ids := related_tests |} ]
  else ret tt.

(** The set comprehension of [filter_test_items]. *)
Definition rerun_names (context_data : RerunDataModel) : gset string :=
  list_to_set
    (omap (fun x => match tm_correlation_data x with
                    | Some c => Some (cd_name c)
                    | None => None
                    end)
          (rr_tests context_data)).

Definition filter_test_items (items : list Item) : M (list Item) :=
  match context (run (settings E)) with
  | Some run_context =>
      authorize;;
      context_data ← get_rerun_tests E run_context;
      ret (List.filter (fun x => bool_decide (item_name x ∈ rerun_names context_data)) items)
  | None => ret items
  end.

End Service.

End ReportingService.

Import ReportingService.

(** ** [to_camel_case]: the alias generator of the models

    Every model derives from [CamelModel], whose fields go on the wire under
    the alias [to_camel_case] gives them. The keys are the ASCII field names
    of the models; on bytes that are not ASCII letters the case functions
    below are the identity. *)

Module Camel.

Definition is_lower (c : ascii) : bool :=
  (97 <=? nat_of_ascii c)%nat && (nat_of_ascii c <=? 122)%nat.

Definition is_upper (c : ascii) : bool :=
  (65 <=? nat_of_ascii c)%nat && (nat_of_ascii c <=? 90)%nat.

Definition upper (c : ascii) : ascii :=
  if is_lower c then ascii_of_nat (nat_of_ascii c - 32) else c.

Definition lower (c : ascii) : ascii :=
  if is_upper c then ascii_of_nat (nat_of_ascii c + 32) else c.

(** [s.lower()]. *)
Fixpoint lower_string (s : string) : string :=
  match s with
  | EmptyString => EmptyString
  | String c rest => String (lower c) (lower_string rest)
  end.

(** [s.capitalize()]: the first character in upper case, the others in
    lower case. *)
Definition capitalize (s : string) : string :=
  match s with
  | EmptyString => EmptyString
  | String c rest => String (upper c) (lower_string rest)
  end.

(** [enumerate(l)]. *)
Definition enumerate {A} (l : list A) : list (nat * A) :=
  imap (fun i x => (i, x)) l.

(** The loop [for i, part in enumerate(parts[1:]): parts[i + 1] = part.capitalize()]:
    the slice is a copy, the assignments go to the list itself. *)
Definition capitalize_tail (parts : list string) : list string :=
  foldl (fun acc ip => <[S (fst ip) := capitalize (snd ip)]> acc)
        parts
        (enumerate (tail parts)).

Definition to_camel_case (key : string) : string :=
  let parts := PyString.split "_" key in
  PyString.join "" (capitalize_tail parts).

(** [s.replace(c, "")] for a character [c]. *)
Fixpoint remove_char (c : ascii) (s : string) : string :=
  match s with
  | EmptyString => EmptyString
  | String a rest => if Ascii.eqb a c then remove_char c rest else String a (remove_char c rest)
  end.

(** [c in s] for a character [c]. *)
Fixpoint has_char (c : ascii) (s : string) : bool :=
  match s with
  | EmptyString => false
  | String a rest => Ascii.eqb a c || has_char c rest
  end.

End Camel.

(** * Observations on the trace *)

(** The events added between two worlds of one execution. *)
Definition emitted (w w' : world) : list event :=
  drop (length (trace w)) (trace w').

(** The finish-test calls among some events, with their payload. *)
Definition finish_test_calls (l : list event) : list (value * value * FinishTestModel) :=
  omap (fun e => match e with
                 | Sent (FinishTest run_id tid body) => Some (run_id, tid, body)
                 | _ => None
                 end) l.

(** Remote calls of the test lifecycle: start-test and finish-test. *)
Definition is_test_lifecycle_call (e : event) : bool :=
  match e with
  | Sent (StartTest _ _) | Sent (FinishTest _ _ _) => true
  | _ => false
  end.

(** What an authentication leaves in the trace: the refresh request and
    log records. *)
Definition is_auth_event (e : event) : bool :=
  match e with
  | Sent (AuthRefresh _) | Logged _ _ => true
  | _ => false
  end.

Definition is_log (e : event) : bool :=
  match e with
  | Logged _ _ => true
  | _ => false
  end.

(** The remote call did not succeed: the transport failed or the status is
    not 200. *)
Definition call_failed (o : net_outcome) : bool :=
  match o with
  | TransportFailure => true
  | Responded resp => negb (status_code resp =? 200)%Z
  end.

(** What [log_response] writes for a response: one record at ERROR, or
    nothing when rendering the body raises. *)
Definition response_logs (resp : response) : list event :=
  match json_body resp with
  | Some _ => [Logged ERROR (ResponseRecord resp)]
  | None => []
  end.

(** The log records a guarded client operation writes for an outcome. *)
Definition outcome_logs (o : net_outcome) : list event :=
  match o with
  | TransportFailure => [Logged WARNING RequestErrorRecord]
  | Responded resp =>
      if negb (status_code resp =? 200)%Z then response_logs resp else []
  end.

(** What a guarded client operation that reads [key] from a 200 answer
    returns or raises for an outcome. *)
Definition returned (key : string) (o : net_outcome) : result value :=
  match o with
  | TransportFailure => Ok VNone
  | Responded resp =>
      if negb (status_code resp =? 200)%Z
      then _ ← response_json resp; Ok VNone
      else j ← response_json resp; getitem j key
  end.

(** What a guarded client operation that reads nothing from a 200 answer
    returns or raises for an outcome. *)
Definition acknowledged (o : net_outcome) : result unit :=
  match o with
  | TransportFailure => Ok tt
  | Responded resp =>
      if negb (status_code resp =? 200)%Z
      then _ ← response_json resp; Ok tt
      else Ok tt
  end.

(** The identifier a guarded client operation hands to its caller for an
    outcome: none when it returns nothing and none when it raises. *)
Definition returned_id (o : net_outcome) : value :=
  match returned "id" o with
  | Ok v => v
  | Raise _ => VNone
  end.

(** A result with its value forgotten. *)
Definition discard {A} (r : result A) : result unit :=
  match r with
  | Ok _ => Ok tt
  | Raise e => Raise e
  end.

Definition succeeds {A} (r : result A) : bool :=
  match r with
  | Ok _ => true
  | Raise _ => false
  end.

(** The context and the log sink are the same in both worlds. *)
Definition same_context (w w' : world) : Prop :=
  ctx_test_run w' = ctx_test_run w /\
  ctx_test w' = ctx_test w /\
  zebrunner_handlers w' = zebrunner_handlers w.

(** The first [xfail] marker that applies to an item, if any. *)
Definition first_xfail (item : Item) : option Mark := head (iter_markers "xfail" item).

(** The start-test payload for a Test, its joined maintainers and the trace
    length at which the clock and the UUID generator are read. *)
Definition start_test_payload (E : env) (t : Test) (maintainer : string) (n : nat)
  : StartTestModel :=
  {| st_name := test_name t;
     st_class_name := test_file t;
     st_method_name := test_name t;
     st_uuid := uuid4 E n;
     st_started_at := utcnow E n;
     st_correlation_data := Some (correlation_json E {| cd_name := test_name t |});
     st_maintainer := Some maintainer;
     st_test_case := None;
     st_labels := map (fun l => {| label_key := fst l; label_value := snd l |}) (test_labels t) |}.

(** The reason of the first [skip] marker among the item's own markers. *)
Definition skip_reason (item : Item) : value :=
  match List.filter (has_name "skip") (own_markers item) with
  | m :: _ => kwargs_get "reason" VNone (mark_kwargs m)
  | [] => VNone
  end.

(** The first [skip] marker among the item's own markers, if any. *)
Definition first_skip (item : Item) : option Mark :=
  head (List.filter (has_name "skip") (own_markers item)).

(** The Run that [start_test_run] builds from the settings. *)
Definition configured_run (E : env) : TestRun :=
  {| run_name := display_name (run (settings E));
     run_environment := environment (run (settings E));
     run_build := build (run (settings E));
     run_zebrunner_id := VNone |}.

(** The start-run payload, with the trace length at which the clock and the
    UUID generator are read. *)
Definition start_run_payload (E : env) (n : nat) : StartTestRunModel :=
  {| str_name := display_name (run (settings E));
     str_framework := "pytest";
     str_started_at := utcnow E n;
     str_uuid := uuid4 E n;
     str_config := Some {| cfg_environment := environment (run (settings E));
                           cfg_build := build (run (settings E)) |};
     str_milestone :=
       match milestone (settings E) with
       | Some m => Some {| ms_id := milestone_id m; ms_name := milestone_name m |}
       | None => None
       end;
     str_ci_context := resolve_ci_context E;
     str_notification_targets := get_notification_configurations E |}.

(** ** Sequences of framework events *)

(** The per-test events the framework hands to the orchestrator. *)
Inductive test_event : Type :=
| StartTestEvent (report : TestReport) (item : Item)
| FinishTestEvent (report : TestReport) (item : Item).

Definition handle (E : env) (ev : test_event) : M unit :=
  match ev with
  | StartTestEvent report item => start_test E report item
  | FinishTestEvent report item => finish_test E report item
  end.

(** The events are handled in order; an error that leaves a handler ends the
    sequence. *)
Fixpoint handle_all (E : env) (evs : list test_event) : M unit :=
  match evs with
  | [] => ret tt
  | ev :: rest => handle E ev;; handle_all E rest
  end.

(** One test of a run: the report at its start, the report at its finish and
    the item. *)
Record test_case : Type := {
  start_report : TestReport;
  finish_report : TestReport;
  case_item : Item
}.

(** [start_test] then [finish_test] for each case in turn, up to the first
    call that raises. The result lists, for every [finish_test] call that
    took place, the world it was called in, what it returned or raised and
    the world it left. *)
Fixpoint finish_snapshots (E : env) (cases : list test_case) (w : world)
  : list (world * result unit * world) :=
  match cases with
  | [] => []
  | c :: rest =>
      match start_test E (start_report c) (case_item c) w with
      | (Ok _, w1) =>
          match finish_test E (finish_report c) (case_item c) w1 with
          | (Ok u, w2) => (w1, Ok u, w2) :: finish_snapshots E rest w2
          | (Raise e, w2) => [(w1, Raise e, w2)]
          end
      | (Raise _, _) => []
      end
  end.

(** What one [finish_test] call does to the current Test: when it returns,
    no Test is active, and the slot is empty if the Test was active before;
    on a Test that is not active it returns and changes nothing. *)
Definition finish_effect (before : world) (r : result unit) (after : world) : Prop :=
  (r = Ok tt ->
   test_is_active after = false /\
   (test_is_active before = true -> ctx_test after = None)) /\
  (test_is_active before = false -> r = Ok tt /\ after = before).

(** ** Notification targets *)

(** The three channels of a notification block, in the order they are read. *)
Definition channels (n : NotificationsSettings) : list (NotificationsType * option string) :=
  [(EMAIL_RECIPIENTS, emails n);
   (SLACK_CHANNELS, slack_channels n);
   (MS_TEAMS_CHANNELS, ms_teams_channels n)].

(** The channels whose destination value is non-empty; none without a
    notification block. *)
Definition configured_channels (s : Settings) : list (NotificationsType * option string) :=
  match notifications s with
  | Some n => List.filter (fun c => truthy_opt (snd c)) (channels n)
  | None => []
  end.

(** The targets that a result of [get_notification_configurations] carries. *)
Definition targets_carried (o : option (list NotificationTargetModel))
  : list NotificationTargetModel :=
  match o with
  | Some l => l
  | None => []
  end.

(** ** Rerun filtering *)

(** Some test entry of the descriptor carries correlation data with this
    name. *)
Definition named_in_descriptor (data : RerunDataModel) (name : string) : bool :=
  existsb (fun t => match tm_correlation_data t with
                    | Some c => (cd_name c =? name)%string
                    | None => false
                    end)
          (rr_tests data).

(** ** Further observations on the trace *)

(** The start-test calls among some events, with their payload. *)
Definition start_test_calls (l : list event) : list (value * StartTestModel) :=
  omap (fun e => match e with
                 | Sent (StartTest run_id body) => Some (run_id, body)
                 | _ => None
                 end) l.

(** The start-run calls among some events, with their payload. *)
Definition start_run_calls (l : list event) : list (string * StartTestRunModel) :=
  omap (fun e => match e with
                 | Sent (StartTestRun key body) => Some (key, body)
                 | _ => None
                 end) l.

(** The authentication refreshes among some events. *)
Definition auth_calls (l : list event) : list string :=
  omap (fun e => match e with
                 | Sent (AuthRefresh token) => Some token
                 | _ => None
                 end) l.

(** The statuses the orchestrator reports. *)
Definition reported_statuses : list TestStatus := [PASSED; FAILED; SKIPPED].

(** What a per-test event may leave in the trace under the Run [run_id] and a
    client that was authenticated or not before the event: log records, an
    authentication refresh if the client was not authenticated, and start-test
    and finish-test calls for that Run, the latter with one of the statuses
    above. *)
Definition test_event_ok (run_id : value) (authenticated : bool) (e : event) : Prop :=
  match e with
  | Sent (AuthRefresh _) => authenticated = false
  | Sent (StartTest rid _) => rid = run_id
  | Sent (FinishTest rid _ body) =>
      rid = run_id /\ In (ft_result body) (map TestStatus_value reported_statuses)
  | Logged _ _ => True
  | _ => False
  end.

(** A value that is a string. *)
Definition is_str (v : value) : bool :=
  match v with VStr _ => true | _ => false end.

(** An event that a per-test event may leave under the Run [run_id]: a log
    record, an authentication refresh, or a start-test or finish-test call
    that names this Run. *)
Definition belongs_to_run (run_id : value) (e : event) : Prop :=
  match e with
  | Sent (AuthRefresh _) | Logged _ _ => True
  | Sent (StartTest rid _) | Sent (FinishTest rid _ _) => rid = run_id
  | _ => False
  end.

(** The last character of a string. *)
Fixpoint last_char (s : string) : option ascii :=
  match s with
  | EmptyString => None
  | String c EmptyString => Some c
  | String _ rest => last_char rest
  end.

(** [c * n]. *)
Fixpoint repeat_char (c : ascii) (n : nat) : string :=
  match n with
  | O => EmptyString
  | S k => String c (repeat_char c k)
  end.

(** A start-test or finish-test call. *)
Definition is_test_call (e : event) : bool :=
  match e with
  | Sent (StartTest _ _) | Sent (FinishTest _ _ _) => true
  | _ => false
  end.

(** Position [i] of the trace [tr], not before [n0] and before [j], holds a
    start-test call for the Run [rid] that was answered with the identifier
    [tid], and no start-test or finish-test call lies strictly between [i]
    and [j]. The answer to a request is the network's at the position of the
    request in the trace. *)
Definition started_at (E : env) (tr : list event) (n0 i j : nat) (rid tid : value) : Prop :=
  (n0 <= i < j)%nat /\
  (exists body,
     tr !! i = Some (Sent (StartTest rid body)) /\
     returned_id (net E i (StartTest rid body)) = tid) /\
  forall k e, (i < k < j)%nat -> tr !! k = Some e -> is_test_call e = false.

(** Every finish-test call of [tr] from position [n0] on names an identifier
    that is present and that the latest start-test call before it returned. *)
Definition finishes_paired (E : env) (n0 : nat) (tr : list event) : Prop :=
  forall j rid tid body,
    (n0 <= j)%nat ->
    tr !! j = Some (Sent (FinishTest rid tid body)) ->
    tid <> VNone /\ exists i, started_at E tr n0 i j rid tid.

(** The invariant of the per-test events: the finish-test calls are paired,
    and an active current Test carries the identifier that the latest
    start-test call returned, with no finish-test call after it. *)
Definition pairing_inv (E : env) (n0 : nat) (w : world) : Prop :=
  (n0 <= length (trace w))%nat /\
  finishes_paired E n0 (trace w) /\
  (test_is_active w = true ->
   exists i, started_at E (trace w) n0 i (length (trace w)) (test_run_id w) (test_id w)).

(** The body of the response is a JSON object that has [key], with the value
    [v]. *)
Definition carries (key : string) (v : value) (resp : response) : Prop :=
  exists fields, json_body resp = Some (JObject fields) /\ fields !! key = Some v.

(** Reading [key] from the answer raises: the body is not JSON, or the
    status is 200 and the body is not a JSON object that has [key]. *)
Definition unreadable (key : string) (o : net_outcome) : Prop :=
  exists resp,
    o = Responded resp /\
    (json_body resp = None \/
     status_code resp = 200 /\ ~ exists v, carries key v resp).

(** * Sample inputs

    Concrete settings, networks, items, reports and worlds on which the
    statements below are evaluated. *)

Module Samples.

Definition config : Settings :=
  {| project_key := "DEF";
     server := {| hostname := "https://zebrunner.example/"; access_token := "token";
                  server_set := eq_refl |};
     run := {| display_name := "nightly"; environment := Some "stage"; build := None;
               context := None |};
     milestone := None;
     notifications :=
       Some {| emails := Some "qa@example.org";
               slack_channels := Some "";
               ms_teams_channels := Some "reports" |};
     send_logs := true |}.

Definition config_rerun : Settings :=
  {| project_key := "DEF";
     server := {| hostname := "https://zebrunner.example/"; access_token := "token";
                  server_set := eq_refl |};
     run := {| display_name := "nightly"; environment := Some "stage"; build := None;
               context := Some "rerun-token" |};
     milestone := None;
     notifications := None;
     send_logs := false |}.

(** A JSON object with a fresh identifier and a token. *)
Definition fresh_object (n : nat) : json :=
  JObject (<["id" := VInt (Z.of_nat (S n))]> {["authToken" := VStr "bearer"]}).

(** Every request is answered with status 200 and a fresh identifier. *)
Definition net_up (n : nat) (r : request) : net_outcome :=
  Responded {| status_code := 200; json_body := Some (fresh_object n) |}.

(** A gateway error: status 502 and an HTML page as body. *)
Definition bad_gateway : response := {| status_code := 502; json_body := None |}.

(** Every request dies in the transport. *)
Definition net_down (n : nat) (r : request) : net_outcome := TransportFailure.

(** The server answers, except that every start-test call dies in the
    transport. *)
Definition net_start_test_down (n : nat) (r : request) : net_outcome :=
  match r with
  | StartTest _ _ => TransportFailure
  | _ => net_up n r
  end.

(** The server answers, except that every finish-test call dies in the
    transport. *)
Definition net_finish_test_down (n : nat) (r : request) : net_outcome :=
  match r with
  | FinishTest _ _ _ => TransportFailure
  | _ => net_up n r
  end.

(** The server answers, except that every finish-test call meets a gateway
    error. *)
Definition net_finish_test_502 (n : nat) (r : request) : net_outcome :=
  match r with
  | FinishTest _ _ _ => Responded bad_gateway
  | _ => net_up n r
  end.

(** The server answers, except that every finish-run call meets a gateway
    error. *)
Definition net_finish_run_502 (n : nat) (r : request) : net_outcome :=
  match r with
  | FinishTestRun _ _ => Responded bad_gateway
  | _ => net_up n r
  end.

Definition rerun_data : RerunDataModel :=
  {| rr_id := "rerun-token";
     rr_run_exists := true;
     rr_rerun_only_failed_tests := false;
     rr_tests :=
       [ {| tm_name := "test_a";
            tm_correlation_data := Some {| cd_name := "test_a" |};
            tm_status := "FAILED";
            tm_started_at := 0;
            tm_ended_at := 0 |} ] |}.

Definition env_of (s : Settings) (network : nat -> request -> net_outcome) : env :=
  {| settings := s;
     net := network;
     utcnow := fun n => 1700000000000000 + Z.of_nat n;
     uuid4 := fun n => pretty n;
     resolve_ci_context := None;
     correlation_json := cd_name;
     open_rb := fun path => if (path =? "shot.png")%string then Some "PNG" else None;
     get_rerun_tests := fun token => ret rerun_data |}.

Definition env_up : env := env_of config net_up.
Definition env_down : env := env_of config net_down.

Definition item_a : Item :=
  {| item_name := "test_a";
     nodeid := "tests/test_api.py::test_a";
     own_markers := [];
     inherited_markers := [] |}.

Definition item_b : Item :=
  {| item_name := "test_b";
     nodeid := "tests/test_api.py::test_b";
     own_markers := [];
     inherited_markers := [] |}.

Definition xfail_known : Mark :=
  {| mark_name := "xfail"; mark_args := []; mark_kwargs := [("reason", VStr "known issue")] |}.

Definition item_xfail : Item :=
  {| item_name := "test_x";
     nodeid := "tests/test_api.py::test_x";
     own_markers := [xfail_known];
     inherited_markers := [] |}.

Definition item_skip : Item :=
  {| item_name := "test_s";
     nodeid := "tests/test_api.py::test_s";
     own_markers :=
       [ {| mark_name := "skip"; mark_args := []; mark_kwargs := [("reason", VStr "env")] |} ];
     inherited_markers := [] |}.

(** An item whose node id has no [::] separator. *)
Definition item_flat : Item :=
  {| item_name := "test_a";
     nodeid := "test_a";
     own_markers := [];
     inherited_markers := [] |}.

Definition passed : TestReport := {| outcome := OutcomePassed; longreprtext := "" |}.
Definition failed : TestReport :=
  {| outcome := OutcomeFailed; longreprtext := "AssertionError: 1 != 2" |}.
Definition skipped : TestReport :=
  {| outcome := OutcomeSkipped; longreprtext := "Skipped: env" |}.

(** An authenticated client and an active Run, no current Test. *)
Definition run_active : world :=
  {| ctx_test_run :=
       Some {| run_name := "nightly"; run_environment := Some "stage"; run_build := None;
               run_zebrunner_id := VInt 7 |};
     ctx_test := None;
     api_authenticated := true;
     api_auth_token := VStr "bearer";
     zebrunner_handlers := 1;
     trace := [] |}.

(** An authenticated client, an active Run and an active Test. *)
Definition test_active : world :=
  with_test
    (Some {| test_name := "test_x"; test_file := "test_x"; test_maintainers := [];
             test_labels := []; test_zebrunner_id := VInt 9 |})
    run_active.

(** A Run whose start call failed, and a client that is not authenticated. *)
Definition run_inactive : world :=
  {| ctx_test_run :=
       Some {| run_name := "nightly"; run_environment := Some "stage"; run_build := None;
               run_zebrunner_id := VNone |};
     ctx_test := None;
     api_authenticated := false;
     api_auth_token := VNone;
     zebrunner_handlers := 0;
     trace := [] |}.

End Samples.

(** Further sample inputs. *)

Module MoreSamples.

(** A [maintainer] marker without argument. *)
Definition item_bare_maintainer : Item :=
  {| item_name := "test_m";
     nodeid := "tests/test_api.py::test_m";
     own_markers := [ {| mark_name := "maintainer"; mark_args := []; mark_kwargs := [] |} ];
     inherited_markers := [] |}.

(** A [maintainer] marker whose argument is a number. *)
Definition item_numeric_maintainer : Item :=
  {| item_name := "test_n";
     nodeid := "tests/test_api.py::test_n";
     own_markers :=
       [ {| mark_name := "maintainer"; mark_args := [VInt 7]; mark_kwargs := [] |} ];
     inherited_markers := [] |}.

Definition test_numeric_maintainer : Test :=
  {| test_name := "test_n";
     test_file := "test_n";
     test_maintainers := [VInt 7];
     test_labels := [];
     test_zebrunner_id := VNone |}.

(** A method of a class, with two maintainers and a label. *)
Definition item_method : Item :=
  {| item_name := "test_ok";
     nodeid := "tests/test_api.py::TestLogin::test_ok";
     own_markers :=
       [ {| mark_name := "maintainer"; mark_args := [VStr "alice"]; mark_kwargs := [] |};
         {| mark_name := "label"; mark_args := [VStr "priority"; VInt 1]; mark_kwargs := [] |} ];
     inherited_markers :=
       [ {| mark_name := "maintainer"; mark_args := [VStr "bob"]; mark_kwargs := [] |} ] |}.

Definition test_method : Test :=
  {| test_name := "test_ok";
     test_file := "TestLogin";
     test_maintainers := [VStr "alice"; VStr "bob"];
     test_labels := [("priority", "1")];
     test_zebrunner_id := VNone |}.

End MoreSamples.

(** * Facts *)

Lemma extend_extend l1 l2 w : extend l2 (extend l1 w) = extend (l1 ++ l2) w.
Proof. unfold extend; simpl. by rewrite app_assoc. Qed.

Lemma extend_nil w : extend [] w = w.
Proof. destruct w; unfold extend; simpl. by rewrite app_nil_r. Qed.

Lemma emitted_extend l w : emitted w (extend l w) = l.
Proof. unfold emitted, extend; simpl. apply drop_app_length. Qed.

Lemma emitted_refl w : emitted w w = [].
Proof. unfold emitted. apply drop_all. Qed.

Lemma emitted_app w1 w2 l1 :
  trace w2 = trace w1 ++ l1 -> emitted w1 w2 = l1.
Proof. unfold emitted. intros ->. apply drop_app_length. Qed.

(** The context predicates read the context only. *)
Lemma test_run_is_active_extend l w : test_run_is_active (extend l w) = test_run_is_active w.
Proof. reflexivity. Qed.

Lemma test_run_is_active_with_test t w :
  test_run_is_active (with_test t w) = test_run_is_active w.
Proof. reflexivity. Qed.

Lemma test_run_id_extend l w : test_run_id (extend l w) = test_run_id w.
Proof. reflexivity. Qed.

Lemma test_run_id_with_test t w : test_run_id (with_test t w) = test_run_id w.
Proof. reflexivity. Qed.

Lemma test_is_active_extend l w : test_is_active (extend l w) = test_is_active w.
Proof. reflexivity. Qed.

Lemma test_id_extend l w : test_id (extend l w) = test_id w.
Proof. reflexivity. Qed.

Lemma test_id_with_test t w : test_id (with_test (Some t) w) = test_zebrunner_id t.
Proof. reflexivity. Qed.

Lemma test_is_active_with_test t w :
  test_is_active (with_test (Some t) w)
  = test_run_is_active w && is_not_none (test_zebrunner_id t).
Proof. reflexivity. Qed.

Lemma test_is_active_cleared w : test_is_active (with_test None w) = false.
Proof. unfold test_is_active. simpl. apply andb_false_r. Qed.

Create Rewrite HintDb world.

#[local] Hint Rewrite
  test_run_is_active_extend test_run_is_active_with_test
  test_run_id_extend test_run_id_with_test
  test_is_active_extend test_id_extend test_id_with_test
  test_is_active_with_test test_is_active_cleared : world.

#[local] Arguments test_run_is_active : simpl never.
#[local] Arguments test_is_active : simpl never.
#[local] Arguments test_run_id : simpl never.
#[local] Arguments test_id : simpl never.

Lemma bind_eq {A B} (k : A -> M B) (m : M A) w :
  (m ≫= k) w =
  match m w with
  | (Ok a, w') => k a w'
  | (Raise e, w') => (Raise e, w')
  end.
Proof. reflexivity. Qed.

Ltac run_monad :=
  repeat first
    [ rewrite bind_eq
    | progress unfold emit, set_test, set_test_run, set_authenticated, add_handler,
        modify, gets, ret, raise, mret, M_ret, now, fresh_uuid, ZebrunnerAPI.log_response, index
    | progress simpl ].

Ltac world_eq :=
  unfold extend, with_test, with_test_run, with_auth_token, with_handler; simpl;
  rewrite <- ?app_assoc; simpl; try reflexivity.

(** Every log record and every request that a guarded operation leaves
    for an outcome. *)
Lemma outcome_logs_are_logs o : Forall (fun e => is_log e = true) (outcome_logs o).
Proof.
  destruct o as [|resp]; simpl; [by repeat constructor|].
  destruct (negb _); [|constructor].
  unfold response_logs. destruct (json_body resp); by repeat constructor.
Qed.

Lemma discard_returned_acknowledged key o :
  call_failed o = true -> discard (returned key o) = acknowledged o.
Proof.
  destruct o as [|resp]; simpl; [done|]. intros ->.
  by destruct (response_json resp).
Qed.

(** Reading [key] from an answer, told from the answer. *)
Lemma returned_value_iff key o v :
  returned key o = Ok v /\ v <> VNone <->
  exists resp, o = Responded resp /\ status_code resp = 200 /\
               carries key v resp /\ v <> VNone.
Proof.
  unfold carries. split.
  - intros [Hret Hne]. destruct o as [|resp]; simpl in Hret; [congruence|].
    exists resp. split; [done|]. unfold response_json in Hret.
    destruct (status_code resp =? 200)%Z eqn:Hst; cbn [negb] in Hret.
    + apply Z.eqb_eq in Hst.
      destruct (json_body resp) as [[fields|]|]; simpl in Hret; try discriminate Hret.
      destruct (fields !! key) as [v0|] eqn:Hkey; [|discriminate Hret].
      injection Hret as ->. repeat split; try done. by exists fields.
    + destruct (json_body resp); simpl in Hret; congruence.
  - intros (resp & -> & Hst & (fields & Hbody & Hkey) & Hne). split; [|done].
    simpl. unfold response_json. rewrite Hst, Hbody. simpl. by rewrite Hkey.
Qed.

Lemma returned_raise_iff key o :
  (exists e, returned key o = Raise e) <-> unreadable key o.
Proof.
  unfold unreadable, carries. split.
  - intros [e Hret]. destruct o as [|resp]; simpl in Hret; [discriminate Hret|].
    exists resp. split; [done|]. unfold response_json in Hret.
    destruct (json_body resp) as [j|] eqn:Hbody; [right|by left].
    destruct (status_code resp =? 200)%Z eqn:Hst; cbn [negb] in Hret;
      [|discriminate Hret].
    split; [by apply Z.eqb_eq|].
    intros (v & fields & [= ->] & Hkey). simpl in Hret. by rewrite Hkey in Hret.
  - intros (resp & -> & [Hbody|[Hst Hno]]); simpl; unfold response_json.
    + rewrite Hbody. destruct (negb _); by eexists.
    + rewrite Hst. simpl.
      destruct (json_body resp) as [[fields|]|]; simpl; try by eexists.
      destruct (fields !! key) as [v|] eqn:Hkey; [|by eexists].
      destruct Hno. by exists v, fields.
Qed.

Lemma returned_no_transport_error key o : returned key o <> Raise RequestError.
Proof.
  destruct o as [|resp]; simpl; [done|]. unfold response_json.
  destruct (negb _), (json_body resp) as [[fields|]|]; simpl; try done.
  by destruct (fields !! key).
Qed.

(** An operation that reads nothing from a 200 answer returns unless the
    answer has another status and a body that is not JSON. *)
Lemma acknowledged_ok_iff o :
  acknowledged o = Ok tt <->
  forall resp, o = Responded resp -> status_code resp = 200 \/ json_body resp <> None.
Proof.
  destruct o as [|resp]; simpl; [by split|]. unfold response_json.
  destruct (status_code resp =? 200)%Z eqn:Hst; cbn [negb].
  - apply Z.eqb_eq in Hst. split; [|done]. intros _ r [= <-]. by left.
  - apply Z.eqb_neq in Hst. destruct (json_body resp) as [j|] eqn:Hbody; simpl.
    + split; [|done]. intros _ r [= <-]. right. congruence.
    + split; [done|]. intros Hok. by destruct (Hok resp eq_refl).
Qed.

Section ClientFacts.

Variable E : env.

Lemma send_or_warn_eq r w :
  ZebrunnerAPI.send_or_warn E r w =
  match net E (length (trace w)) r with
  | TransportFailure =>
      (Ok None, extend [Sent r; Logged WARNING RequestErrorRecord] w)
  | Responded resp => (Ok (Some resp), extend [Sent r] w)
  end.
Proof.
  unfold ZebrunnerAPI.send_or_warn, except_RequestError, ZebrunnerAPI.client_send. run_monad.
  destruct (net E (length (trace w)) r); run_monad; world_eq.
Qed.

Lemma log_response_eq resp lvl w :
  ZebrunnerAPI.log_response resp lvl w =
  match json_body resp with
  | Some _ => (Ok tt, extend [Logged lvl (ResponseRecord resp)] w)
  | None => (Raise JSONDecodeError, w)
  end.
Proof.
  unfold ZebrunnerAPI.log_response, response_json, lift. rewrite bind_eq.
  by destruct (json_body resp).
Qed.

Lemma read_key_eq key resp w :
  (j ← lift (response_json resp); lift (getitem j key)) w
  = (j ← response_json resp; getitem j key, w).
Proof.
  rewrite bind_eq. unfold lift. by destruct (response_json resp).
Qed.

Lemma api_finish_test_eq run_id tid body w :
  let call := FinishTest run_id tid body in
  let o := net E (length (trace w)) call in
  ZebrunnerAPI.finish_test E run_id tid body w
  = (acknowledged o, extend (Sent call :: outcome_logs o) w).
Proof.
  cbv zeta. unfold ZebrunnerAPI.finish_test. rewrite bind_eq, send_or_warn_eq.
  destruct (net E _ _) as [|resp]; simpl; [done|].
  destruct (negb _); [|done].
  rewrite log_response_eq. unfold response_logs, response_json.
  destruct (json_body resp); simpl; [|done]. by rewrite extend_extend.
Qed.

Lemma api_start_test_eq run_id body w :
  let call := StartTest run_id body in
  let o := net E (length (trace w)) call in
  ZebrunnerAPI.start_test E run_id body w
  = (returned "id" o, extend (Sent call :: outcome_logs o) w).
Proof.
  cbv zeta. unfold ZebrunnerAPI.start_test. rewrite bind_eq, send_or_warn_eq.
  destruct (net E _ _) as [|resp]; simpl; [done|].
  destruct (negb _); [|by rewrite read_key_eq].
  rewrite bind_eq, log_response_eq. unfold response_logs, response_json.
  destruct (json_body resp); simpl; [|done]. by rewrite extend_extend.
Qed.

Lemma api_start_test_run_eq key body w :
  let call := StartTestRun key body in
  let o := net E (length (trace w)) call in
  ZebrunnerAPI.start_test_run E key body w
  = (returned "id" o, extend (Sent call :: outcome_logs o) w).
Proof.
  cbv zeta. unfold ZebrunnerAPI.start_test_run. rewrite bind_eq, send_or_warn_eq.
  destruct (net E _ _) as [|resp]; simpl; [done|].
  destruct (negb _); [|by rewrite read_key_eq].
  rewrite bind_eq, log_response_eq. unfold response_logs, response_json.
  destruct (json_body resp); simpl; [|done]. by rewrite extend_extend.
Qed.

Lemma api_finish_test_run_eq run_id w :
  let call := FinishTestRun run_id (utcnow E (length (trace w)) - one_second) in
  let o := net E (length (trace w)) call in
  ZebrunnerAPI.finish_test_run E run_id w
  = (acknowledged o, extend (Sent call :: outcome_logs o) w).
Proof.
  cbv zeta. unfold ZebrunnerAPI.finish_test_run. rewrite bind_eq. unfold now, gets at 1.
  rewrite bind_eq, send_or_warn_eq.
  destruct (net E _ _) as [|resp]; simpl; [done|].
  destruct (negb _); [|done].
  rewrite log_response_eq. unfold response_logs, response_json.
  destruct (json_body resp); simpl; [|done]. by rewrite extend_extend.
Qed.

(** [auth] on a client that holds a token and a service URL. *)
Lemma api_auth_eq w :
  truthy (VStr (ZebrunnerAPI.service_url E)) = true ->
  let call := AuthRefresh (access_token (server (settings E))) in
  let o := net E (length (trace w)) call in
  ZebrunnerAPI.auth E w =
  (discard (returned "authToken" o),
   match o, returned "authToken" o with
   | Responded resp, Ok token =>
       if negb (status_code resp =? 200)%Z
       then extend (Sent call :: outcome_logs o) w
       else with_auth_token token (extend [Sent call] w)
   | _, _ => extend (Sent call :: outcome_logs o) w
   end).
Proof.
  intros Hurl. cbv zeta. unfold ZebrunnerAPI.auth.
  pose proof (server_set (server (settings E))) as Hset.
  apply andb_true_iff in Hset as [_ Htoken].
  rewrite Htoken, Hurl. cbn [negb orb].
  rewrite bind_eq, send_or_warn_eq.
  destruct (net E _ _) as [|resp]; simpl; [done|].
  destruct (negb _).
  - rewrite log_response_eq. unfold response_logs, response_json.
    destruct (json_body resp); simpl; [|done]. by rewrite extend_extend.
  - rewrite bind_eq. unfold lift at 1. unfold response_json.
    destruct (json_body resp) as [j|]; simpl; [|done].
    rewrite bind_eq. unfold lift. by destruct (getitem j "authToken").
Qed.

End ClientFacts.

Lemma finish_test_calls_auth l :
  Forall (fun e => is_auth_event e = true) l -> finish_test_calls l = [].
Proof.
  induction 1 as [|e l He _ IH]; [done|].
  destruct e as [[]| | | |]; try discriminate He; exact IH.
Qed.

Lemma logs_are_auth_events l :
  Forall (fun e => is_log e = true) l -> Forall (fun e => is_auth_event e = true) l.
Proof.
  intros Hl. eapply Forall_impl; [exact Hl|]. intros e. by destruct e as [[]| | | |].
Qed.

Lemma finish_test_calls_logs o : finish_test_calls (outcome_logs o) = [].
Proof. apply finish_test_calls_auth, logs_are_auth_events, outcome_logs_are_logs. Qed.

Lemma finish_test_calls_app l1 l2 :
  finish_test_calls (l1 ++ l2) = finish_test_calls l1 ++ finish_test_calls l2.
Proof. unfold finish_test_calls. apply omap_app. Qed.

Section OrchestratorFacts.

Variable E : env.

Lemma same_context_active w w' :
  same_context w w' ->
  test_run_is_active w' = test_run_is_active w /\
  test_is_active w' = test_is_active w /\
  test_run_id w' = test_run_id w /\
  test_id w' = test_id w.
Proof.
  intros (Hr & Ht & _).
  unfold test_is_active, test_run_is_active, test_run_id, test_id.
  by rewrite Hr, Ht.
Qed.

(** [auth] may raise; whatever it does, it leaves the context alone and
    writes a refresh request and log records only. *)
Lemma api_auth_ok w :
  exists r w' l,
    ZebrunnerAPI.auth E w = (r, w') /\
    same_context w w' /\
    trace w' = trace w ++ l /\
    Forall (fun e => is_auth_event e = true) l.
Proof.
  destruct (truthy (VStr (ZebrunnerAPI.service_url E))) eqn:Hurl.
  2:{ exists (Ok tt), w, []. rewrite app_nil_r. unfold ZebrunnerAPI.auth.
      rewrite Hurl. cbn [negb]. rewrite orb_true_r. by repeat split. }
  rewrite (api_auth_eq E w Hurl).
  set (call := AuthRefresh _). set (o := net E _ _).
  pose proof (logs_are_auth_events _ (outcome_logs_are_logs o)) as Hlogs.
  assert (Hdefault : exists l,
             same_context w (extend (Sent call :: outcome_logs o) w) /\
             trace (extend (Sent call :: outcome_logs o) w) = trace w ++ l /\
             Forall (fun e => is_auth_event e = true) l).
  { exists (Sent call :: outcome_logs o). repeat split. by constructor. }
  destruct Hdefault as (l & Hl).
  destruct o as [|resp]; [by eexists _, _, l|].
  destruct (returned "authToken" (Responded resp)) as [token|e]; [|by eexists _, _, l].
  destruct (negb (status_code resp =? 200)%Z); [by eexists _, _, l|].
  eexists _, _, [Sent call]. split; [reflexivity|]. repeat split. by repeat constructor.
Qed.

Lemma authorize_ok w :
  exists ra w' l,
    authorize E w = (ra, w') /\
    same_context w w' /\
    trace w' = trace w ++ l /\
    Forall (fun e => is_auth_event e = true) l /\
    (api_authenticated w = true -> ra = Ok tt /\ w' = w).
Proof.
  unfold authorize. rewrite bind_eq. unfold gets at 1.
  destruct (api_authenticated w) eqn:Ha; cbn [negb].
  - exists (Ok tt), w, []. rewrite app_nil_r. by repeat split.
  - destruct (api_auth_ok w) as (r & w' & l & Heq & Hc & Ht & Hl).
    exists r, w', l. repeat split; try done; apply Hc.
Qed.

(** An authenticated client is not authenticated again. *)
Lemma authorize_authenticated w :
  api_authenticated w = true -> authorize E w = (Ok tt, w).
Proof.
  intros Ha. unfold authorize. rewrite bind_eq. unfold gets at 1. by rewrite Ha.
Qed.

(** A client that is not authenticated is. *)
Lemma authorize_not_authenticated w :
  api_authenticated w = false -> authorize E w = ZebrunnerAPI.auth E w.
Proof.
  intros Ha. unfold authorize. rewrite bind_eq. unfold gets at 1. by rewrite Ha.
Qed.

End OrchestratorFacts.

(** * [str.split] and the separator *)

Module PyStringFacts.
Import PyString.

Lemma append_nil_r s : s +:+ EmptyString = s.
Proof.
  induction s as [|c s IH]; [done|].
  change (String c (s +:+ EmptyString) = String c s). by rewrite IH.
Qed.

Lemma append_cons c s1 s2 : String c s1 +:+ s2 = String c (s1 +:+ s2).
Proof. reflexivity. Qed.

Lemma append_assoc s1 s2 s3 : (s1 +:+ s2) +:+ s3 = s1 +:+ (s2 +:+ s3).
Proof. induction s1 as [|c s1 IH]; [done|]. by rewrite !append_cons, IH. Qed.

Lemma startswith_spec p s :
  startswith p s = true <-> exists post, s = p +:+ post.
Proof.
  revert s. induction p as [|a p IH]; intros s; simpl.
  - split; [|done]. intros _. by exists s.
  - destruct s as [|b s].
    + split; [done|]. by intros [post Heq].
    + rewrite andb_true_iff, IH. split.
      * intros [Hab [post ->]]. apply Ascii.eqb_eq in Hab as ->. by exists post.
      * intros [post [= -> ->]]. split; [apply Ascii.eqb_refl|]. by exists post.
Qed.

(** [contains sep s] holds exactly when [sep] occurs in [s]. *)
Lemma contains_spec sep s :
  contains sep s = true <-> exists pre post, s = pre +:+ sep +:+ post.
Proof.
  induction s as [|c s IH]; simpl.
  - rewrite startswith_spec. split.
    + intros [post Heq]. by exists EmptyString, post.
    + intros (pre & post & Heq). destruct pre; [by exists post|done].
  - rewrite orb_true_iff, startswith_spec, IH. split.
    + intros [[post Heq]|(pre & post & ->)].
      * by exists EmptyString, post.
      * by exists (String c pre), post.
    + intros (pre & post & Heq). destruct pre as [|a pre]; simpl in Heq.
      * left. by exists post.
      * right. injection Heq as -> ->. by exists pre, post.
Qed.

Lemma split_go_nonempty sep skip acc s : (1 <= length (split_go sep skip acc s))%nat.
Proof.
  revert skip acc. induction s as [|c s IH]; intros skip acc; simpl; [lia|].
  destruct skip; [|apply IH].
  destruct (startswith sep (String c s)); simpl; [lia|apply IH].
Qed.

(** Without an occurrence of the separator the string is the only segment. *)
Lemma split_go_no_sep sep acc s :
  contains sep s = false -> split_go sep 0 acc s = [acc +:+ s].
Proof.
  revert acc. induction s as [|c s IH]; intros acc; simpl.
  - intros _. by rewrite append_nil_r.
  - intros [Hhere Hlater]%orb_false_iff. rewrite Hhere, (IH _ Hlater).
    by rewrite append_assoc.
Qed.

(** With an occurrence of a non-empty separator there are two segments at
    least. *)
Lemma split_go_sep sep acc s :
  sep <> EmptyString ->
  contains sep s = true -> (2 <= length (split_go sep 0 acc s))%nat.
Proof.
  intros Hsep. revert acc. induction s as [|c s IH]; intros acc; simpl.
  - destruct sep; [done|]. discriminate.
  - destruct (startswith sep (String c s)) eqn:Hhere; simpl.
    + intros _. pose proof (split_go_nonempty sep (String.length sep - 1) EmptyString s). lia.
    + intros Hlater. by apply IH.
Qed.

Lemma split_no_sep sep s : contains sep s = false -> split sep s = [s].
Proof. intros H. unfold split. by rewrite (split_go_no_sep _ _ _ H). Qed.

Lemma split_sep sep s :
  sep <> EmptyString -> contains sep s = true -> (2 <= length (split sep s))%nat.
Proof. apply split_go_sep. Qed.

End PyStringFacts.

(** * [finish_test] *)

Section FinishTest.

Variable E : env.

Lemma resolve_status_rows report item :
  resolve_status report item =
  match report_passed report, first_xfail item with
  | true, None => (PASSED, VNone)
  | true, Some m =>
      if truthy (kwargs_get "strict" (VBool false) (mark_kwargs m))
      then (FAILED, VStr (longreprtext report))
      else (SKIPPED, kwargs_get "reason" VNone (mark_kwargs m))
  | false, None => (FAILED, VStr (longreprtext report))
  | false, Some m => (SKIPPED, kwargs_get "reason" VNone (mark_kwargs m))
  end.
Proof.
  unfold resolve_status, first_xfail.
  destruct (report_passed report), (iter_markers "xfail" item); reflexivity.
Qed.

(** What [finish_test] does on an active Test: it makes sure the client is
    authenticated and, unless that raises, sends one finish-test call whose
    payload carries the resolved status and reason and writes the log
    records of the outcome; it clears the current Test unless writing them
    raises. *)
Lemma finish_test_active report item w :
  test_is_active w = true ->
  exists ra w1 l,
    authorize E w = (ra, w1) /\
    same_context w w1 /\
    trace w1 = trace w ++ l /\
    Forall (fun e => is_auth_event e = true) l /\
    (api_authenticated w = true -> ra = Ok tt /\ w1 = w) /\
    let body :=
      {| ft_result := TestStatus_value (fst (resolve_status report item));
         ft_ended_at := utcnow E (length (trace w1));
         ft_reason := snd (resolve_status report item) |} in
    let call := FinishTest (test_run_id w) (test_id w) body in
    let o := net E (length (trace w1)) call in
    let w2 := extend (Sent call :: outcome_logs o) w1 in
    finish_test E report item w =
    match ra with
    | Raise e => (Raise e, w1)
    | Ok _ =>
        match acknowledged o with
        | Ok _ => (Ok tt, with_test None w2)
        | Raise e => (Raise e, w2)
        end
    end.
Proof.
  intros Hact.
  destruct (authorize_ok E w) as (ra & w1 & l & Hauth & Hctx & Htr & Hl & Hid).
  exists ra, w1, l. repeat split; try done; try apply Hctx; try by apply Hid.
  destruct (same_context_active w w1 Hctx) as (_ & _ & Hrid & Htid).
  unfold finish_test. rewrite bind_eq. unfold gets at 1. rewrite Hact.
  rewrite bind_eq, Hauth. destruct ra as [[]|e]; [|done].
  destruct (resolve_status report item) as [status reason]; simpl.
  run_monad. rewrite api_finish_test_eq. cbv zeta. rewrite Hrid, Htid.
  by destruct (acknowledged _).
Qed.

Lemma finish_test_inactive report item w :
  test_is_active w = false -> finish_test E report item w = (Ok tt, w).
Proof.
  intros Hact. unfold finish_test. rewrite bind_eq. unfold gets. by rewrite Hact.
Qed.

(** The finish-test calls that [finish_test] sends on an active Test. *)
Lemma finish_test_active_calls report item w :
  test_is_active w = true ->
  let w1 := snd (authorize E w) in
  let body :=
    {| ft_result := TestStatus_value (fst (resolve_status report item));
       ft_ended_at := utcnow E (length (trace w1));
       ft_reason := snd (resolve_status report item) |} in
  let call := FinishTest (test_run_id w) (test_id w) body in
  finish_test_calls (emitted w (snd (finish_test E report item w)))
  = (if succeeds (fst (authorize E w)) then [(test_run_id w, test_id w, body)] else []) /\
  fst (finish_test E report item w)
  = (fst (authorize E w) ≫= fun _ => acknowledged (net E (length (trace w1)) call)).
Proof.
  intros Hact.
  destruct (finish_test_active report item w Hact)
    as (ra & w1 & l & Hauth & _ & Htr & Hl & _ & Heq).
  cbv zeta in *. rewrite Hauth, Heq. cbn [fst snd].
  pose proof (finish_test_calls_auth l Hl) as Hnone.
  destruct ra as [[]|e]; cbn [succeeds fst snd].
  2:{ by rewrite (emitted_app _ _ _ Htr). }
  set (call := FinishTest _ _ _). set (o := net E _ call).
  assert (Hcalls : finish_test_calls (l ++ Sent call :: outcome_logs o)
                   = [(test_run_id w, test_id w,
                       {| ft_result := TestStatus_value (fst (resolve_status report item));
                          ft_ended_at := utcnow E (length (trace w1));
                          ft_reason := snd (resolve_status report item) |})]).
  { rewrite finish_test_calls_app, Hnone. simpl.
    change (?x :: finish_test_calls ?o) with ([x] ++ finish_test_calls o).
    by rewrite finish_test_calls_logs. }
  destruct (acknowledged o) as [[]|e]; cbn [fst snd]; (split; [|done]);
    (erewrite emitted_app; [exact Hcalls|]); simpl; by rewrite Htr, <- app_assoc.
Qed.

(** C1 (as amended). For every [finish_test] call on an active Test, the
    finish-test call that is sent, for the current Run and Test, carries the
    status and the reason of the resolution table: raw passed without an
    xfail marker gives PASSED and no reason; raw passed with an xfail marker
    that is not strict gives SKIPPED and the marker's reason (none when the
    marker has no reason); raw passed with a strict xfail marker gives FAILED
    and the full failure text; raw failed without an xfail marker gives
    FAILED and the full failure text; raw failed with an xfail marker
    (strict ignored) gives SKIPPED and the marker's reason. Exactly one such
    call is sent once [authorize] has returned, and none when it raises;
    [finish_test] then returns or raises as reading the answer to the call
    does. *)
Theorem finish_test_status_table report item w :
  test_is_active w = true ->
  exists body,
    finish_test_calls (emitted w (snd (finish_test E report item w)))
    = (if succeeds (fst (authorize E w))
       then [(test_run_id w, test_id w, body)] else []) /\
    fst (finish_test E report item w)
    = (fst (authorize E w) ≫= fun _ =>
       acknowledged (net E (length (trace (snd (authorize E w))))
                       (FinishTest (test_run_id w) (test_id w) body))) /\
    (outcome report = OutcomePassed -> first_xfail item = None ->
     ft_result body = "PASSED" /\ ft_reason body = VNone) /\
    (forall m, outcome report = OutcomePassed -> first_xfail item = Some m ->
     truthy (kwargs_get "strict" (VBool false) (mark_kwargs m)) = false ->
     ft_result body = "SKIPPED" /\
     ft_reason body = kwargs_get "reason" VNone (mark_kwargs m)) /\
    (forall m, outcome report = OutcomePassed -> first_xfail item = Some m ->
     truthy (kwargs_get "strict" (VBool false) (mark_kwargs m)) = true ->
     ft_result body = "FAILED" /\ ft_reason body = VStr (longreprtext report)) /\
    (outcome report = OutcomeFailed -> first_xfail item = None ->
     ft_result body = "FAILED" /\ ft_reason body = VStr (longreprtext report)) /\
    (forall m, outcome report = OutcomeFailed -> first_xfail item = Some m ->
     ft_result body = "SKIPPED" /\
     ft_reason body = kwargs_get "reason" VNone (mark_kwargs m)).
Proof.
  intros Hact.
  destruct (finish_test_active_calls report item w Hact) as [Hcalls Hres].
  cbv zeta in Hcalls, Hres. eexists. split; [exact Hcalls|]. split; [exact Hres|].
  simpl. rewrite resolve_status_rows. unfold report_passed.
  repeat split; intros; simplify_eq/=;
    repeat match goal with H : _ = _ |- _ => rewrite H end; done.
Qed.

End FinishTest.

(** The table on a sample: an active Test that fails without an xfail marker
    is reported FAILED with the failure text. *)
Lemma finish_test_status_table_witness :
  test_is_active Samples.test_active = true /\
  exists body,
    finish_test_calls
      (emitted Samples.test_active
         (snd (finish_test Samples.env_up Samples.failed Samples.item_a Samples.test_active)))
    = [(VInt 7, VInt 9, body)] /\
    fst (finish_test Samples.env_up Samples.failed Samples.item_a Samples.test_active) = Ok tt /\
    ft_result body = "FAILED" /\
    ft_reason body = VStr "AssertionError: 1 != 2".
Proof.
  split; [reflexivity|].
  destruct (finish_test_status_table Samples.env_up Samples.failed Samples.item_a
              Samples.test_active eq_refl)
    as (body & Hcalls & Hres & _ & _ & _ & Hfailed & _).
  exists body. split; [exact Hcalls|]. split; [exact Hres|].
  exact (Hfailed eq_refl eq_refl).
Defined.

(** C1 as stated fails on its second row: a test that passes under an xfail
    marker that is not strict and carries a reason is reported SKIPPED with
    that reason, not without a reason. *)
Lemma finish_test_passed_xfail_keeps_reason :
  test_is_active Samples.test_active = true /\
  outcome Samples.passed = OutcomePassed /\
  first_xfail Samples.item_xfail = Some Samples.xfail_known /\
  truthy (kwargs_get "strict" (VBool false) (mark_kwargs Samples.xfail_known)) = false /\
  exists body,
    finish_test_calls
      (emitted Samples.test_active
         (snd (finish_test Samples.env_up Samples.passed Samples.item_xfail
                 Samples.test_active)))
    = [(VInt 7, VInt 9, body)] /\
    ft_result body = "SKIPPED" /\
    ft_reason body = VStr "known issue" /\
    ft_reason body <> VNone.
Proof.
  repeat split; try reflexivity.
  eexists. repeat split; try reflexivity. discriminate.
Qed.

(** * [start_test] *)

Section StartTest.

Variable E : env.

Lemma with_test_with_test t1 t2 w : with_test t1 (with_test t2 w) = with_test t1 w.
Proof. reflexivity. Qed.

(** [register_test], case by case. *)
Lemma register_test_eq item w :
  exists ra w1 l,
    authorize E w = (ra, w1) /\
    same_context w w1 /\
    trace w1 = trace w ++ l /\
    Forall (fun e => is_auth_event e = true) l /\
    (api_authenticated w = true -> ra = Ok tt /\ w1 = w) /\
    register_test E item w =
    match ra with
    | Raise e => (Raise e, w1)
    | Ok _ =>
        match build_test item with
        | Raise e => (Raise e, w1)
        | Ok t =>
            if test_run_is_active w
            then
              match join_values "," (test_maintainers t) with
              | Raise e => (Raise e, with_test (Some t) w1)
              | Ok maintainer =>
                  let call :=
                    StartTest (test_run_id w)
                      (start_test_payload E t maintainer (length (trace w1))) in
                  let o := net E (length (trace w1)) call in
                  let w2 := extend (Sent call :: outcome_logs o) w1 in
                  match returned "id" o with
                  | Ok zid => (Ok tt, with_test (Some (Test_set_zebrunner_id t zid)) w2)
                  | Raise e => (Raise e, with_test (Some t) w2)
                  end
              end
            else (Ok tt, with_test (Some t) w1)
        end
    end.
Proof.
  destruct (authorize_ok E w) as (ra & w1 & l & Hauth & Hctx & Htr & Hl & Hid).
  exists ra, w1, l. repeat split; try done; try apply Hctx; try by apply Hid.
  destruct (same_context_active w w1 Hctx) as (Hra & _ & Hrid & _).
  unfold register_test. rewrite bind_eq, Hauth. destruct ra as [[]|e]; [|done].
  rewrite bind_eq. unfold lift at 1.
  destruct (build_test item) as [t|e]; [|done].
  run_monad. autorewrite with world. rewrite Hra.
  destruct (test_run_is_active w); [|done].
  run_monad. unfold lift.
  destruct (join_values "," (test_maintainers t)) as [maintainer|e]; [|done].
  run_monad. rewrite api_start_test_eq. cbv zeta.
  autorewrite with world. rewrite Hrid.
  by destruct (returned "id" _).
Qed.

Lemma finish_skipped_eq report item w :
  finish_skipped E report item w =
  if report_skipped report && test_is_active w
  then
    let call :=
      FinishTest (test_run_id w) (test_id w)
        {| ft_result := TestStatus_value SKIPPED;
           ft_ended_at := utcnow E (length (trace w));
           ft_reason := skip_reason item |} in
    let o := net E (length (trace w)) call in
    let w2 := extend (Sent call :: outcome_logs o) w in
    match acknowledged o with
    | Ok _ => (Ok tt, with_test None w2)
    | Raise e => (Raise e, w2)
    end
  else (Ok tt, w).
Proof.
  unfold finish_skipped. rewrite bind_eq. unfold gets at 1.
  destruct (report_skipped report && test_is_active w); [|done].
  run_monad. rewrite api_finish_test_eq. cbv zeta. by destruct (acknowledged _).
Qed.

(** A Test that [build_test] has built has no identifier. *)
Lemma build_test_no_id item t : build_test item = Ok t -> test_zebrunner_id t = VNone.
Proof.
  unfold build_test. destruct (nodeid_file item); [|done]. simpl.
  destruct (comprehension _ (iter_markers "maintainer" item)); [|done]. simpl.
  destruct (comprehension _ (iter_markers "label" item)); [|done]. simpl.
  by intros [= <-].
Qed.

(** [register_test] sends no finish-test call and leaves the Run alone. *)
Lemma register_test_trace item w r w' :
  register_test E item w = (r, w') ->
  exists l,
    trace w' = trace w ++ l /\
    finish_test_calls l = [] /\
    ctx_test_run w' = ctx_test_run w.
Proof.
  destruct (register_test_eq item w) as (ra & w1 & l & _ & Hctx & Htr & Hl & _ & ->).
  destruct Hctx as (Hrun & _ & _).
  pose proof (finish_test_calls_auth l Hl) as Hnone.
  destruct ra as [[]|e].
  2:{ intros [= <- <-]. by exists l. }
  destruct (build_test item) as [t|e].
  2:{ intros [= <- <-]. by exists l. }
  destruct (test_run_is_active w).
  2:{ intros [= <- <-]. by exists l. }
  destruct (join_values "," (test_maintainers t)) as [maintainer|e].
  2:{ intros [= <- <-]. by exists l. }
  cbv zeta. set (call := StartTest _ _). set (o := net E _ call).
  assert (Hcalls : finish_test_calls (l ++ Sent call :: outcome_logs o) = []).
  { rewrite finish_test_calls_app, Hnone. simpl. apply finish_test_calls_logs. }
  destruct (returned "id" o); intros [= <- <-]; eexists; (split; [|by split]);
    simpl; by rewrite Htr, <- app_assoc.
Qed.

Lemma skip_reason_first item :
  skip_reason item =
  match first_skip item with
  | Some m => kwargs_get "reason" VNone (mark_kwargs m)
  | None => VNone
  end.
Proof.
  unfold skip_reason, first_skip.
  by destruct (List.filter (has_name "skip") (own_markers item)).
Qed.

(** What [start_test] does once the Test is registered, reported as skipped
    and active: it sends exactly one finish-test call, for that Run and
    Test, with status SKIPPED and the reason of the first [skip] marker among
    the item's own markers (no reason without such a marker). It returns and
    clears the current Test when the transport fails, when the answer has
    status 200 and when an answer with another status has a JSON body; when
    such an answer has a body that is not JSON, writing the log record
    raises and the Test stays current. *)
Lemma start_test_skipped report item w w1 :
  register_test E item w = (Ok tt, w1) ->
  report_skipped report = true ->
  test_is_active w1 = true ->
  exists body,
    let o := net E (length (trace w1)) (FinishTest (test_run_id w1) (test_id w1) body) in
    let w' := snd (start_test E report item w) in
    fst (start_test E report item w) = acknowledged o /\
    finish_test_calls (emitted w w') = [(test_run_id w1, test_id w1, body)] /\
    ft_result body = "SKIPPED" /\
    (forall m, first_skip item = Some m ->
               ft_reason body = kwargs_get "reason" VNone (mark_kwargs m)) /\
    (first_skip item = None -> ft_reason body = VNone) /\
    ctx_test w' = (if succeeds (acknowledged o) then None else ctx_test w1).
Proof.
  intros Hreg Hskip Hact.
  destruct (register_test_trace item w _ _ Hreg) as (l & Htr & Hnone & _).
  unfold start_test. rewrite bind_eq, Hreg, finish_skipped_eq, Hskip, Hact. simpl.
  exists {| ft_result := TestStatus_value SKIPPED;
            ft_ended_at := utcnow E (length (trace w1));
            ft_reason := skip_reason item |}.
  set (call := FinishTest _ _ _). set (o := net E _ call).
  assert (Hcalls : forall w',
             trace w' = trace w1 ++ Sent call :: outcome_logs o ->
             finish_test_calls (emitted w w')
             = [(test_run_id w1, test_id w1,
                 {| ft_result := TestStatus_value SKIPPED;
                    ft_ended_at := utcnow E (length (trace w1));
                    ft_reason := skip_reason item |})]).
  { intros w' Hw'. erewrite emitted_app.
    2:{ rewrite Hw', Htr, <- app_assoc. reflexivity. }
    rewrite finish_test_calls_app, Hnone. simpl.
    change (?x :: finish_test_calls ?o) with ([x] ++ finish_test_calls o).
    by rewrite finish_test_calls_logs. }
  destruct (acknowledged o) as [[]|e]; cbn [fst snd succeeds];
    (split; [reflexivity|]); (split; [by apply Hcalls|]);
    simpl; rewrite skip_reason_first;
    repeat split; try done; by intros; simplify_eq/=; repeat case_match; simplify_eq.
Qed.

End StartTest.

(** C5, at the input where the code departs from it: an item marked
    [skip(reason="env")] is reported as skipped under an active Run, and the
    server answers the finish-test call with a gateway error whose body is
    not JSON. The call is sent, with status SKIPPED and the reason, but
    writing the log record raises, [start_test] raises with it and the Test
    is still current and active. When the same call fails in the transport,
    [start_test] returns and the current Test is cleared. *)
Lemma start_test_skipped_keeps_test_on_gateway_error :
  let E := Samples.env_of Samples.config Samples.net_finish_test_502 in
  let E' := Samples.env_of Samples.config Samples.net_finish_test_down in
  exists w' body,
    start_test E Samples.skipped Samples.item_skip Samples.run_active
    = (Raise JSONDecodeError, w') /\
    finish_test_calls (emitted Samples.run_active w') = [(VInt 7, VInt 1, body)] /\
    ft_result body = "SKIPPED" /\
    ft_reason body = VStr "env" /\
    ctx_test w' <> None /\
    test_is_active w' = true /\
    exists w'',
      start_test E' Samples.skipped Samples.item_skip Samples.run_active = (Ok tt, w'') /\
      ctx_test w'' = None.
Proof.
  intros E E'.
  destruct (start_test_skipped E Samples.skipped Samples.item_skip Samples.run_active
              (snd (register_test E Samples.item_skip Samples.run_active))
              eq_refl eq_refl eq_refl)
    as (body & Hres & Hcalls & Hstatus & Hreason & _ & Hkept).
  exists (snd (start_test E Samples.skipped Samples.item_skip Samples.run_active)), body.
  split; [by apply injective_projections|].
  split; [exact Hcalls|]. split; [exact Hstatus|]. split; [exact (Hreason _ eq_refl)|].
  split; [by rewrite Hkept|]. split; [reflexivity|].
  exists (snd (start_test E' Samples.skipped Samples.item_skip Samples.run_active)).
  split; by vm_compute.
Qed.

Section NodeId.

Variable E : env.

Lemma nodeid_file_flat item :
  PyString.contains "::" (nodeid item) = false -> nodeid_file item = Raise IndexError.
Proof.
  intros H. unfold nodeid_file. by rewrite (PyStringFacts.split_no_sep _ _ H).
Qed.

Lemma nodeid_file_separated item :
  PyString.contains "::" (nodeid item) = true -> exists file, nodeid_file item = Ok file.
Proof.
  intros H. unfold nodeid_file, index.
  pose proof (PyStringFacts.split_sep "::" (nodeid item) ltac:(discriminate) H) as Hlen.
  destruct (PyString.split "::" (nodeid item)) as [|s0 [|s1 rest]]; simpl in *; try lia.
  by exists s1.
Qed.

(** C10 (as amended). [start_test] needs a node id with a [::] separator.
    For an item whose node id has none, taking the second segment raises
    IndexError: the context (current Run, current Test) is as before, no
    call of the test lifecycle has been sent, and the only thing that has
    happened is [authorize], which sends an authentication refresh when the
    client is not authenticated yet and nothing when it is; when [authorize]
    itself raises, [start_test] raises with it and the node id is not
    reached. For an item whose node id has a separator the second segment
    exists, so this extraction does not raise. *)
Theorem start_test_needs_separator report item w :
  (PyString.contains "::" (nodeid item) = false ->
   exists ra w',
     authorize E w = (ra, w') /\
     start_test E report item w = (ra ≫= (fun _ => Raise IndexError), w') /\
     ctx_test_run w' = ctx_test_run w /\
     ctx_test w' = ctx_test w /\
     Forall (fun e => is_auth_event e = true) (emitted w w') /\
     (api_authenticated w = true -> ra = Ok tt /\ w' = w)) /\
  (PyString.contains "::" (nodeid item) = true ->
   exists file, nodeid_file item = Ok file).
Proof.
  split; [|apply nodeid_file_separated].
  intros Hflat.
  destruct (register_test_eq E item w)
    as (ra & w1 & l & Hauth & (Hrun & Htest & _) & Htr & Hl & Hid & Heq).
  exists ra, w1. unfold build_test in Heq. rewrite (nodeid_file_flat _ Hflat) in Heq.
  simpl in Heq. unfold start_test. rewrite bind_eq, Heq.
  split; [exact Hauth|]. split; [by destruct ra as [[]|e]|].
  repeat split; try done; try by apply Hid.
  by rewrite (emitted_app _ _ _ Htr).
Qed.

End NodeId.

(** C10 on samples: a flat node id under an authenticated client, and a node
    id with a separator. *)
Lemma start_test_needs_separator_witness :
  start_test Samples.env_up Samples.passed Samples.item_flat Samples.run_active
  = (Raise IndexError, Samples.run_active) /\
  nodeid_file Samples.item_a = Ok "test_a".
Proof.
  destruct (start_test_needs_separator Samples.env_up Samples.passed Samples.item_flat
              Samples.run_active) as [Hflat _].
  destruct (start_test_needs_separator Samples.env_up Samples.passed Samples.item_a
              Samples.run_active) as [_ Hsep].
  destruct (Hflat eq_refl) as (ra & w' & _ & Hrun & _ & _ & _ & Hsame).
  destruct (Hsep eq_refl) as (file & Hfile).
  destruct (Hsame eq_refl) as [-> ->].
  split; [exact Hrun|reflexivity].
Defined.

(** C10 as stated fails when the client is not authenticated: the failure on a
    flat node id comes after a remote call, the authentication refresh. *)
Lemma start_test_flat_nodeid_after_refresh :
  PyString.contains "::" (nodeid Samples.item_flat) = false /\
  exists w',
    start_test Samples.env_up Samples.passed Samples.item_flat Samples.run_inactive
    = (Raise IndexError, w') /\
    emitted Samples.run_inactive w' = [Sent (AuthRefresh "token")] /\
    api_authenticated Samples.run_inactive = false /\
    api_authenticated w' = true.
Proof.
  split; [reflexivity|]. eexists. repeat split; reflexivity.
Qed.

(** * [start_test_run] and sequences of test events *)

Section Run.

Variable E : env.

Lemma returned_id_failed o : call_failed o = true -> returned_id o = VNone.
Proof.
  destruct o as [|resp]; unfold returned_id; simpl; [done|]. intros ->.
  by destruct (response_json resp).
Qed.

(** A guarded operation that raises has handed no identifier. *)
Lemma returned_id_raise o e : returned "id" o = Raise e -> returned_id o = VNone.
Proof. unfold returned_id. by intros ->. Qed.

Lemma returned_id_ok o v : returned "id" o = Ok v -> returned_id o = v.
Proof. unfold returned_id. by intros ->. Qed.

(** [start_test_run], spelled out. *)
Lemma start_test_run_eq w :
  exists ra w1 l,
    authorize E w = (ra, w1) /\
    same_context w w1 /\
    trace w1 = trace w ++ l /\
    Forall (fun e => is_auth_event e = true) l /\
    (api_authenticated w = true -> ra = Ok tt /\ w1 = w) /\
    let call := StartTestRun (project_key (settings E))
                  (start_run_payload E (length (trace w1))) in
    let o := net E (length (trace w1)) call in
    let w2 :=
      with_test_run (Some (TestRun_set_zebrunner_id (configured_run E) (returned_id o)))
        (extend (Sent call :: outcome_logs o) w1) in
    start_test_run E w =
    match ra with
    | Raise e => (Raise e, w1)
    | Ok _ =>
        match returned "id" o with
        | Ok _ => (Ok tt, if send_logs (settings E) then with_handler w2 else w2)
        | Raise e => (Raise e, w2)
        end
    end.
Proof.
  destruct (authorize_ok E w) as (ra & w1 & l & Hauth & Hctx & Htr & Hl & Hid).
  exists ra, w1, l. repeat split; try done; try apply Hctx; try by apply Hid.
  cbv zeta. set (o := net E _ _).
  unfold start_test_run. rewrite bind_eq, Hauth. destruct ra as [[]|e]; [|done].
  run_monad. rewrite api_start_test_run_eq. cbv zeta.
  change (net E _ (StartTestRun _ _)) with o. unfold returned_id.
  destruct (returned "id" o) as [zid|e]; [|done].
  run_monad. by destruct (send_logs (settings E)).
Qed.

(** [start_test_run] leaves the current Test alone, whether it returns or
    raises. *)
Lemma start_test_run_keeps_test w : ctx_test (snd (start_test_run E w)) = ctx_test w.
Proof.
  destruct (start_test_run_eq w) as (ra & w1 & l & _ & (_ & Ht & _) & _ & _ & _ & Heq).
  cbv zeta in Heq. rewrite Heq.
  destruct ra as [[]|e]; [|done].
  destruct (returned "id" _); [|done].
  by destruct (send_logs (settings E)).
Qed.

(** Under an inactive Run a per-test event leaves authentication events
    only, and the Run stays inactive. *)
Lemma handle_inactive ev w r w' :
  test_run_is_active w = false ->
  handle E ev w = (r, w') ->
  exists l,
    trace w' = trace w ++ l /\
    Forall (fun e => is_auth_event e = true) l /\
    test_run_is_active w' = false.
Proof.
  intros Hina. destruct ev as [report item|report item]; simpl.
  - destruct (register_test_eq E item w)
      as (ra & w1 & l & _ & Hctx & Htr & Hl & _ & Heq).
    destruct (same_context_active w w1 Hctx) as (Hra & _).
    rewrite Hina in Heq, Hra.
    unfold start_test. rewrite bind_eq, Heq.
    destruct ra as [[]|e].
    2:{ intros [= <- <-]. by exists l. }
    destruct (build_test item) as [t|e].
    + rewrite finish_skipped_eq. autorewrite with world.
      rewrite Hra, andb_false_r. simpl. intros [= <- <-].
      exists l. by autorewrite with world.
    + intros [= <- <-]. by exists l.
  - rewrite finish_test_inactive.
    + intros [= <- <-]. exists []. by rewrite app_nil_r.
    + unfold test_is_active. by rewrite Hina.
Qed.

Lemma handle_all_inactive evs w r w' :
  test_run_is_active w = false ->
  handle_all E evs w = (r, w') ->
  exists l,
    trace w' = trace w ++ l /\
    Forall (fun e => is_auth_event e = true) l /\
    test_run_is_active w' = false.
Proof.
  revert w. induction evs as [|ev evs IH]; intros w Hina; simpl.
  - intros [= <- <-]. exists []. by rewrite app_nil_r.
  - rewrite bind_eq. destruct (handle E ev w) as [[[]|e] w1] eqn:Hev.
    + destruct (handle_inactive _ _ _ _ Hina Hev) as (l1 & Htr1 & Hl1 & Hina1).
      intros Hrest. destruct (IH _ Hina1 Hrest) as (l2 & Htr2 & Hl2 & Hina2).
      exists (l1 ++ l2). rewrite Htr2, Htr1, app_assoc.
      repeat split; [|done]. by apply Forall_app.
    + intros [= <- <-]. by apply (handle_inactive _ _ _ _ Hina Hev).
Qed.

Lemma auth_event_not_lifecycle e :
  is_auth_event e = true -> is_test_lifecycle_call e = false.
Proof. by destruct e as [[]| | | |]. Qed.

(** C3. If the start-run call fails (the transport fails or the status is not
    200), then after [start_test_run] the Run has no identifier and is
    inactive, and whatever sequence of [start_test] and [finish_test] events
    follows, no start-test and no finish-test call is ever sent: all that
    these events leave in the trace is the authentication of the client, and
    the Run stays inactive. The call is the one that [start_test_run] sends
    once [authorize] is done; [start_test_run] returns after it, unless the
    answer is one whose log record cannot be written, and the Run is inactive
    in that case as well. *)
Theorem failed_start_run_silences_tests evs w w1 :
  authorize E w = (Ok tt, w1) ->
  call_failed (net E (length (trace w1))
                 (StartTestRun (project_key (settings E))
                    (start_run_payload E (length (trace w1))))) = true ->
  exists w2,
    start_test_run E w
    = (acknowledged (net E (length (trace w1))
                       (StartTestRun (project_key (settings E))
                          (start_run_payload E (length (trace w1))))), w2) /\
    test_run_is_active w2 = false /\
    forall r w3,
      handle_all E evs w2 = (r, w3) ->
      Forall (fun e => is_test_lifecycle_call e = false) (emitted w2 w3) /\
      Forall (fun e => is_auth_event e = true) (emitted w2 w3) /\
      test_run_is_active w3 = false.
Proof.
  intros Hauth Hfail.
  destruct (start_test_run_eq w) as (ra & w1' & l & Hauth' & _ & _ & _ & _ & Heq).
  rewrite Hauth in Hauth'. injection Hauth' as <- <-.
  cbv zeta in Heq. rewrite (returned_id_failed _ Hfail) in Heq.
  rewrite <- (discard_returned_acknowledged "id" _ Hfail).
  set (o := net E _ _) in *.
  assert (Hrest : forall w2,
             test_run_is_active w2 = false ->
             forall r w3,
               handle_all E evs w2 = (r, w3) ->
               Forall (fun e => is_test_lifecycle_call e = false) (emitted w2 w3) /\
               Forall (fun e => is_auth_event e = true) (emitted w2 w3) /\
               test_run_is_active w3 = false).
  { intros w2 Hina r w3 Hrun.
    destruct (handle_all_inactive _ _ _ _ Hina Hrun) as (l2 & Htr & Hl2 & Hina2).
    rewrite (emitted_app _ _ _ Htr). repeat split; try done.
    eapply Forall_impl; [exact Hl2|]. apply auth_event_not_lifecycle. }
  destruct (returned "id" o) as [zid|e]; cbn [discard]; eexists;
    (split; [exact Heq|]);
    match goal with |- test_run_is_active ?x = false /\ _ =>
      assert (Hina : test_run_is_active x = false)
        by (try destruct (send_logs (settings E)); reflexivity)
    end;
    (split; [exact Hina|]); by apply Hrest.
Qed.

End Run.

(** C3 on a sample: a network that is down, then a test that starts and
    finishes. *)
Lemma failed_start_run_silences_tests_witness :
  let evs := [StartTestEvent Samples.passed Samples.item_a;
              FinishTestEvent Samples.failed Samples.item_a] in
  exists w2,
    start_test_run Samples.env_down initial_world = (Ok tt, w2) /\
    test_run_is_active w2 = false /\
    Forall (fun e => is_test_lifecycle_call e = false)
           (emitted w2 (snd (handle_all Samples.env_down evs w2))).
Proof.
  intros evs.
  destruct (failed_start_run_silences_tests Samples.env_down evs initial_world
              (snd (authorize Samples.env_down initial_world)) eq_refl eq_refl)
    as (w2 & Hstart & Hina & Hquiet).
  exists w2. split; [exact Hstart|]. split; [exact Hina|].
  apply (Hquiet (fst (handle_all Samples.env_down evs w2))).
  by destruct (handle_all Samples.env_down evs w2).
Defined.

Section CurrentTest.

Variable E : env.

Lemma finish_test_effect report item w :
  finish_effect w (fst (finish_test E report item w)) (snd (finish_test E report item w)).
Proof.
  destruct (test_is_active w) eqn:Hact.
  - destruct (finish_test_active E report item w Hact)
      as (ra & w1 & l & _ & _ & _ & _ & _ & Heq).
    cbv zeta in Heq. rewrite Heq. unfold finish_effect. rewrite Hact.
    split; [|done].
    destruct ra as [[]|e]; [|done].
    destruct (acknowledged _); [|done].
    intros _. cbn [snd]. by autorewrite with world.
  - rewrite (finish_test_inactive E report item w Hact).
    unfold finish_effect. by rewrite Hact.
Qed.

Lemma finish_snapshots_effect cases w :
  Forall (fun s => finish_effect (fst (fst s)) (snd (fst s)) (snd s))
         (finish_snapshots E cases w).
Proof.
  revert w. induction cases as [|c cases IH]; intros w; simpl; [constructor|].
  destruct (start_test E (start_report c) (case_item c) w) as [[[]|e] w1]; [|constructor].
  pose proof (finish_test_effect (finish_report c) (case_item c) w1) as Heff.
  destruct (finish_test E (finish_report c) (case_item c) w1) as [[u|e] w2].
  - constructor; [exact Heff|apply IH].
  - constructor; [exact Heff|constructor].
Qed.

(** C2 (as amended). In every lifecycle [start_run], then [start_test] and
    [finish_test] for each test in turn, the current-Test slot is absent
    before the first [start_test], and after every [finish_test] call that
    returns no Test is active. The slot itself is absent after such a call
    whenever the Test was active when [finish_test] was called; when the
    Test was not active (the Run is inactive or the start-test call failed),
    [finish_test] returns, does nothing and the slot keeps what it held. On
    an active Test and an authenticated client, [finish_test] returns, with
    the slot cleared, whenever the answer to its call is one that the client
    can take note of: a failure of the transport, the status 200, or another
    status with a JSON body. *)
Theorem current_test_across_lifecycle cases :
  let w0 := snd (start_test_run E initial_world) in
  ctx_test w0 = None /\
  Forall (fun s =>
            let '(before, r, after) := s in
            (r = Ok tt ->
             test_is_active after = false /\
             (test_is_active before = true -> ctx_test after = None)) /\
            (test_is_active before = false -> r = Ok tt /\ after = before))
         (finish_snapshots E cases w0) /\
  (forall report item w,
     test_is_active w = true ->
     api_authenticated w = true ->
     (forall body resp,
        net E (length (trace w)) (FinishTest (test_run_id w) (test_id w) body)
        = Responded resp ->
        status_code resp = 200 \/ json_body resp <> None) ->
     fst (finish_test E report item w) = Ok tt /\
     ctx_test (snd (finish_test E report item w)) = None).
Proof.
  cbv zeta. split; [apply start_test_run_keeps_test|]. split.
  - eapply Forall_impl; [apply finish_snapshots_effect|].
    by intros [[before r] after].
  - intros report item w Hact Ha Hack.
    destruct (finish_test_active E report item w Hact)
      as (ra & w1 & l & _ & _ & _ & _ & Hid & Heq).
    destruct (Hid Ha) as [-> ->]. cbv zeta in Heq. rewrite Heq.
    rewrite (proj2 (acknowledged_ok_iff _) (Hack _)). by split.
Qed.

End CurrentTest.

(** C2 as stated fails when the start-test call fails: the Run is active, the
    Test never receives an identifier, [finish_test] does nothing and the
    current-Test slot still holds the Test after it. *)
Lemma current_test_kept_after_failed_start :
  let E := Samples.env_of Samples.config Samples.net_start_test_down in
  let c := {| start_report := Samples.passed;
              finish_report := Samples.passed;
              case_item := Samples.item_a |} in
  let w0 := snd (start_test_run E initial_world) in
  test_run_is_active w0 = true /\
  exists w1 w2 t,
    finish_snapshots E [c] w0 = [(w1, Ok tt, w2)] /\
    In (Sent (StartTest (test_run_id w0)
                (start_test_payload E t "" (length (trace w0))))) (trace w2) /\
    ctx_test w2 = Some t /\
    ctx_test w2 <> None.
Proof.
  intros E c w0. split; [reflexivity|].
  eexists _, _, _. split; [reflexivity|].
  split; [|split; [reflexivity|discriminate]].
  vm_compute. tauto.
Qed.

(** * [finish_test_run] *)

Section FinishRun.

Variable E : env.

(** [finish_test_run], spelled out: the authentication, then, under an active
    Run, the finish-run call with the clock reading at that moment minus one
    second as end time, the log records of its outcome and the flush of the
    log sink when one is registered, and last the close of the client. What
    raises on the way, the authentication or the log record of an answer
    whose body is not JSON, ends [finish_test_run] there: the client is
    closed exactly when [finish_test_run] returns. *)
Lemma finish_test_run_trace w :
  let ra := fst (authorize E w) in
  let w1 := snd (authorize E w) in
  let call :=
    FinishTestRun (test_run_id w) (utcnow E (length (trace w1)) - one_second) in
  let o := net E (length (trace w1)) call in
  let r := ra ≫= fun _ => if test_run_is_active w then acknowledged o else Ok tt in
  Forall (fun e => is_auth_event e = true) (emitted w w1) /\
  fst (finish_test_run E w) = r /\
  same_context w (snd (finish_test_run E w)) /\
  emitted w (snd (finish_test_run E w)) =
    emitted w w1
    ++ (if succeeds ra && test_run_is_active w
        then Sent call
             :: outcome_logs o
             ++ (if succeeds r && (0 <? zebrunner_handlers w)%nat then [LogsPushed] else [])
        else [])
    ++ (if succeeds r then [ClientClosed] else []).
Proof.
  destruct (authorize_ok E w) as (ra & w1 & l & Hauth & Hctx & Htr & Hl & _).
  destruct (same_context_active w w1 Hctx) as (Hra & _ & Hrid & _).
  pose proof Hctx as (_ & _ & Hh).
  cbv zeta. rewrite Hauth. cbn [fst snd].
  rewrite (emitted_app w w1 l Htr). split; [exact Hl|].
  unfold finish_test_run, ZebrunnerAPI.close, push_logs.
  rewrite bind_eq, Hauth. destruct ra as [[]|e]; cbn [succeeds andb].
  2:{ simpl. split; [done|]. split; [exact Hctx|].
      rewrite !app_nil_r. by apply emitted_app. }
  run_monad. rewrite Hra.
  destruct (test_run_is_active w).
  - run_monad.
    pose proof (api_finish_test_run_eq E (test_run_id w1) w1) as Hcall.
    cbv zeta in Hcall. rewrite Hcall, Hrid. clear Hcall.
    set (call := FinishTestRun _ _). set (o := net E _ call).
    destruct (acknowledged o) as [[]|e]; cbn [succeeds andb].
    + run_monad. rewrite Hh.
      destruct (0 <? zebrunner_handlers w)%nat; run_monad;
        (split; [done|]); (split; [exact Hctx|]);
        apply emitted_app; simpl; by rewrite Htr, <- !app_assoc.
    + simpl. split; [done|]. split; [exact Hctx|]. apply emitted_app.
      simpl. by rewrite Htr, !app_nil_r, <- ?app_assoc.
  - run_monad. split; [done|]. split; [exact Hctx|].
    apply emitted_app. simpl. by rewrite Htr, <- app_assoc.
Qed.

End FinishRun.

(** C8, at the input where the code departs from it: under an active Run
    with a registered log sink, the server answers the finish-run call with a
    gateway error whose body is not JSON. Writing the log record raises,
    [finish_test_run] raises with it, and neither the flush of the log sink
    nor the close of the client takes place. When the same call fails in the
    transport, [finish_test_run] returns after the flush and the close. *)
Lemma finish_test_run_leaves_client_open :
  let E := Samples.env_of Samples.config Samples.net_finish_run_502 in
  let call := FinishTestRun (VInt 7) (utcnow E 0 - one_second) in
  test_run_is_active Samples.run_active = true /\
  finish_test_run E Samples.run_active
  = (Raise JSONDecodeError, extend [Sent call] Samples.run_active) /\
  ~ In ClientClosed (trace (snd (finish_test_run E Samples.run_active))) /\
  ~ In LogsPushed (trace (snd (finish_test_run E Samples.run_active))) /\
  finish_test_run Samples.env_down Samples.run_active
  = (Ok tt,
     extend [Sent call; Logged WARNING RequestErrorRecord; LogsPushed; ClientClosed]
       Samples.run_active).
Proof.
  intros E call. split; [reflexivity|]. split; [reflexivity|].
  split; [|split; [|reflexivity]]; vm_compute; intros [H|[]]; discriminate H.
Qed.

(** * Sessions *)

Section Sessions.

Variable E : env.

(** C9 (as amended). The session operations of the client are stubs: called
    with the arguments they declare, they reach no endpoint, the first
    returns no identifier and the second returns nothing. Under an inactive
    Run, [start_test_session] and [finish_test_session] of the orchestrator
    do nothing but make sure the client is authenticated and return no
    identifier and nothing once that has returned. Whether the Run is active
    or not, they send no session call and leave the context alone: the world
    they leave is the one [authorize] leaves. *)
Theorem session_operations_are_stubs session_id caps desired zid related w :
  (forall body, ZebrunnerAPI.start_test_session [body] w = (Ok VNone, w)) /\
  (forall zebrunner_id body,
     ZebrunnerAPI.finish_test_session [zebrunner_id; body] w = (Ok tt, w)) /\
  exists ra w',
    authorize E w = (ra, w') /\
    (test_run_is_active w = false ->
     start_test_session E session_id caps desired w = (ra ≫= (fun _ => Ok VNone), w') /\
     finish_test_session E zid related w = (ra, w')) /\
    snd (start_test_session E session_id caps desired w) = w' /\
    snd (finish_test_session E zid related w) = w' /\
    ctx_test_run w' = ctx_test_run w /\
    ctx_test w' = ctx_test w /\
    Forall (fun e => is_auth_event e = true) (emitted w w') /\
    (api_authenticated w = true -> ra = Ok tt /\ w' = w).
Proof.
  split; [done|]. split; [done|].
  destruct (authorize_ok E w) as (ra & w1 & l & Hauth & Hctx & Htr & Hl & Hid).
  destruct (same_context_active w w1 Hctx) as (Hra & _).
  exists ra, w1. split; [exact Hauth|].
  unfold start_test_session, finish_test_session.
  rewrite !bind_eq, Hauth. rewrite (emitted_app _ _ _ Htr).
  destruct Hctx as (Hr & Ht & _).
  destruct ra as [[]|e]; [|by repeat split; try apply Hid].
  run_monad. rewrite Hra.
  destruct (test_run_is_active w); run_monad; by repeat split; try apply Hid.
Qed.

End Sessions.

(** C9 as stated fails under an active Run: the orchestrator hands the run
    id and the model to an operation that declares the model only, so the
    call raises; and the operation itself, called as declared, sends nothing
    and returns no identifier, although the server would hand one to any
    request. *)
Lemma start_test_session_returns_no_id :
  test_run_is_active Samples.run_active = true /\
  (forall n r, exists resp zid,
     net Samples.env_up n r = Responded resp /\
     (j ← response_json resp; getitem j "id") = Ok zid /\ zid <> VNone) /\
  start_test_session Samples.env_up "session-1" [] [] Samples.run_active
  = (Raise TypeError, Samples.run_active) /\
  (forall body,
     ZebrunnerAPI.start_test_session [body] Samples.run_active
     = (Ok VNone, Samples.run_active)) /\
  ~ (exists zid,
       fst (start_test_session Samples.env_up "session-1" [] [] Samples.run_active) = Ok zid).
Proof.
  split; [reflexivity|]. split.
  { intros n r. eexists _, _. split; [reflexivity|]. split; [reflexivity|]. discriminate. }
  split; [reflexivity|]. split; [done|].
  intros (zid & Heq). discriminate Heq.
Qed.

(** * Notification targets *)

Section Notifications.

Variable E : env.

(** C6. The targets computed at run start are one per channel whose
    destination value is non-empty, with that channel's type and value, in
    the order e-mail, Slack, MS Teams; their number is the number of such
    channels, at most three; and without a notification block the result is
    absent and carries no target. *)
Theorem notification_targets_follow_channels :
  let l := targets_carried (get_notification_configurations E) in
  map (fun t => (nt_type t, Some (nt_value t))) l
  = map (fun c => (NotificationsType_value (fst c), snd c))
        (configured_channels (settings E)) /\
  length l = length (configured_channels (settings E)) /\
  (length l <= 3)%nat /\
  (get_notification_configurations E = None <-> notifications (settings E) = None).
Proof.
  unfold get_notification_configurations, configured_channels, channels, target_if_set.
  destruct (notifications (settings E)) as [n|]; simpl; [|by repeat split; try lia].
  destruct (emails n) as [e|], (slack_channels n) as [s|], (ms_teams_channels n) as [t|];
    simpl; repeat case_match; simpl; repeat split; try done; lia.
Qed.

End Notifications.

(** * Rerun filtering *)

Section Rerun.

Variable E : env.

Lemma rerun_names_spec data name :
  bool_decide (name ∈ rerun_names data) = named_in_descriptor data name.
Proof.
  unfold rerun_names, named_in_descriptor.
  apply eq_true_iff_eq. rewrite bool_decide_eq_true, existsb_exists.
  rewrite elem_of_list_to_set, list_elem_of_omap. split.
  - intros (t & Hin & Hname). exists t. split; [by apply list_elem_of_In|].
    destruct (tm_correlation_data t) as [c|]; [|done].
    injection Hname as <-. apply String.eqb_refl.
  - intros (t & Hin & Hname). exists t. split; [by apply list_elem_of_In|].
    destruct (tm_correlation_data t) as [c|]; [|done].
    by apply String.eqb_eq in Hname as ->.
Qed.

(** C7. Without a rerun-context token [filter_test_items] returns its input
    as it is. With a token, once the client is authorized and the rerun
    descriptor has been fetched, it returns the input items, in input
    order, whose name is the correlation-data name of some test entry of the
    descriptor; entries without correlation data match nothing. For a
    descriptor whose only entry carries the name test_a and the items
    test_a, test_b, the result is the item test_a alone. *)
Theorem filter_test_items_by_descriptor items w :
  (context (run (settings E)) = None ->
   filter_test_items E items w = (Ok items, w)) /\
  (forall token w1 data w2,
     context (run (settings E)) = Some token ->
     authorize E w = (Ok tt, w1) ->
     get_rerun_tests E token w1 = (Ok data, w2) ->
     filter_test_items E items w
     = (Ok (List.filter (fun x => named_in_descriptor data (item_name x)) items), w2)) /\
  (forall data t a b,
     rr_tests data = [t] ->
     tm_correlation_data t = Some {| cd_name := "test_a" |} ->
     item_name a = "test_a" ->
     item_name b = "test_b" ->
     List.filter (fun x => named_in_descriptor data (item_name x)) [a; b] = [a]).
Proof.
  split; [|split].
  - intros Hnone. unfold filter_test_items. by rewrite Hnone.
  - intros token w1 data w2 Htok Hauth Hfetch.
    unfold filter_test_items. rewrite Htok, bind_eq, Hauth, bind_eq, Hfetch.
    unfold ret. do 2 f_equal. apply List.filter_ext. intros x. apply rerun_names_spec.
  - intros data t a b Htests Hcd Ha Hb. unfold named_in_descriptor.
    simpl. by rewrite Htests, Ha, Hb; simpl; rewrite Hcd.
Qed.

End Rerun.

(** C7 on the sample of the spec: a descriptor whose only entry carries the
    name test_a, and the items test_a and test_b. *)
Lemma filter_test_items_by_descriptor_witness :
  let E := Samples.env_of Samples.config_rerun Samples.net_up in
  filter_test_items E [Samples.item_a; Samples.item_b] Samples.run_active
  = (Ok [Samples.item_a], Samples.run_active) /\
  filter_test_items Samples.env_up [Samples.item_a; Samples.item_b] Samples.run_active
  = (Ok [Samples.item_a; Samples.item_b], Samples.run_active).
Proof.
  intros E.
  destruct (filter_test_items_by_descriptor E [Samples.item_a; Samples.item_b]
              Samples.run_active) as (_ & Htoken & _).
  destruct (filter_test_items_by_descriptor Samples.env_up [Samples.item_a; Samples.item_b]
              Samples.run_active) as (Hnone & _ & _).
  split.
  - exact (Htoken "rerun-token" Samples.run_active Samples.rerun_data Samples.run_active
             eq_refl eq_refl eq_refl).
  - exact (Hnone eq_refl).
Defined.

(** * Transport failures in the client *)

Section TransportFailures.

Variable E : env.

(** The operations that open with a [try] absorb a transport failure: they
    log one warning and return nothing. *)
Lemma guarded_operations_absorb key run_body run_id test_body tid finish_body w :
  (net E (length (trace w)) (StartTestRun key run_body) = TransportFailure ->
   ZebrunnerAPI.start_test_run E key run_body w
   = (Ok VNone,
      extend [Sent (StartTestRun key run_body); Logged WARNING RequestErrorRecord] w)) /\
  (net E (length (trace w)) (StartTest run_id test_body) = TransportFailure ->
   ZebrunnerAPI.start_test E run_id test_body w
   = (Ok VNone,
      extend [Sent (StartTest run_id test_body); Logged WARNING RequestErrorRecord] w)) /\
  (net E (length (trace w)) (FinishTest run_id tid finish_body) = TransportFailure ->
   ZebrunnerAPI.finish_test E run_id tid finish_body w
   = (Ok tt,
      extend [Sent (FinishTest run_id tid finish_body); Logged WARNING RequestErrorRecord] w)) /\
  (let call := FinishTestRun run_id (utcnow E (length (trace w)) - one_second) in
   net E (length (trace w)) call = TransportFailure ->
   ZebrunnerAPI.finish_test_run E run_id w
   = (Ok tt, extend [Sent call; Logged WARNING RequestErrorRecord] w)).
Proof.
  repeat split.
  - intros H. rewrite api_start_test_run_eq. cbv zeta. by rewrite H.
  - intros H. rewrite api_start_test_eq. cbv zeta. by rewrite H.
  - intros H. rewrite api_finish_test_eq. cbv zeta. by rewrite H.
  - intros call H. rewrite api_finish_test_run_eq. cbv zeta. subst call. by rewrite H.
Qed.

(** The two operations without a [try] let the transport's error out, and log
    nothing. *)
Lemma unguarded_operations_propagate run_id tid logs path image w :
  (net E (length (trace w)) (SendLogs run_id logs) = TransportFailure ->
   ZebrunnerAPI.send_logs E run_id logs w
   = (Raise RequestError, extend [Sent (SendLogs run_id logs)] w)) /\
  (open_rb E path = Some image ->
   net E (length (trace w)) (SendScreenshot run_id tid image) = TransportFailure ->
   ZebrunnerAPI.send_screenshot E run_id tid path w
   = (Raise RequestError, extend [Sent (SendScreenshot run_id tid image)] w)).
Proof.
  split.
  - intros H. unfold ZebrunnerAPI.send_logs, ZebrunnerAPI.client_send. run_monad. by rewrite H.
  - intros Hopen H. unfold ZebrunnerAPI.send_screenshot, ZebrunnerAPI.client_send. rewrite Hopen.
    run_monad. by rewrite H.
Qed.

End TransportFailures.

(** C4, at the input where the code departs from it: with the network down,
    [send_logs] and [send_screenshot] raise the transport's error to their
    caller and log no warning, where [start_test] under the same network
    returns nothing and logs one. *)
Lemma send_logs_and_screenshot_raise :
  ZebrunnerAPI.send_logs Samples.env_down (VInt 7) [] Samples.run_active
  = (Raise RequestError, extend [Sent (SendLogs (VInt 7) [])] Samples.run_active) /\
  ZebrunnerAPI.send_screenshot Samples.env_down (VInt 7) (VInt 9) "shot.png" Samples.run_active
  = (Raise RequestError,
     extend [Sent (SendScreenshot (VInt 7) (VInt 9) "PNG")] Samples.run_active) /\
  fst (ZebrunnerAPI.start_test Samples.env_down (VInt 7)
         (start_test_payload Samples.env_down
            {| test_name := "test_a"; test_file := "test_a"; test_maintainers := [];
               test_labels := []; test_zebrunner_id := VNone |} "" 0)
         Samples.run_active)
  = Ok VNone.
Proof. repeat split; reflexivity. Qed.

(** * [to_camel_case] *)

Module CamelFacts.
Import PyString Camel.

Lemma capitalize_tail_from {A} (f : A -> A) (pre l : list A) k :
  length pre = S k ->
  foldl (fun acc ip => <[S (fst ip) := f (snd ip)]> acc) (pre ++ l)
        (imap (fun i x => ((k + i)%nat, x)) l)
  = pre ++ map f l.
Proof.
  revert pre k. induction l as [|a l IH]; intros pre k Hlen; [done|].
  cbn [imap foldl map]. rewrite Nat.add_0_r. cbn [fst snd].
  rewrite insert_app_r_alt by lia. rewrite Hlen, Nat.sub_diag. cbn [insert list_insert].
  rewrite (imap_ext _ (fun i x => ((S k + i)%nat, x))).
  2:{ intros i x _. simpl. f_equal. lia. }
  rewrite (cons_middle (f a) pre l), (cons_middle (f a) pre (map f l)), !app_assoc.
  apply IH. rewrite length_app. simpl. lia.
Qed.

(** The loop leaves the first part alone and capitalizes every other one. *)
Lemma capitalize_tail_eq parts :
  capitalize_tail parts =
  match parts with
  | [] => []
  | first :: rest => first :: map capitalize rest
  end.
Proof.
  destruct parts as [|first rest]; [done|].
  unfold capitalize_tail, enumerate. simpl tail.
  exact (capitalize_tail_from capitalize [first] rest 0 eq_refl).
Qed.

Lemma contains_char c s : contains (String c EmptyString) s = has_char c s.
Proof.
  induction s as [|a s IH]; [done|].
  cbn [contains has_char startswith]. rewrite IH, andb_true_r.
  by rewrite Ascii.eqb_sym.
Qed.

Lemma has_char_append c s1 s2 :
  has_char c (s1 +:+ s2) = has_char c s1 || has_char c s2.
Proof.
  induction s1 as [|a s1 IH]; [done|].
  rewrite PyStringFacts.append_cons. cbn [has_char]. by rewrite IH, orb_assoc.
Qed.

Lemma join_empty_cons x l : join EmptyString (x :: l) = x +:+ join EmptyString l.
Proof.
  destruct l as [|y l]; [|done]. simpl. by rewrite PyStringFacts.append_nil_r.
Qed.

(** The parts that [split] produces for a one-character separator do not
    contain it. *)
Lemma split_go_parts_free c acc s :
  has_char c acc = false ->
  Forall (fun p => has_char c p = false) (split_go (String c EmptyString) 0 acc s).
Proof.
  revert acc. induction s as [|a s IH]; intros acc Hacc; [by repeat constructor|].
  cbn [split_go startswith]. rewrite andb_true_r.
  destruct (Ascii.eqb c a) eqn:Hca.
  - constructor; [done|]. by apply IH.
  - apply IH. rewrite has_char_append. cbn [has_char].
    by rewrite Hacc, Ascii.eqb_sym, Hca.
Qed.

(** Joined without a separator, the parts give the string back without the
    separating character. *)
Lemma join_split_go c acc s :
  join EmptyString (split_go (String c EmptyString) 0 acc s) = acc +:+ remove_char c s.
Proof.
  revert acc. induction s as [|a s IH]; intros acc.
  - simpl. by rewrite PyStringFacts.append_nil_r.
  - cbn [split_go startswith remove_char]. rewrite andb_true_r, (Ascii.eqb_sym a c).
    destruct (Ascii.eqb c a).
    + by rewrite join_empty_cons, IH.
    + rewrite IH, PyStringFacts.append_assoc. by rewrite PyStringFacts.append_cons.
Qed.

Lemma upper_keeps_underscore a : Ascii.eqb (upper a) "_" = Ascii.eqb a "_".
Proof. by destruct a as [[] [] [] [] [] [] [] []]. Qed.

Lemma lower_keeps_underscore a : Ascii.eqb (lower a) "_" = Ascii.eqb a "_".
Proof. by destruct a as [[] [] [] [] [] [] [] []]. Qed.

Lemma lower_upper a : lower (upper a) = lower a.
Proof. by destruct a as [[] [] [] [] [] [] [] []]. Qed.

Lemma lower_lower a : lower (lower a) = lower a.
Proof. by destruct a as [[] [] [] [] [] [] [] []]. Qed.

Lemma has_underscore_lower s : has_char "_" (lower_string s) = has_char "_" s.
Proof.
  induction s as [|a s IH]; [done|]. cbn [lower_string has_char].
  by rewrite lower_keeps_underscore, IH.
Qed.

Lemma has_underscore_capitalize s : has_char "_" (capitalize s) = has_char "_" s.
Proof.
  destruct s as [|a s]; [done|]. cbn [capitalize has_char].
  by rewrite upper_keeps_underscore, has_underscore_lower.
Qed.

Lemma lower_string_append s1 s2 :
  lower_string (s1 +:+ s2) = lower_string s1 +:+ lower_string s2.
Proof.
  induction s1 as [|a s1 IH]; [done|].
  rewrite PyStringFacts.append_cons. cbn [lower_string].
  by rewrite PyStringFacts.append_cons, IH.
Qed.

Lemma lower_string_idemp s : lower_string (lower_string s) = lower_string s.
Proof.
  induction s as [|a s IH]; [done|]. cbn [lower_string]. by rewrite lower_lower, IH.
Qed.

Lemma lower_string_capitalize s : lower_string (capitalize s) = lower_string s.
Proof.
  destruct s as [|a s]; [done|]. cbn [capitalize lower_string].
  by rewrite lower_upper, lower_string_idemp.
Qed.

Lemma has_char_join_free c l :
  Forall (fun p => has_char c p = false) l -> has_char c (join EmptyString l) = false.
Proof.
  induction 1 as [|x l Hx _ IH]; [done|].
  by rewrite join_empty_cons, has_char_append, Hx, IH.
Qed.

Lemma lower_join_capitalize l :
  lower_string (join EmptyString (map capitalize l)) = lower_string (join EmptyString l).
Proof.
  induction l as [|x l IH]; [done|]. cbn [map].
  by rewrite !join_empty_cons, !lower_string_append, lower_string_capitalize, IH.
Qed.

(** The alias has no underscore; a key without underscore is its own alias;
    so the alias of an alias is that alias. *)
Theorem to_camel_case_removes_underscores key :
  contains "_" (to_camel_case key) = false /\
  (contains "_" key = false -> to_camel_case key = key) /\
  to_camel_case (to_camel_case key) = to_camel_case key.
Proof.
  assert (Hfree : forall k, contains "_" (to_camel_case k) = false).
  { intros k. rewrite contains_char. unfold to_camel_case. rewrite capitalize_tail_eq.
    pose proof (split_go_parts_free "_" EmptyString k eq_refl) as Hparts.
    fold (split "_" k) in Hparts.
    destruct (split "_" k) as [|first rest]; [done|].
    apply has_char_join_free. inversion Hparts as [|? ? Hfirst Hrest]; subst.
    constructor; [done|]. apply Forall_map.
    eapply Forall_impl; [exact Hrest|]. intros p Hp. simpl.
    by rewrite has_underscore_capitalize. }
  assert (Hplain : forall k, contains "_" k = false -> to_camel_case k = k).
  { intros k Hk. unfold to_camel_case. by rewrite (PyStringFacts.split_no_sep _ _ Hk). }
  split; [apply Hfree|]. split; [apply Hplain|]. apply Hplain, Hfree.
Qed.

(** Up to the case of letters, the alias is the key without its
    underscores; in particular it is as long as the key less its
    underscores. *)
Theorem to_camel_case_keeps_letters key :
  lower_string (to_camel_case key) = lower_string (remove_char "_" key) /\
  String.length (to_camel_case key) = String.length (remove_char "_" key).
Proof.
  assert (Hlow : lower_string (to_camel_case key) = lower_string (remove_char "_" key)).
  { unfold to_camel_case. rewrite capitalize_tail_eq.
    pose proof (join_split_go "_" EmptyString key) as Hjoin.
    fold (split "_" key) in Hjoin. change (EmptyString +:+ ?s) with s in Hjoin.
    destruct (split "_" key) as [|first rest]; [by rewrite <- Hjoin|].
    rewrite <- Hjoin, !join_empty_cons, !lower_string_append.
    by rewrite lower_join_capitalize. }
  split; [exact Hlow|].
  assert (Hlen : forall s, String.length (lower_string s) = String.length s).
  { intros s. induction s as [|a s IH]; [done|]. simpl. by rewrite IH. }
  by rewrite <- (Hlen (to_camel_case key)), Hlow, Hlen.
Qed.

End CamelFacts.

(** * What per-test events do and never do *)

Section TestEvents.

Variable E : env.

Lemma resolve_status_reported report item :
  In (fst (resolve_status report item)) reported_statuses.
Proof.
  rewrite resolve_status_rows. unfold reported_statuses.
  destruct (report_passed report), (first_xfail item) as [m|]; simpl; try tauto.
  destruct (truthy _); simpl; tauto.
Qed.

Lemma auth_events_ok rid w w1 l :
  trace w1 = trace w ++ l ->
  Forall (fun e => is_auth_event e = true) l ->
  (api_authenticated w = true -> w1 = w) ->
  Forall (test_event_ok rid (api_authenticated w)) l /\
  (api_authenticated w = true -> api_authenticated w1 = true).
Proof.
  intros Htr Hl Hid. split.
  - destruct (api_authenticated w) eqn:Ha.
    + specialize (Hid eq_refl). subst w1.
      assert (l = []) as ->; [|constructor].
      apply (app_inv_head (trace w)). by rewrite app_nil_r.
    + eapply Forall_impl; [exact Hl|]. intros e He.
      by destruct e as [[]| | | |].
  - intros Ha. by rewrite (Hid Ha).
Qed.

Lemma outcome_logs_ok rid a o : Forall (test_event_ok rid a) (outcome_logs o).
Proof.
  eapply Forall_impl; [apply outcome_logs_are_logs|].
  intros e. by destruct e as [[]| | | |].
Qed.

(** One per-test event: the trace grows by events of the kinds listed in
    [test_event_ok], the Run and the log sinks are left alone, and an
    authenticated client stays authenticated. *)
Lemma handle_step ev w r w' :
  handle E ev w = (r, w') ->
  exists l,
    trace w' = trace w ++ l /\
    ctx_test_run w' = ctx_test_run w /\
    zebrunner_handlers w' = zebrunner_handlers w /\
    Forall (test_event_ok (test_run_id w) (api_authenticated w)) l /\
    (api_authenticated w = true -> api_authenticated w' = true).
Proof.
  destruct ev as [report item|report item]; simpl.
  - destruct (register_test_eq E item w)
      as (ra & w1 & l & _ & Hctx & Htr & Hl & Hid & Heq).
    destruct (auth_events_ok (test_run_id w) w w1 l Htr Hl (fun H => proj2 (Hid H)))
      as [Hok Hkeep].
    destruct (same_context_active w w1 Hctx) as (Hra & _ & Hrid & _).
    destruct Hctx as (Hrun & _ & Hh).
    unfold start_test. rewrite bind_eq, Heq.
    destruct ra as [[]|e].
    2:{ intros [= <- <-]. by exists l. }
    destruct (build_test item) as [t|e].
    2:{ intros [= <- <-]. by exists l. }
    destruct (test_run_is_active w) eqn:Hact.
    2:{ rewrite finish_skipped_eq. autorewrite with world.
        rewrite Hra, andb_false_r. simpl. intros [= <- <-]. by exists l. }
    destruct (join_values "," (test_maintainers t)) as [maintainer|e].
    2:{ intros [= <- <-]. by exists l. }
    cbv beta iota zeta.
    set (call := StartTest _ _). set (o := net E _ call).
    assert (Hstart : Forall (test_event_ok (test_run_id w) (api_authenticated w))
                       (l ++ Sent call :: outcome_logs o)).
    { apply Forall_app. split; [exact Hok|].
      constructor; [reflexivity|apply outcome_logs_ok]. }
    destruct (returned "id" o) as [zid|e].
    2:{ intros [= <- <-]. eexists. split.
        { simpl. rewrite Htr, <- app_assoc. reflexivity. }
        by repeat split. }
    rewrite finish_skipped_eq. autorewrite with world.
    destruct (report_skipped report && _).
    + cbv zeta. autorewrite with world.
      set (fcall := FinishTest _ _ _). set (fo := net E _ fcall).
      assert (Hfinish : Forall (test_event_ok (test_run_id w) (api_authenticated w))
                          ((l ++ Sent call :: outcome_logs o)
                           ++ Sent fcall :: outcome_logs fo)).
      { apply Forall_app. split; [exact Hstart|].
        constructor; [|apply outcome_logs_ok].
        simpl. split; [exact Hrid|]. tauto. }
      destruct (acknowledged fo); intros [= <- <-]; eexists;
        (split; [simpl; rewrite Htr, <- !app_assoc; reflexivity|]);
        repeat split; try done; by rewrite <- !app_assoc in Hfinish.
    + intros [= <- <-]. eexists. split.
      { simpl. rewrite Htr, <- !app_assoc. reflexivity. }
      by repeat split.
  - destruct (test_is_active w) eqn:Hact.
    + destruct (finish_test_active E report item w Hact)
        as (ra & w1 & l & _ & Hctx & Htr & Hl & Hid & Heq).
      destruct (auth_events_ok (test_run_id w) w w1 l Htr Hl (fun H => proj2 (Hid H)))
        as [Hok Hkeep].
      destruct Hctx as (Hrun & _ & Hh).
      cbv zeta in Heq. rewrite Heq.
      destruct ra as [[]|e].
      2:{ intros [= <- <-]. by exists l. }
      set (call := FinishTest _ _ _). set (o := net E _ call).
      assert (Hfinish : Forall (test_event_ok (test_run_id w) (api_authenticated w))
                          (l ++ Sent call :: outcome_logs o)).
      { apply Forall_app. split; [exact Hok|].
        constructor; [|apply outcome_logs_ok].
        split; [done|].
        apply (in_map TestStatus_value), resolve_status_reported. }
      destruct (acknowledged o); intros [= <- <-]; eexists;
        (split; [simpl; rewrite Htr, <- !app_assoc; reflexivity|]);
        by repeat split.
    + rewrite (finish_test_inactive E report item w Hact).
      intros [= <- <-]. exists []. rewrite app_nil_r. by repeat split.
Qed.

Lemma test_event_ok_weaken rid a a1 e :
  (a = true -> a1 = true) -> test_event_ok rid a1 e -> test_event_ok rid a e.
Proof.
  intros Hkeep. destruct e as [[]| | | |]; simpl; try done.
  intros ->. destruct a; [|done]. by specialize (Hkeep eq_refl).
Qed.

Lemma handle_all_steps evs w r w' :
  handle_all E evs w = (r, w') ->
  exists l,
    trace w' = trace w ++ l /\
    ctx_test_run w' = ctx_test_run w /\
    zebrunner_handlers w' = zebrunner_handlers w /\
    Forall (test_event_ok (test_run_id w) (api_authenticated w)) l /\
    (api_authenticated w = true -> api_authenticated w' = true).
Proof.
  revert w. induction evs as [|ev evs IH]; intros w; simpl.
  - intros [= <- <-]. exists []. rewrite app_nil_r. by repeat split.
  - rewrite bind_eq. destruct (handle E ev w) as [[[]|e] w1] eqn:Hev.
    + destruct (handle_step _ _ _ _ Hev) as (l1 & Htr1 & Hrun1 & Hh1 & Hok1 & Hkeep1).
      intros Hrest. destruct (IH _ Hrest) as (l2 & Htr2 & Hrun2 & Hh2 & Hok2 & Hkeep2).
      exists (l1 ++ l2). rewrite Htr2, Htr1, app_assoc.
      repeat split; try congruence; [|by auto].
      apply Forall_app. split; [exact Hok1|].
      assert (Hrid : test_run_id w1 = test_run_id w)
        by (unfold test_run_id; by rewrite Hrun1).
      rewrite Hrid in Hok2.
      eapply Forall_impl; [exact Hok2|]. intros e. by apply test_event_ok_weaken.
    + intros [= <- <-]. by apply (handle_step _ _ _ _ Hev).
Qed.

Lemma handle_all_pair evs w :
  handle_all E evs w = (fst (handle_all E evs w), snd (handle_all E evs w)).
Proof. by destruct (handle_all E evs w). Qed.

(** Whatever per-test events arrive, and whether or not one of them raises:
    the current Run and the registered log sinks are as before, and the trace
    has grown by log records, authentication refreshes and start-test and
    finish-test calls that all name the current Run. No start-run, finish-run,
    log or screenshot request is sent, no sink is registered or flushed and
    the client is not closed. *)
Theorem test_events_keep_the_run evs w :
  let w' := snd (handle_all E evs w) in
  ctx_test_run w' = ctx_test_run w /\
  zebrunner_handlers w' = zebrunner_handlers w /\
  Forall (belongs_to_run (test_run_id w)) (emitted w w').
Proof.
  destruct (handle_all_steps _ _ _ _ (handle_all_pair evs w))
    as (l & Htr & Hrun & Hh & Hok & _).
  cbv zeta. rewrite (emitted_app _ _ _ Htr). repeat split; try done.
  eapply Forall_impl; [exact Hok|].
  intros e. destruct e as [[]| | | |]; simpl; try done. tauto.
Qed.

(** Whatever per-test events arrive, every finish-test call that goes out
    carries the status PASSED, FAILED or SKIPPED: the statuses UNKNOWN,
    IN_PROGRESS, ABORTED and QUEUED are never reported. *)
Theorem only_three_statuses_reported evs w :
  Forall (fun c => In (ft_result (snd c)) ["PASSED"; "FAILED"; "SKIPPED"])
         (finish_test_calls (emitted w (snd (handle_all E evs w)))).
Proof.
  destruct (handle_all_steps _ _ _ _ (handle_all_pair evs w))
    as (l & Htr & _ & _ & Hok & _).
  rewrite (emitted_app _ _ _ Htr). clear Htr.
  induction Hok as [|e l He _ IH]; [constructor|].
  destruct e as [[]| | | |]; try exact IH.
  unfold finish_test_calls. cbn [omap list_omap]. constructor; [|exact IH].
  simpl. apply He.
Qed.

(** Once the client is authenticated it stays so: no per-test event sends
    another authentication refresh. *)
Theorem authenticated_client_is_not_refreshed evs w :
  api_authenticated w = true ->
  api_authenticated (snd (handle_all E evs w)) = true /\
  auth_calls (emitted w (snd (handle_all E evs w))) = [].
Proof.
  intros Ha.
  destruct (handle_all_steps _ _ _ _ (handle_all_pair evs w))
    as (l & Htr & _ & _ & Hok & Hkeep).
  split; [by apply Hkeep|].
  rewrite (emitted_app _ _ _ Htr). clear Htr Hkeep. rewrite Ha in Hok.
  induction Hok as [|e l He _ IH]; [done|].
  destruct e as [[]| | | |]; try exact IH. discriminate He.
Qed.

End TestEvents.

(** An authenticated client over a start and a finish event. *)
Lemma authenticated_client_is_not_refreshed_witness :
  let evs := [StartTestEvent Samples.passed Samples.item_a;
              FinishTestEvent Samples.failed Samples.item_a] in
  api_authenticated (snd (handle_all Samples.env_up evs Samples.run_active)) = true /\
  auth_calls (emitted Samples.run_active (snd (handle_all Samples.env_up evs Samples.run_active)))
  = [].
Proof.
  intros evs.
  exact (authenticated_client_is_not_refreshed Samples.env_up evs Samples.run_active eq_refl).
Defined.

(** * Finish-test calls and the start-test calls they answer *)

Section Pairing.

Variable E : env.

Lemma auth_events_quiet l :
  Forall (fun e => is_auth_event e = true) l -> Forall (fun e => is_test_call e = false) l.
Proof.
  intros Hl. eapply Forall_impl; [exact Hl|].
  intros e. by destruct e as [[]| | | |].
Qed.

Lemma outcome_logs_quiet o : Forall (fun e => is_test_call e = false) (outcome_logs o).
Proof. apply auth_events_quiet, logs_are_auth_events, outcome_logs_are_logs. Qed.

Lemma started_at_app tr l n0 i j rid tid :
  (j <= length tr)%nat ->
  started_at E tr n0 i j rid tid -> started_at E (tr ++ l) n0 i j rid tid.
Proof.
  intros Hj (Hi & (body & Hbody & Hid) & Hbetween).
  split; [exact Hi|]. split.
  - exists body. split; [by apply lookup_app_l_Some|exact Hid].
  - intros k e Hk Hlook. rewrite lookup_app_l in Hlook by lia. eauto.
Qed.

Lemma started_at_quiet tr l n0 i rid tid :
  Forall (fun e => is_test_call e = false) l ->
  started_at E tr n0 i (length tr) rid tid ->
  started_at E (tr ++ l) n0 i (length (tr ++ l)) rid tid.
Proof.
  intros Hl (Hi & (body & Hbody & Hid) & Hbetween).
  split; [rewrite length_app; lia|]. split.
  - exists body. split; [by apply lookup_app_l_Some|exact Hid].
  - intros k e Hk Hlook.
    destruct (decide (k < length tr)%nat) as [Hlt|Hge].
    + rewrite lookup_app_l in Hlook by lia. apply (Hbetween k); [lia|done].
    + rewrite lookup_app_r in Hlook by lia.
      exact (Forall_lookup_1 _ _ _ _ Hl Hlook).
Qed.

Lemma finishes_paired_app tr l n0 :
  (forall m rid tid body, l !! m = Some (Sent (FinishTest rid tid body)) -> False) ->
  finishes_paired E n0 tr -> finishes_paired E n0 (tr ++ l).
Proof.
  intros Hl Hp j rid tid body Hj Hlook.
  destruct (decide (j < length tr)%nat) as [Hlt|Hge].
  - rewrite lookup_app_l in Hlook by lia.
    destruct (Hp j rid tid body Hj Hlook) as [Hne [i Hi]].
    split; [exact Hne|]. exists i. apply started_at_app; [lia|exact Hi].
  - rewrite lookup_app_r in Hlook by lia. by destruct (Hl _ _ _ _ Hlook).
Qed.

Lemma finishes_paired_quiet tr l n0 :
  Forall (fun e => is_test_call e = false) l ->
  finishes_paired E n0 tr -> finishes_paired E n0 (tr ++ l).
Proof.
  intros Hl. apply finishes_paired_app.
  intros m rid tid body Hlook.
  by pose proof (Forall_lookup_1 _ _ _ _ Hl Hlook).
Qed.

Lemma finishes_paired_finish tr n0 rid tid body :
  tid <> VNone ->
  (exists i, started_at E tr n0 i (length tr) rid tid) ->
  finishes_paired E n0 tr ->
  finishes_paired E n0 (tr ++ [Sent (FinishTest rid tid body)]).
Proof.
  intros Hne [i Hi] Hp j rid' tid' body' Hj Hlook.
  destruct (decide (j < length tr)%nat) as [Hlt|Hge].
  - rewrite lookup_app_l in Hlook by lia.
    destruct (Hp j rid' tid' body' Hj Hlook) as [Hne' [i' Hi']].
    split; [exact Hne'|]. exists i'. apply started_at_app; [lia|exact Hi'].
  - rewrite lookup_app_r in Hlook by lia.
    destruct (j - length tr)%nat as [|m] eqn:Hm; [|by destruct m].
    injection Hlook as <- <- <-.
    assert (j = length tr) as -> by lia.
    split; [exact Hne|]. exists i. apply started_at_app; [lia|exact Hi].
Qed.

(** The invariant, step by step. *)
Lemma pairing_inv_quiet n0 w w1 l :
  same_context w w1 ->
  trace w1 = trace w ++ l ->
  Forall (fun e => is_test_call e = false) l ->
  pairing_inv E n0 w -> pairing_inv E n0 w1.
Proof.
  intros Hctx Htr Hl (Hn & Hp & Hcur).
  destruct (same_context_active w w1 Hctx) as (_ & Hact & Hrid & Htid).
  unfold pairing_inv. rewrite Htr, Hact, Hrid, Htid.
  split; [rewrite length_app; lia|].
  split; [by apply finishes_paired_quiet|].
  intros Ha. destruct (Hcur Ha) as [i Hi]. exists i. by apply started_at_quiet.
Qed.

Lemma pairing_inv_extend n0 w l :
  Forall (fun e => is_test_call e = false) l ->
  pairing_inv E n0 w -> pairing_inv E n0 (extend l w).
Proof. intros Hl. by apply (pairing_inv_quiet n0 w (extend l w) l). Qed.

Lemma pairing_inv_inactive n0 w t :
  test_is_active (with_test t w) = false ->
  pairing_inv E n0 w -> pairing_inv E n0 (with_test t w).
Proof.
  intros Hoff (Hn & Hp & _). unfold pairing_inv. rewrite Hoff.
  split; [exact Hn|]. split; [exact Hp|done].
Qed.

Lemma pairing_inv_start n0 w t body :
  let call := StartTest (test_run_id w) body in
  pairing_inv E n0 w ->
  pairing_inv E n0
    (with_test (Some (Test_set_zebrunner_id t (returned_id (net E (length (trace w)) call))))
       (extend [Sent call] w)).
Proof.
  intros call (Hn & Hp & _). unfold pairing_inv. autorewrite with world. simpl.
  split; [rewrite length_app; simpl; lia|]. split.
  - apply finishes_paired_app; [|exact Hp].
    intros [|[|m]] rid tid body'; simpl; discriminate.
  - intros _. exists (length (trace w)). split; [rewrite length_app; simpl; lia|]. split.
    + exists body. split; [by apply list_lookup_middle|reflexivity].
    + intros k e Hk. rewrite length_app in Hk. simpl in Hk. lia.
Qed.

Lemma pairing_inv_finish n0 w body :
  test_is_active w = true ->
  pairing_inv E n0 w ->
  pairing_inv E n0
    (with_test None (extend [Sent (FinishTest (test_run_id w) (test_id w) body)] w)).
Proof.
  intros Hact (Hn & Hp & Hcur). unfold pairing_inv. autorewrite with world. simpl.
  split; [rewrite length_app; simpl; lia|]. split; [|done].
  apply finishes_paired_finish; [|by apply Hcur|exact Hp].
  unfold test_is_active in Hact. unfold test_id.
  apply andb_prop in Hact as [_ Hact].
  destruct (ctx_test w) as [t|]; [|done]. by destruct (test_zebrunner_id t).
Qed.

Lemma extend_cons e l w : extend (e :: l) w = extend l (extend [e] w).
Proof. by rewrite extend_extend. Qed.

Lemma with_test_extend t l w : with_test t (extend l w) = extend l (with_test t w).
Proof. reflexivity. Qed.

Lemma pairing_inv_paired n0 w : pairing_inv E n0 w -> finishes_paired E n0 (trace w).
Proof. by intros (_ & Hp & _). Qed.

(** One per-test event keeps the pairing of the finish-test calls and, when
    it returns, the invariant. *)
Lemma handle_keeps_pairing n0 ev w r w' :
  handle E ev w = (r, w') ->
  pairing_inv E n0 w ->
  finishes_paired E n0 (trace w') /\ (r = Ok tt -> pairing_inv E n0 w').
Proof.
  assert (Hdone : forall r w', pairing_inv E n0 w' ->
                    finishes_paired E n0 (trace w') /\ (r = Ok tt -> pairing_inv E n0 w')).
  { intros r0 w0 Hinv0. split; [by apply pairing_inv_paired|done]. }
  intros Hev Hinv. destruct ev as [report item|report item]; simpl in Hev.
  - destruct (register_test_eq E item w)
      as (ra & w1 & l & _ & Hctx & Htr & Hl & _ & Heq).
    pose proof (pairing_inv_quiet n0 w w1 l Hctx Htr (auth_events_quiet l Hl) Hinv) as Hinv1.
    destruct (same_context_active w w1 Hctx) as (Hra & _ & Hrid & _).
    unfold start_test in Hev. rewrite bind_eq, Heq in Hev.
    destruct ra as [[]|e].
    2:{ injection Hev as <- <-. by apply Hdone. }
    destruct (build_test item) as [t|e] eqn:Hbuild.
    2:{ injection Hev as <- <-. by apply Hdone. }
    pose proof (build_test_no_id item t Hbuild) as Hnone.
    assert (Hoff : test_is_active (with_test (Some t) w1) = false).
    { autorewrite with world. by rewrite Hnone, andb_false_r. }
    destruct (test_run_is_active w) eqn:Hact.
    2:{ rewrite finish_skipped_eq, Hoff, andb_false_r in Hev.
        injection Hev as <- <-. by apply Hdone, pairing_inv_inactive. }
    destruct (join_values "," (test_maintainers t)) as [maintainer|e].
    2:{ injection Hev as <- <-. by apply Hdone, pairing_inv_inactive. }
    cbv beta iota zeta in Hev. rewrite <- Hrid in Hev.
    set (call := StartTest (test_run_id w1) _) in Hev.
    set (o := net E _ call) in Hev.
    pose proof (pairing_inv_extend n0 _ (outcome_logs o) (outcome_logs_quiet _)
                  (pairing_inv_start n0 w1 t
                     (start_test_payload E t maintainer (length (trace w1))) Hinv1)) as Hinv2.
    fold call in Hinv2. fold o in Hinv2.
    rewrite (extend_cons (Sent call)) in Hev.
    destruct (returned "id" o) as [zid|e] eqn:Hret.
    2:{ assert (Ht : Test_set_zebrunner_id t (returned_id o) = t).
        { rewrite (returned_id_raise _ _ Hret). destruct t; simpl in *. by subst. }
        rewrite Ht in Hinv2. injection Hev as <- <-.
        rewrite with_test_extend. by apply Hdone. }
    rewrite <- (returned_id_ok _ _ Hret) in Hev.
    rewrite with_test_extend, finish_skipped_eq in Hev.
    set (w2 := extend _ (with_test _ (extend [Sent call] w1))) in *.
    destruct (report_skipped report && test_is_active w2) eqn:Hskip.
    + cbv zeta in Hev. apply andb_prop in Hskip as [_ Hact2].
      set (fcall := FinishTest _ _ _) in Hev. set (fo := net E _ fcall) in Hev.
      assert (Hinv3 : pairing_inv E n0 (with_test None (extend (Sent fcall :: outcome_logs fo) w2))).
      { rewrite extend_cons, with_test_extend.
        apply pairing_inv_extend; [apply outcome_logs_quiet|].
        by apply pairing_inv_finish. }
      destruct (acknowledged fo); injection Hev as <- <-.
      * by apply Hdone.
      * split; [exact (pairing_inv_paired _ _ Hinv3)|done].
    + injection Hev as <- <-. by apply Hdone.
  - destruct (test_is_active w) eqn:Hact.
    + destruct (finish_test_active E report item w Hact)
        as (ra & w1 & l & _ & Hctx & Htr & Hl & _ & Heq).
      pose proof (pairing_inv_quiet n0 w w1 l Hctx Htr (auth_events_quiet l Hl) Hinv) as Hinv1.
      destruct (same_context_active w w1 Hctx) as (_ & Hact1 & Hrid & Htid).
      cbv zeta in Heq. rewrite Heq in Hev.
      destruct ra as [[]|e].
      2:{ injection Hev as <- <-. by apply Hdone. }
      rewrite <- Hrid, <- Htid in Hev.
      set (fcall := FinishTest _ _ _) in Hev. set (fo := net E _ fcall) in Hev.
      assert (Hinv3 : pairing_inv E n0 (with_test None (extend (Sent fcall :: outcome_logs fo) w1))).
      { rewrite extend_cons, with_test_extend.
        apply pairing_inv_extend; [apply outcome_logs_quiet|].
        apply pairing_inv_finish; [congruence|exact Hinv1]. }
      destruct (acknowledged fo); injection Hev as <- <-.
      * by apply Hdone.
      * split; [exact (pairing_inv_paired _ _ Hinv3)|done].
    + rewrite (finish_test_inactive E report item w Hact) in Hev.
      injection Hev as <- <-. by apply Hdone.
Qed.

Lemma handle_all_keeps_pairing n0 evs w r w' :
  handle_all E evs w = (r, w') -> pairing_inv E n0 w -> finishes_paired E n0 (trace w').
Proof.
  revert w. induction evs as [|ev evs IH]; intros w; simpl.
  - intros [= <- <-]. apply pairing_inv_paired.
  - rewrite bind_eq. destruct (handle E ev w) as [[[]|e] w1] eqn:Hev.
    + intros Hrest Hinv. apply (IH _ Hrest).
      by apply (handle_keeps_pairing n0 ev w _ _ Hev Hinv).
    + intros [= <- <-] Hinv.
      by destruct (handle_keeps_pairing n0 ev w _ _ Hev Hinv) as [Hp _].
Qed.

(** Whatever per-test events arrive after a point where no Test is active,
    and whether or not one of them raises: every finish-test call sent since
    names a test identifier that is present, and that identifier is the
    answer to the latest start-test call before it, sent since that point for
    the same Run. No other start-test or finish-test call lies between the
    two, so a start-test call is answered by at most one finish-test call and
    the orchestrator finishes no test that it has not started. *)
Theorem finish_calls_follow_their_start evs w :
  test_is_active w = false ->
  let w' := snd (handle_all E evs w) in
  forall j rid tid body,
    (length (trace w) <= j)%nat ->
    trace w' !! j = Some (Sent (FinishTest rid tid body)) ->
    tid <> VNone /\
    exists i, started_at E (trace w') (length (trace w)) i j rid tid.
Proof.
  intros Hoff w' j rid tid body Hj Hlook.
  assert (Hinv : pairing_inv E (length (trace w)) w).
  { split; [done|]. split; [|by rewrite Hoff].
    intros j' rid' tid' body' Hj' Hlook'.
    apply lookup_lt_Some in Hlook'. lia. }
  exact (handle_all_keeps_pairing _ evs w _ _ (handle_all_pair E evs w) Hinv
           j rid tid body Hj Hlook).
Qed.

End Pairing.

(** * More on [start_test] and [finish_test] *)

Section StartTestMore.

Variable E : env.

Lemma start_test_calls_auth l :
  Forall (fun e => is_auth_event e = true) l -> start_test_calls l = [].
Proof.
  induction 1 as [|e l He _ IH]; [done|].
  destruct e as [[]| | | |]; try discriminate He; exact IH.
Qed.

Lemma start_test_calls_app l1 l2 :
  start_test_calls (l1 ++ l2) = start_test_calls l1 ++ start_test_calls l2.
Proof. unfold start_test_calls. apply omap_app. Qed.

Lemma start_test_calls_logs o : start_test_calls (outcome_logs o) = [].
Proof. apply start_test_calls_auth, logs_are_auth_events, outcome_logs_are_logs. Qed.

Lemma build_test_name item t : build_test item = Ok t -> test_name t = item_name item.
Proof.
  unfold build_test. destruct (nodeid_file item); [|done]. simpl.
  destruct (comprehension _ (iter_markers "maintainer" item)); [|done]. simpl.
  destruct (comprehension _ (iter_markers "label" item)); [|done]. simpl.
  by intros [= <-].
Qed.

(** Under an active Run, for an item whose Test can be built and whose
    maintainers are strings, [register_test] sends exactly one start-test
    call once [authorize] has returned: it names the current Run, carries the
    item's name as name and as method, the second node-id segment as class,
    the maintainers joined by commas and the labels in order. The identifier
    that this very call returns is the one the current Test gets, and the
    Test is active exactly when that identifier is present; [register_test]
    returns or raises as reading the answer does, and a Test whose answer
    could not be read has no identifier. When [authorize] raises,
    [register_test] raises with it and nothing else has happened. *)
Theorem start_test_keeps_the_server_id item w t maintainer :
  test_run_is_active w = true ->
  build_test item = Ok t ->
  join_values "," (test_maintainers t) = Ok maintainer ->
  exists ra w1 body,
    authorize E w = (ra, w1) /\
    st_name body = item_name item /\
    st_method_name body = item_name item /\
    st_class_name body = test_file t /\
    st_maintainer body = Some maintainer /\
    map (fun l => (label_key l, label_value l)) (st_labels body) = test_labels t /\
    (ra = Ok tt ->
     let o := net E (length (trace w1)) (StartTest (test_run_id w) body) in
     let w' := snd (register_test E item w) in
     fst (register_test E item w) = discard (returned "id" o) /\
     start_test_calls (emitted w w') = [(test_run_id w, body)] /\
     ctx_test w' = Some (Test_set_zebrunner_id t (returned_id o)) /\
     test_is_active w' = is_not_none (returned_id o)) /\
    (forall e, ra = Raise e -> register_test E item w = (Raise e, w1)).
Proof.
  intros Hact Hbuild Hjoin.
  destruct (register_test_eq E item w)
    as (ra & w1 & l & Hauth & Hctx & Htr & Hl & _ & Heq).
  rewrite Hbuild, Hact, Hjoin in Heq. cbv zeta in Heq.
  destruct (same_context_active w w1 Hctx) as (Hra & _).
  exists ra, w1, (start_test_payload E t maintainer (length (trace w1))).
  split; [exact Hauth|].
  pose proof (build_test_name item t Hbuild) as Hname.
  split; [exact Hname|]. split; [exact Hname|]. split; [reflexivity|].
  split; [reflexivity|]. split.
  { simpl. rewrite map_map. simpl. clear.
    induction (test_labels t) as [|[k v] ls IH]; [done|]. simpl. by rewrite IH. }
  split; [|by intros e ->].
  intros ->. cbv zeta. rewrite Heq.
  set (call := StartTest _ _). set (o := net E _ call).
  assert (Hcalls : start_test_calls (l ++ Sent call :: outcome_logs o)
                   = [(test_run_id w,
                       start_test_payload E t maintainer (length (trace w1)))]).
  { rewrite start_test_calls_app, (start_test_calls_auth l Hl). simpl.
    change (?x :: start_test_calls ?o) with ([x] ++ start_test_calls o).
    by rewrite start_test_calls_logs. }
  pose proof (build_test_no_id item t Hbuild) as Hnone.
  unfold returned_id.
  destruct (returned "id" o) as [zid|e]; cbn [fst snd discard].
  - split; [reflexivity|]. split.
    { erewrite emitted_app; [exact Hcalls|]. simpl. by rewrite Htr, <- app_assoc. }
    split; [reflexivity|]. autorewrite with world. by rewrite Hra, Hact.
  - split; [reflexivity|]. split.
    { erewrite emitted_app; [exact Hcalls|]. simpl. by rewrite Htr, <- app_assoc. }
    split.
    + simpl. f_equal. destruct t; simpl in *. by subst.
    + autorewrite with world. by rewrite Hnone, andb_false_r.
Qed.

(** A raise in one element of a comprehension is the raise of the whole. *)
Lemma comprehension_raises {A B} (f : A -> result B) l :
  Forall (fun x => (exists y, f x = Ok y) \/ f x = Raise IndexError) l ->
  Exists (fun x => f x = Raise IndexError) l ->
  comprehension f l = Raise IndexError.
Proof.
  induction 1 as [|x l Hx _ IH]; intros Hex; [by inversion Hex|].
  simpl. destruct Hx as [[y Hy]|Hx]; [|by rewrite Hx].
  rewrite Hy. simpl. inversion Hex as [? ? Hbad|? ? Hlater]; subst; [congruence|].
  by rewrite (IH Hlater).
Qed.

Lemma comprehension_ok_or_index {A B} (f : A -> result B) l :
  Forall (fun x => (exists y, f x = Ok y) \/ f x = Raise IndexError) l ->
  (exists ys, comprehension f l = Ok ys) \/ comprehension f l = Raise IndexError.
Proof.
  induction 1 as [|x l Hx _ IH]; [left; by eexists|].
  simpl. destruct Hx as [[y Hy]|Hx]; [|right; by rewrite Hx].
  rewrite Hy. simpl. destruct IH as [[ys Hys]|Hraise].
  - left. rewrite Hys. by eexists.
  - right. by rewrite Hraise.
Qed.

Lemma index_ok_or_index {A} (l : list A) i :
  (exists y, index l i = Ok y) \/ index l i = Raise IndexError.
Proof. unfold index. destruct (nth_error l i); [left; by eexists|by right]. Qed.

Lemma build_test_marker_error item :
  Exists (fun m => mark_args m = []) (iter_markers "maintainer" item) \/
  Exists (fun m => (length (mark_args m) < 2)%nat) (iter_markers "label" item) ->
  build_test item = Raise IndexError.
Proof.
  intros Hbad. unfold build_test.
  destruct (index_ok_or_index (PyString.split "::" (nodeid item)) 1) as [[file Hfile]|Hfile];
    unfold nodeid_file; rewrite Hfile; [|done]. simpl.
  set (fm := fun mark : Mark => index (mark_args mark) 0).
  set (fl := fun mark : Mark =>
               k ← index (mark_args mark) 0;
               v ← index (mark_args mark) 1;
               Ok (py_str k, py_str v)).
  assert (Hfm : Forall (fun x => (exists y, fm x = Ok y) \/ fm x = Raise IndexError)
                       (iter_markers "maintainer" item)).
  { apply Forall_forall. intros m _. apply index_ok_or_index. }
  assert (Hfl : Forall (fun x => (exists y, fl x = Ok y) \/ fl x = Raise IndexError)
                       (iter_markers "label" item)).
  { apply Forall_forall. intros m _. unfold fl, index.
    destruct (mark_args m) as [|a [|b rest]]; simpl; [by right|by right|left; by eexists]. }
  destruct (comprehension_ok_or_index fm _ Hfm) as [[ms Hms]|Hms]; rewrite Hms; [|done].
  simpl. destruct Hbad as [Hbad|Hbad].
  - exfalso. enough (comprehension fm (iter_markers "maintainer" item) = Raise IndexError)
      by congruence.
    apply comprehension_raises; [exact Hfm|].
    eapply Exists_impl; [exact Hbad|]. intros m Hm. unfold fm, index. by rewrite Hm.
  - rewrite (comprehension_raises fl _ Hfl); [done|].
    eapply Exists_impl; [exact Hbad|]. intros m Hm. unfold fl, index.
    destruct (mark_args m) as [|a [|b rest]] eqn:Hargs; [reflexivity|reflexivity|].
    pose proof (f_equal length Hargs) as Hlen. simpl in Hlen. cbv beta in Hm. lia.
Qed.

(** A [maintainer] marker without a positional argument, or a [label] marker
    with fewer than two, makes [start_test] raise IndexError. The context is
    as before and nothing of the test lifecycle has been sent: all that has
    happened is [authorize], and when that raises, [start_test] raises with
    it. *)
Theorem marker_without_arguments_raises report item w :
  Exists (fun m => mark_args m = []) (iter_markers "maintainer" item) \/
  Exists (fun m => (length (mark_args m) < 2)%nat) (iter_markers "label" item) ->
  exists ra w',
    authorize E w = (ra, w') /\
    start_test E report item w = (ra ≫= (fun _ => Raise IndexError), w') /\
    ctx_test_run w' = ctx_test_run w /\
    ctx_test w' = ctx_test w /\
    Forall (fun e => is_auth_event e = true) (emitted w w').
Proof.
  intros Hbad.
  destruct (register_test_eq E item w)
    as (ra & w1 & l & Hauth & (Hrun & Htest & _) & Htr & Hl & _ & Heq).
  rewrite (build_test_marker_error item Hbad) in Heq.
  exists ra, w1. unfold start_test. rewrite bind_eq, Heq.
  split; [exact Hauth|]. split; [by destruct ra as [[]|e]|].
  repeat split; try done. by rewrite (emitted_app _ _ _ Htr).
Qed.

Lemma as_strings_type_error l :
  Exists (fun v => is_str v = false) l -> as_strings l = Raise TypeError.
Proof.
  induction l as [|v l IH]; intros Hex; [by inversion Hex|].
  destruct v as [| | |s]; try done.
  inversion Hex as [? ? Hv|? ? Hl]; subst; [done|].
  simpl. by rewrite (IH Hl).
Qed.

(** A maintainer that is not a string is an error only under an active Run,
    where the maintainers are joined for the start-test payload: there
    [start_test] raises TypeError after it has made the Test current, so the
    slot holds a Test without identifier, and no start-test call is sent.
    Under an inactive Run the same item is registered without error. All
    this once [authorize] has returned; when it raises, [start_test] raises
    with it. *)
Theorem maintainer_that_is_no_string report item w t :
  build_test item = Ok t ->
  Exists (fun v => is_str v = false) (test_maintainers t) ->
  exists ra w1,
    authorize E w = (ra, w1) /\
    test_zebrunner_id t = VNone /\
    (ra = Ok tt ->
     (test_run_is_active w = true ->
      start_test E report item w = (Raise TypeError, with_test (Some t) w1)) /\
     (test_run_is_active w = false ->
      start_test E report item w = (Ok tt, with_test (Some t) w1))) /\
    (forall e, ra = Raise e -> start_test E report item w = (Raise e, w1)).
Proof.
  intros Hbuild Hbad.
  destruct (register_test_eq E item w)
    as (ra & w1 & l & Hauth & Hctx & Htr & Hl & _ & Heq).
  destruct (same_context_active w w1 Hctx) as (Hra & _).
  rewrite Hbuild in Heq.
  exists ra, w1. split; [exact Hauth|].
  split; [exact (build_test_no_id item t Hbuild)|].
  split.
  - intros ->.
    split; intros Hact; rewrite Hact in Heq; unfold start_test; rewrite bind_eq, Heq.
    + unfold join_values. by rewrite (as_strings_type_error _ Hbad).
    + rewrite finish_skipped_eq. autorewrite with world.
      by rewrite Hra, Hact, andb_false_r.
  - intros e ->. unfold start_test. by rewrite bind_eq, Heq.
Qed.

Lemma handle_start_finish report1 report2 item item2 w :
  handle_all E [StartTestEvent report1 item; FinishTestEvent report2 item2] w =
  match start_test E report1 item w with
  | (Ok _, w1) => finish_test E report2 item2 w1
  | (Raise e, w1) => (Raise e, w1)
  end.
Proof.
  simpl. rewrite bind_eq.
  destruct (start_test E report1 item w) as [[[]|e] w1]; [|done].
  rewrite bind_eq. by destruct (finish_test E report2 item2 w1) as [[[]|e] w2].
Qed.

(** A registered test is reported finished at most once, over [start_test]
    and the [finish_test] that follows when [start_test] has returned: never
    when it is not active after its registration, and exactly once when it is
    and both calls return. A test that is finished as skipped at its start is
    not finished again by [finish_test], and when both calls have returned no
    Test is active. *)
Theorem test_is_finished_once report1 report2 item item2 w w0 :
  register_test E item w = (Ok tt, w0) ->
  let run :=
    handle_all E [StartTestEvent report1 item; FinishTestEvent report2 item2] w in
  (length (finish_test_calls (emitted w (snd run)))
   <= (if test_is_active w0 then 1 else 0))%nat /\
  (fst run = Ok tt ->
   length (finish_test_calls (emitted w (snd run)))
   = (if test_is_active w0 then 1 else 0)%nat /\
   test_is_active (snd run) = false).
Proof.
  intros Hreg.
  destruct (register_test_trace E item w _ _ Hreg) as (l & Htr & Hnone & _).
  cbv zeta. rewrite handle_start_finish. unfold start_test.
  rewrite bind_eq, Hreg, finish_skipped_eq.
  assert (Hone : forall w' la call o,
             finish_test_calls la = [] ->
             trace w' = trace w0 ++ la ++ Sent (FinishTest (test_run_id w0) (test_id w0) call)
                                     :: outcome_logs o ->
             length (finish_test_calls (emitted w w')) = 1%nat).
  { intros w' la call o Hla Hw'. erewrite emitted_app.
    2:{ rewrite Hw', Htr, <- !app_assoc. reflexivity. }
    rewrite !finish_test_calls_app, Hnone, Hla. simpl.
    change (?x :: finish_test_calls ?o) with ([x] ++ finish_test_calls o).
    by rewrite finish_test_calls_logs. }
  destruct (test_is_active w0) eqn:Hact0.
  - destruct (report_skipped report1); cbn [andb]; cbv zeta.
    + set (call := FinishTest _ _ _). set (o := net E _ call).
      destruct (acknowledged o) as [[]|e]; cbn iota.
      * rewrite finish_test_inactive by apply test_is_active_cleared.
        cbn [fst snd]. erewrite (Hone _ [] _ o eq_refl); [|reflexivity].
        split; [lia|]. intros _. split; [done|]. apply test_is_active_cleared.
      * cbn [fst snd]. erewrite (Hone _ [] _ o eq_refl); [|reflexivity]. by split; [lia|].
    + cbn iota.
      destruct (finish_test_active E report2 item2 w0 Hact0)
        as (ra & w1 & la & _ & Hctx & Htra & Hla & _ & Heq).
      destruct (same_context_active w0 w1 Hctx) as (_ & _ & Hrid & Htid).
      cbv zeta in Heq. rewrite Heq.
      destruct ra as [[]|e]; cbn [fst snd].
      2:{ erewrite emitted_app.
          2:{ rewrite Htra, Htr, <- app_assoc. reflexivity. }
          rewrite finish_test_calls_app, Hnone, (finish_test_calls_auth la Hla).
          simpl. by split; [lia|]. }
      set (body := Build_FinishTestModel _ _ _).
      set (call := FinishTest _ _ body). set (o := net E _ call).
      assert (Hcount : forall w', trace w' = trace w1 ++ Sent call :: outcome_logs o ->
                         length (finish_test_calls (emitted w w')) = 1%nat).
      { intros w' Hw'. apply (Hone w' la body o (finish_test_calls_auth la Hla)).
        by rewrite Hw', Htra, <- app_assoc. }
      destruct (acknowledged o) as [[]|e]; cbn [fst snd].
      * erewrite Hcount; [|reflexivity]. split; [lia|]. intros _.
        split; [done|]. apply test_is_active_cleared.
      * erewrite Hcount; [|reflexivity]. by split; [lia|].
  - rewrite andb_false_r. cbn iota.
    rewrite (finish_test_inactive E _ _ _ Hact0). cbn [fst snd].
    rewrite (emitted_app _ _ _ Htr), Hnone. simpl. by split; [lia|].
Qed.

(** [finish_test] asks whether the report passed and nothing else: a report
    whose outcome is skipped is reported like a failed one, FAILED with the
    failure text, or SKIPPED with the marker's reason under an xfail marker.
    The call is sent once [authorize] has returned. *)
Theorem skipped_outcome_is_reported_failed report item w :
  test_is_active w = true ->
  outcome report = OutcomeSkipped ->
  exists body,
    finish_test_calls (emitted w (snd (finish_test E report item w)))
    = (if succeeds (fst (authorize E w))
       then [(test_run_id w, test_id w, body)] else []) /\
    (first_xfail item = None ->
     ft_result body = "FAILED" /\ ft_reason body = VStr (longreprtext report)) /\
    (forall m, first_xfail item = Some m ->
     ft_result body = "SKIPPED" /\
     ft_reason body = kwargs_get "reason" VNone (mark_kwargs m)).
Proof.
  intros Hact Hout.
  destruct (finish_test_active_calls E report item w Hact) as [Hcalls _].
  cbv zeta in Hcalls. eexists. split; [exact Hcalls|].
  simpl. rewrite resolve_status_rows. unfold report_passed. rewrite Hout.
  split; [by intros ->|]. by intros m ->.
Qed.

End StartTestMore.

(** * Authentication, run start and run finish *)

Section RunMore.

Variable E : env.

Lemma access_token_set : truthy (VStr (access_token (server (settings E)))) = true.
Proof.
  pose proof (server_set (server (settings E))) as H.
  by apply andb_true_iff in H as [_ H].
Qed.

(** [authorize] does nothing on an authenticated client, and nothing either
    when the service URL is empty (a host name made of slashes). Otherwise it
    sends one authentication refresh with the access token, and it returns
    or raises as reading the answer does. The client is authenticated
    afterwards exactly when the answer has status 200 and its token could be
    read, and the token it then holds is that one. A refresh that did not
    authenticate leaves the client as it was, so the next operation tries
    again. *)
Theorem authorize_refreshes_once w :
  (api_authenticated w = true -> authorize E w = (Ok tt, w)) /\
  (api_authenticated w = false -> ZebrunnerAPI.service_url E = EmptyString ->
   authorize E w = (Ok tt, w)) /\
  (api_authenticated w = false -> ZebrunnerAPI.service_url E <> EmptyString ->
   let call := AuthRefresh (access_token (server (settings E))) in
   let o := net E (length (trace w)) call in
   let w' := snd (authorize E w) in
   fst (authorize E w) = discard (returned "authToken" o) /\
   ((exists e, fst (authorize E w) = Raise e) <-> unreadable "authToken" o) /\
   emitted w w' = Sent call :: outcome_logs o /\
   api_authenticated w' = negb (call_failed o) && succeeds (returned "authToken" o) /\
   (forall token, call_failed o = false -> returned "authToken" o = Ok token ->
                  api_auth_token w' = token) /\
   (api_authenticated w' = false -> api_auth_token w' = api_auth_token w) /\
   same_context w w').
Proof.
  split; [|split].
  - apply authorize_authenticated.
  - intros Ha Hurl. unfold authorize, ZebrunnerAPI.auth. run_monad.
    rewrite Ha, Hurl. simpl. by rewrite orb_true_r.
  - intros Ha Hurl call o.
    assert (Htruthy : truthy (VStr (ZebrunnerAPI.service_url E)) = true).
    { simpl. by apply negb_true_iff, String.eqb_neq. }
    rewrite (authorize_not_authenticated E w Ha), (api_auth_eq E w Htruthy).
    fold call. fold o. cbn [fst snd].
    split; [reflexivity|]. split.
    { rewrite <- returned_raise_iff.
      destruct (returned "authToken" o) as [token|err]; simpl.
      - split; intros [e' He]; discriminate He.
      - split; intros _; by exists err. }
    destruct o as [|resp] eqn:Ho.
    { cbn iota. rewrite emitted_extend. by repeat split. }
    destruct (returned "authToken" (Responded resp)) as [token|e] eqn:Hret;
      cbn [succeeds]; cbn iota; rewrite ?andb_false_r, ?andb_true_r.
    2:{ rewrite emitted_extend. by repeat split. }
    cbn [call_failed]. destruct (negb (status_code resp =? 200)%Z) eqn:Hst; cbn [negb].
    + rewrite emitted_extend. by repeat split.
    + split; [apply emitted_app; simpl; by rewrite Hst|]. split; [done|].
      split; [by intros token' _ [= <-]|]. by repeat split.
Qed.

Lemma start_run_calls_auth l :
  Forall (fun e => is_auth_event e = true) l -> start_run_calls l = [].
Proof.
  induction 1 as [|e l He _ IH]; [done|].
  destruct e as [[]| | | |]; try discriminate He; exact IH.
Qed.

Lemma start_run_calls_logs o : start_run_calls (outcome_logs o) = [].
Proof. apply start_run_calls_auth, logs_are_auth_events, outcome_logs_are_logs. Qed.

Lemma start_run_calls_app l1 l2 :
  start_run_calls (l1 ++ l2) = start_run_calls l1 ++ start_run_calls l2.
Proof. unfold start_run_calls. apply omap_app. Qed.

(** Once [authorize] has returned, [start_test_run] sends exactly one
    start-run call, for the configured project, with the framework name
    pytest and the notification targets of [get_notification_configurations],
    and it returns or raises as reading the answer does. Whatever the answer,
    the Run built from the settings replaces the current Run, with the
    identifier that the call returned, and is active exactly when that
    identifier is present; the current Test is left alone; and a log sink is
    registered when the settings ask for it and [start_test_run] returns,
    also when the start call has failed. When [authorize] raises,
    [start_test_run] raises with it and nothing else has happened. *)
Theorem start_test_run_records_the_run w :
  exists ra w1 body,
    authorize E w = (ra, w1) /\
    str_name body = display_name (run (settings E)) /\
    str_framework body = "pytest" /\
    str_notification_targets body = get_notification_configurations E /\
    (ra = Ok tt ->
     let o := net E (length (trace w1)) (StartTestRun (project_key (settings E)) body) in
     let w' := snd (start_test_run E w) in
     fst (start_test_run E w) = discard (returned "id" o) /\
     ((exists e, fst (start_test_run E w) = Raise e) <-> unreadable "id" o) /\
     start_run_calls (emitted w w') = [(project_key (settings E), body)] /\
     ctx_test_run w' = Some (TestRun_set_zebrunner_id (configured_run E) (returned_id o)) /\
     test_run_is_active w' = is_not_none (returned_id o) /\
     ctx_test w' = ctx_test w /\
     zebrunner_handlers w'
     = (if send_logs (settings E) && succeeds (returned "id" o)
        then S (zebrunner_handlers w) else zebrunner_handlers w)) /\
    (forall e, ra = Raise e -> start_test_run E w = (Raise e, w1)).
Proof.
  destruct (start_test_run_eq E w)
    as (ra & w1 & l & Hauth & (_ & Ht & Hh) & Htr & Hl & _ & Heq).
  cbv zeta in Heq.
  exists ra, w1, (start_run_payload E (length (trace w1))).
  split; [exact Hauth|]. do 3 (split; [reflexivity|]).
  split; [|by intros e ->].
  intros ->. cbv zeta. rewrite Heq.
  set (call := StartTestRun _ _). set (o := net E _ call).
  assert (Hcalls : forall tail,
             start_run_calls tail = [] ->
             start_run_calls (l ++ (Sent call :: outcome_logs o) ++ tail)
             = [(project_key (settings E), start_run_payload E (length (trace w1)))]).
  { intros tail Htail.
    rewrite !start_run_calls_app, (start_run_calls_auth l Hl), Htail. simpl.
    change (?x :: start_run_calls ?o) with ([x] ++ start_run_calls o).
    by rewrite start_run_calls_logs. }
  pose proof (returned_raise_iff "id" o) as Hraise.
  destruct (returned "id" o) as [zid|e]; cbn [fst snd discard succeeds];
    rewrite ?andb_true_r, ?andb_false_r.
  - destruct (send_logs (settings E)).
    + split; [reflexivity|]. split.
      { rewrite <- Hraise. split; intros [e' He]; discriminate He. }
      split.
      { erewrite emitted_app; [exact (Hcalls [HandlerAdded] eq_refl)|].
        simpl. by rewrite Htr, <- !app_assoc. }
      repeat split; try done. simpl. by f_equal.
    + split; [reflexivity|]. split.
      { rewrite <- Hraise. split; intros [e' He]; discriminate He. }
      split.
      { erewrite emitted_app; [exact (Hcalls [] eq_refl)|].
        simpl. by rewrite Htr, app_nil_r, <- app_assoc. }
      by repeat split.
  - split; [reflexivity|]. split.
    { rewrite <- Hraise. split; intros _; by exists e. }
    split.
    { erewrite emitted_app; [exact (Hcalls [] eq_refl)|].
      simpl. by rewrite Htr, app_nil_r, <- app_assoc. }
    by repeat split.
Qed.

(** Events that are no start-test and no finish-test call. *)
Lemma no_test_calls l :
  Forall (fun e => is_test_call e = false) l ->
  start_test_calls l = [] /\ finish_test_calls l = [].
Proof.
  induction 1 as [|e l He _ [IHs IHf]]; [done|].
  destruct e as [[]| | | |]; try discriminate He; by split.
Qed.

(** [finish_test_run] does not write the context: the current Run and the
    current Test are as before and the log sinks stay registered. It sends no
    start-test and no finish-test call, so a Test that is still current when
    the run ends is not reported finished. *)
Theorem finish_test_run_keeps_the_context w :
  let w' := snd (finish_test_run E w) in
  ctx_test_run w' = ctx_test_run w /\
  ctx_test w' = ctx_test w /\
  zebrunner_handlers w' = zebrunner_handlers w /\
  start_test_calls (emitted w w') = [] /\
  finish_test_calls (emitted w w') = [].
Proof.
  destruct (finish_test_run_trace E w) as (Hl & _ & (Hr & Ht & Hh) & Hem).
  cbv zeta in *. do 3 (split; [done|]).
  apply no_test_calls. rewrite Hem. clear Hem.
  apply Forall_app. split; [by apply auth_events_quiet|].
  apply Forall_app. split.
  - destruct (succeeds _ && test_run_is_active w); [|constructor].
    constructor; [done|]. apply Forall_app. split; [apply outcome_logs_quiet|].
    destruct (_ && _); by repeat constructor.
  - destruct (succeeds _); by repeat constructor.
Qed.

(** The two client operations that return an identifier hand one to their
    caller exactly when the answer has status 200 and a JSON object as body
    that carries it under [id]. They raise exactly when the answer cannot be
    read: its body is not JSON, or it has status 200 and no [id] to take from
    its body; what they raise is never the error of the transport. In all
    other cases, a failure of the transport or another status with a JSON
    body, they return nothing. *)
Theorem identifier_only_from_status_200 key run_body run_id test_body w :
  let o_run := net E (length (trace w)) (StartTestRun key run_body) in
  let o_test := net E (length (trace w)) (StartTest run_id test_body) in
  let r_run := fst (ZebrunnerAPI.start_test_run E key run_body w) in
  let r_test := fst (ZebrunnerAPI.start_test E run_id test_body w) in
  (forall v, r_run = Ok v /\ v <> VNone <->
             exists resp, o_run = Responded resp /\ status_code resp = 200 /\
                          carries "id" v resp /\ v <> VNone) /\
  (forall v, r_test = Ok v /\ v <> VNone <->
             exists resp, o_test = Responded resp /\ status_code resp = 200 /\
                          carries "id" v resp /\ v <> VNone) /\
  ((exists e, r_run = Raise e) <-> unreadable "id" o_run) /\
  ((exists e, r_test = Raise e) <-> unreadable "id" o_test) /\
  r_run <> Raise RequestError /\
  r_test <> Raise RequestError /\
  (~ unreadable "id" o_run ->
   (forall resp, o_run = Responded resp -> status_code resp <> 200) ->
   r_run = Ok VNone) /\
  (~ unreadable "id" o_test ->
   (forall resp, o_test = Responded resp -> status_code resp <> 200) ->
   r_test = Ok VNone).
Proof.
  cbv zeta. rewrite api_start_test_run_eq, api_start_test_eq. cbv zeta. cbn [fst].
  set (o_run := net E _ (StartTestRun _ _)). set (o_test := net E _ (StartTest _ _)).
  split; [intros v; apply returned_value_iff|].
  split; [intros v; apply returned_value_iff|].
  split; [apply returned_raise_iff|]. split; [apply returned_raise_iff|].
  split; [apply returned_no_transport_error|].
  split; [apply returned_no_transport_error|].
  assert (Hnone : forall o,
            ~ unreadable "id" o ->
            (forall resp, o = Responded resp -> status_code resp <> 200) ->
            returned "id" o = Ok VNone).
  { intros o Hread Hstatus.
    destruct o as [|resp]; [done|]. simpl.
    specialize (Hstatus resp eq_refl). apply Z.eqb_neq in Hstatus. rewrite Hstatus.
    cbn [negb]. destruct (response_json resp) eqn:Hjson; [done|].
    destruct Hread. apply returned_raise_iff. simpl. rewrite Hstatus, Hjson. by eexists. }
  split; apply Hnone.
Qed.

End RunMore.

(** * The service URL, the class of a test and the rerun filter *)

Section Misc.

Variable E : env.

Lemma last_char_cons a b s : last_char (String a (String b s)) = last_char (String b s).
Proof. reflexivity. Qed.

Lemma rstrip_last c s : last_char (rstrip c s) <> Some c.
Proof.
  induction s as [|a s IH]; [done|]. simpl.
  destruct (rstrip c s) as [|b r].
  - destruct (Ascii.eqb a c) eqn:Hac; [done|]. simpl.
    intros [= ->]. by rewrite Ascii.eqb_refl in Hac.
  - by rewrite last_char_cons.
Qed.

Lemma rstrip_decompose c s : exists k, s = rstrip c s +:+ repeat_char c k.
Proof.
  induction s as [|a s [k IH]]; [by exists 0%nat|]. simpl.
  destruct (rstrip c s) as [|b r].
  - destruct (Ascii.eqb a c) eqn:Hac.
    + apply Ascii.eqb_eq in Hac as ->. exists (S k). simpl. by rewrite IH at 1.
    + exists k. rewrite PyStringFacts.append_cons. by rewrite IH at 1.
  - exists k. rewrite PyStringFacts.append_cons. by rewrite IH at 1.
Qed.

Lemma last_char_append_repeat c r k : last_char (r +:+ repeat_char c (S k)) = Some c.
Proof.
  induction r as [|a r IH].
  - change (last_char (repeat_char c (S k)) = Some c).
    induction k as [|k IHk]; [done|]. by rewrite <- IHk.
  - rewrite PyStringFacts.append_cons.
    destruct (r +:+ repeat_char c (S k)) as [|b s] eqn:Hs; [by destruct r|].
    by rewrite last_char_cons.
Qed.

(** The service URL is the host name without its trailing slashes: it does
    not end in a slash, the host name is the service URL followed by slashes
    only, and a host name that does not end in a slash is kept as it is. *)
Theorem service_url_has_no_trailing_slash :
  last_char (ZebrunnerAPI.service_url E) <> Some "/"%char /\
  (exists k, hostname (server (settings E))
             = ZebrunnerAPI.service_url E +:+ repeat_char "/" k) /\
  (last_char (hostname (server (settings E))) <> Some "/"%char ->
   ZebrunnerAPI.service_url E = hostname (server (settings E))).
Proof.
  unfold ZebrunnerAPI.service_url.
  split; [apply rstrip_last|]. split; [apply rstrip_decompose|].
  intros Hlast. destruct (rstrip_decompose "/" (hostname (server (settings E)))) as [k Hk].
  destruct k as [|k]; [by rewrite Hk at 2; rewrite PyStringFacts.append_nil_r|].
  exfalso. apply Hlast. rewrite Hk. apply last_char_append_repeat.
Qed.

Lemma startswith_colons c a rest :
  PyString.startswith "::" (String c (a +:+ ":"))
  = PyString.startswith "::" (String c (a +:+ "::" +:+ rest)).
Proof. by destruct a as [|b a]. Qed.

(** The first cut of [split] falls on the first separator. *)
Lemma split_go_first_colons acc a rest :
  PyString.contains "::" (a +:+ ":") = false ->
  PyString.split_go "::" 0 acc (a +:+ "::" +:+ rest)
  = (acc +:+ a) :: PyString.split_go "::" 0 EmptyString rest.
Proof.
  revert acc. induction a as [|c a IH]; intros acc Hfree.
  - by rewrite PyStringFacts.append_nil_r.
  - rewrite PyStringFacts.append_cons in Hfree. cbn [PyString.contains] in Hfree.
    apply orb_false_iff in Hfree as [Hhere Hlater].
    rewrite PyStringFacts.append_cons. cbn [PyString.split_go].
    rewrite <- startswith_colons, Hhere, (IH _ Hlater).
    by rewrite PyStringFacts.append_assoc.
Qed.

(** The class of a Test is what stands between the first and the second
    separator of the node id, or behind the first when there is one only: for
    a test function of a module, its own name; for a method, the name of its
    class. *)
Theorem nodeid_file_is_second_segment item path name :
  PyString.contains "::" (path +:+ ":") = false ->
  (PyString.contains "::" name = false ->
   nodeid item = path +:+ "::" +:+ name ->
   nodeid_file item = Ok name) /\
  (forall rest,
     PyString.contains "::" (name +:+ ":") = false ->
     nodeid item = path +:+ "::" +:+ name +:+ "::" +:+ rest ->
     nodeid_file item = Ok name).
Proof.
  intros Hpath. split.
  - intros Hname Hid. unfold nodeid_file, PyString.split. rewrite Hid.
    rewrite (split_go_first_colons _ _ _ Hpath).
    by rewrite (PyStringFacts.split_go_no_sep _ _ _ Hname).
  - intros rest Hname Hid. unfold nodeid_file, PyString.split. rewrite Hid.
    rewrite (split_go_first_colons _ _ _ Hpath).
    by rewrite (split_go_first_colons _ _ _ Hname).
Qed.

Lemma filter_sublist {A} (f : A -> bool) (l : list A) : sublist (List.filter f l) l.
Proof.
  induction l as [|x l IH]; [constructor|]. simpl.
  destruct (f x); by constructor.
Qed.

(** With a rerun token, what [filter_test_items] keeps is a sublist of the
    items, each of them named by the correlation data of the descriptor; the
    name of a descriptor entry itself plays no part, so a descriptor whose
    entries carry no correlation data deselects every item. An error of the
    fetch leaves [filter_test_items] as it is raised: the items are not
    returned unfiltered. *)
Theorem filter_test_items_deselects items token w w1 :
  context (run (settings E)) = Some token ->
  authorize E w = (Ok tt, w1) ->
  (forall data w2,
     get_rerun_tests E token w1 = (Ok data, w2) ->
     exists kept,
       filter_test_items E items w = (Ok kept, w2) /\
       sublist kept items /\
       Forall (fun x => named_in_descriptor data (item_name x) = true) kept /\
       (Forall (fun t => tm_correlation_data t = None) (rr_tests data) -> kept = [])) /\
  (forall e w2,
     get_rerun_tests E token w1 = (Raise e, w2) ->
     filter_test_items E items w = (Raise e, w2)).
Proof.
  intros Htok Hauth. split.
  - intros data w2 Hfetch. eexists. split.
    { unfold filter_test_items. rewrite Htok, bind_eq, Hauth, bind_eq, Hfetch.
      reflexivity. }
    split; [apply filter_sublist|]. split.
    + apply Forall_forall. intros x Hx. apply list_elem_of_In, filter_In in Hx as [_ Hx].
      by rewrite rerun_names_spec in Hx.
    + intros Hnone.
      assert (Hno : forall name, named_in_descriptor data name = false).
      { intros name. unfold named_in_descriptor.
        induction Hnone as [|t ts Ht _ IH]; [done|]. simpl. by rewrite Ht, IH. }
      clear -Hno. induction items as [|x items IH]; [done|].
      simpl. by rewrite rerun_names_spec, Hno.
  - intros e w2 Hfetch. unfold filter_test_items.
    by rewrite Htok, bind_eq, Hauth, bind_eq, Hfetch.
Qed.

End Misc.

(** * The further properties on samples *)

Lemma start_test_keeps_the_server_id_witness :
  exists body,
    fst (register_test Samples.env_up MoreSamples.item_method Samples.run_active) = Ok tt /\
    start_test_calls
      (emitted Samples.run_active
         (snd (register_test Samples.env_up MoreSamples.item_method Samples.run_active)))
    = [(VInt 7, body)] /\
    st_class_name body = "TestLogin" /\
    st_maintainer body = Some "alice,bob" /\
    ctx_test (snd (register_test Samples.env_up MoreSamples.item_method Samples.run_active))
    = Some (Test_set_zebrunner_id MoreSamples.test_method (VInt 1)).
Proof.
  destruct (start_test_keeps_the_server_id Samples.env_up MoreSamples.item_method
              Samples.run_active MoreSamples.test_method "alice,bob"
              eq_refl eq_refl eq_refl)
    as (ra & w1 & body & Hauth & _ & _ & Hclass & Hmaint & _ & Hsent & _).
  injection Hauth as <- <-.
  destruct (Hsent eq_refl) as (Hres & Hcalls & Hctx & _).
  exists body. repeat split; assumption.
Defined.

Lemma marker_without_arguments_raises_witness :
  start_test Samples.env_up Samples.passed MoreSamples.item_bare_maintainer Samples.run_active
  = (Raise IndexError, Samples.run_active).
Proof.
  assert (Hbare : Exists (fun m => mark_args m = [])
                          (iter_markers "maintainer" MoreSamples.item_bare_maintainer) \/
                   Exists (fun m => (length (mark_args m) < 2)%nat)
                          (iter_markers "label" MoreSamples.item_bare_maintainer))
    by (left; apply Exists_cons_hd; reflexivity).
  destruct (marker_without_arguments_raises Samples.env_up Samples.passed
              MoreSamples.item_bare_maintainer Samples.run_active Hbare)
    as (ra & w' & Hauth & Hrun & _).
  injection Hauth as <- <-. exact Hrun.
Defined.

Lemma maintainer_that_is_no_string_witness :
  start_test Samples.env_up Samples.passed MoreSamples.item_numeric_maintainer
    Samples.run_active
  = (Raise TypeError, with_test (Some MoreSamples.test_numeric_maintainer) Samples.run_active)
  /\
  start_test Samples.env_up Samples.passed MoreSamples.item_numeric_maintainer
    (with_test_run None Samples.run_active)
  = (Ok tt, with_test (Some MoreSamples.test_numeric_maintainer)
              (with_test_run None Samples.run_active)).
Proof.
  assert (Hnumber : Exists (fun v => is_str v = false)
                            (test_maintainers MoreSamples.test_numeric_maintainer))
    by (apply Exists_cons_hd; reflexivity).
  destruct (maintainer_that_is_no_string Samples.env_up Samples.passed
              MoreSamples.item_numeric_maintainer Samples.run_active
              MoreSamples.test_numeric_maintainer eq_refl Hnumber)
    as (ra & w1 & Hauth & _ & Hreturned & _).
  destruct (maintainer_that_is_no_string Samples.env_up Samples.passed
              MoreSamples.item_numeric_maintainer (with_test_run None Samples.run_active)
              MoreSamples.test_numeric_maintainer eq_refl Hnumber)
    as (ra2 & w2 & Hauth2 & _ & Hreturned2 & _).
  injection Hauth as <- <-. injection Hauth2 as <- <-.
  destruct (Hreturned eq_refl) as [Hactive _].
  destruct (Hreturned2 eq_refl) as [_ Hinactive].
  split; [exact (Hactive eq_refl)|exact (Hinactive eq_refl)].
Defined.

Lemma test_is_finished_once_witness :
  let run :=
    handle_all Samples.env_up
      [StartTestEvent Samples.skipped Samples.item_skip;
       FinishTestEvent Samples.skipped Samples.item_skip]
      Samples.run_active in
  fst run = Ok tt /\
  length (finish_test_calls (emitted Samples.run_active (snd run))) = 1%nat /\
  test_is_active (snd run) = false.
Proof.
  intros run.
  destruct (test_is_finished_once Samples.env_up Samples.skipped Samples.skipped
              Samples.item_skip Samples.item_skip Samples.run_active
              (snd (register_test Samples.env_up Samples.item_skip Samples.run_active))
              eq_refl)
    as [_ Hreturned].
  split; [reflexivity|]. exact (Hreturned eq_refl).
Defined.

Lemma skipped_outcome_is_reported_failed_witness :
  exists body,
    finish_test_calls
      (emitted Samples.test_active
         (snd (finish_test Samples.env_up Samples.skipped Samples.item_a Samples.test_active)))
    = [(VInt 7, VInt 9, body)] /\
    ft_result body = "FAILED" /\
    ft_reason body = VStr "Skipped: env".
Proof.
  destruct (skipped_outcome_is_reported_failed Samples.env_up Samples.skipped Samples.item_a
              Samples.test_active eq_refl eq_refl)
    as (body & Hcalls & Hplain & _).
  exists body. split; [exact Hcalls|]. exact (Hplain eq_refl).
Defined.

Lemma nodeid_file_is_second_segment_witness :
  nodeid_file Samples.item_a = Ok "test_a" /\
  nodeid_file MoreSamples.item_method = Ok "TestLogin".
Proof.
  destruct (nodeid_file_is_second_segment Samples.item_a "tests/test_api.py" "test_a" eq_refl)
    as [Hfunction _].
  destruct (nodeid_file_is_second_segment MoreSamples.item_method "tests/test_api.py"
              "TestLogin" eq_refl) as [_ Hmethod].
  split; [exact (Hfunction eq_refl eq_refl)|exact (Hmethod "test_ok" eq_refl eq_refl)].
Defined.

Lemma filter_test_items_deselects_witness :
  let E := Samples.env_of Samples.config_rerun Samples.net_up in
  exists kept,
    filter_test_items E [Samples.item_b; Samples.item_a; Samples.item_b] Samples.run_active
    = (Ok kept, Samples.run_active) /\
    sublist kept [Samples.item_b; Samples.item_a; Samples.item_b].
Proof.
  intros E.
  destruct (filter_test_items_deselects E [Samples.item_b; Samples.item_a; Samples.item_b]
              "rerun-token" Samples.run_active Samples.run_active eq_refl eq_refl)
    as [Hkeep _].
  destruct (Hkeep Samples.rerun_data Samples.run_active eq_refl) as (kept & Hrun & Hsub & _).
  by exists kept.
Defined.

Lemma finish_calls_follow_their_start_witness :
  let w' :=
    snd (handle_all Samples.env_up
           [StartTestEvent Samples.passed Samples.item_a;
            FinishTestEvent Samples.passed Samples.item_a]
           Samples.run_active) in
  exists body,
    trace w' !! 1%nat = Some (Sent (FinishTest (VInt 7) (VInt 1) body)) /\
    exists i, started_at Samples.env_up (trace w') 0 i 1 (VInt 7) (VInt 1).
Proof.
  intros w'. eexists. split; [vm_compute; reflexivity|].
  eapply (finish_calls_follow_their_start Samples.env_up
            [StartTestEvent Samples.passed Samples.item_a;
             FinishTestEvent Samples.passed Samples.item_a]
            Samples.run_active eq_refl 1%nat (VInt 7) (VInt 1)).
  - simpl. lia.
  - vm_compute. reflexivity.
Defined.

